(** * Leveraged yield-farming simulator: liquidity math, strategies, driver

    A shallow embedding of [util.py], [strategies/core.py],
    [strategies/rewards.py], [strategies/trading.py] and [simulation.py].

    Number model.  Python floats are idealised as real numbers: [+ - * /]
    are the operations of [R], [x ** 0.5] is [sqrt x] and [np.exp] is [exp].
    Rounding, overflow and the special values inf / nan are outside the
    model, and so is what a division by zero does; the statements carry
    the hypotheses (positive prices, a reward price and an anchor other
    than zero) under which the path they describe divides by no zero and
    takes no square root of a negative number.  The two divisions of the
    driver whose divisor is the pool equity or the pool value
    ([debt_ratio], [effective_leverage]) are the exception: they return a
    [quotient], which is a number or the sentinel that numpy leaves for a
    divisor of zero.

    Error model.  A raised Python exception is a value [Raise e]; a
    function that can raise returns [result A], and an exception aborts
    the whole computation, nothing being returned next to it. *)

From Stdlib Require Import Reals Lra Lia ZArith List String Bool Sorted.
Import ListNotations.
Open Scope R_scope.

(** ** Exceptions *)

Inductive exn : Type :=
| ValueError
| KeyError
| TypeError
| IndexError
| UnboundLocalError
| ZeroDivisionError.

Inductive result (A : Type) : Type :=
| Ok (a : A)
| Raise (e : exn).

Arguments Ok {A} a.
Arguments Raise {A} e.

Definition bind {A B : Type} (m : result A) (f : A -> result B) : result B :=
  match m with
  | Ok a => f a
  | Raise e => Raise e
  end.

Notation "x <- m ;; k" := (bind m (fun x => k))
  (at level 61, m at next level, right associativity).
Notation "' pat <- m ;; k" := (bind m (fun x => match x with pat => k end))
  (at level 61, pat pattern, m at next level, right associativity).

Definition is_ok {A : Type} (m : result A) : bool :=
  match m with Ok _ => true | Raise _ => false end.

(** Two-element Python lists of floats ([token_supply], [token_debt],
    [pool_prices]) are pairs. *)
Definition pair2 : Type := (R * R)%type.

(** What a float64 division leaves behind: a number, or one of the
    sentinels numpy returns, with a warning and without raising, when the
    divisor is zero. *)
Inductive quotient : Type :=
| Finite (x : R)
| PosInf
| NegInf
| NaN.

(** [x / y] where an operand is a [numpy.float64]: a zero divisor gives
    [inf], [-inf] or [nan] by the sign of the dividend.  The zero divisors
    met here are differences and sums that cancel, which is [+0.0]. *)
Definition np_divide (x y : R) : quotient :=
  if Req_dec_T y 0 then
    if Rlt_dec 0 x then PosInf
    else if Rlt_dec x 0 then NegInf
    else NaN
  else Finite (x / y).

Definition pair2_eqb (a b : pair2) : bool :=
  (if Req_dec_T (fst a) (fst b) then true else false)
  && (if Req_dec_T (snd a) (snd b) then true else false).

(** ** util.py *)

Module Util.

(** [iloss_amt(k, r)]: [x = (k * r) ** 0.5], [y = (k / r) ** 0.5],
    returned as [[x, y]]. *)
Definition iloss_amt (k r : R) : pair2 :=
  let x := sqrt (k * r) in
  let y := sqrt (k / r) in
  (x, y).

End Util.

(** ** strategies/core.py *)

Module Core.

(** [add_liquidity(capital, leverage, pool_prices, fee_swap, fee_gas)]
    returns [(token_supply, token_debt, fees)] or raises [ValueError]. *)
Definition add_liquidity (capital leverage : R) (pool_prices : pair2)
    (fee_swap fee_gas : R) : result (pair2 * pair2 * R) :=
  let '(token0_price, token1_price) := pool_prices in
  let capital := capital * (1 - fee_swap) in
  if Req_dec_T leverage 1 then
    let token0_supply := (capital / 2) / token0_price in
    let token1_supply := (capital / 2) / token1_price in
    Ok ((token0_supply, token1_supply), (0, 0), fee_gas)
  else if Req_dec_T leverage 2 then
    let token0_debt := 0 in
    let token1_debt := capital / token1_price in
    let token1_supply := token1_debt in
    let token0_supply := capital / token0_price in
    Ok ((token0_supply, token1_supply), (token0_debt, token1_debt),
        4 * fee_gas)
  else if Rgt_dec leverage 2 then
    let token0_supply_value := (1 / 2) * leverage * capital in
    let token1_supply_value := (1 / 2) * leverage * capital in
    let token0_supply := token0_supply_value / token0_price in
    let token1_supply := token1_supply_value / token1_price in
    let multiplier := leverage - 1 in
    let token0_frac := 1 / (leverage / (leverage - 2) + 1) in
    let token1_frac := 1 - token0_frac in
    let token0_debt_value := capital * token0_frac * multiplier in
    let token1_debt_value := capital * token1_frac * multiplier in
    let token0_debt := token0_debt_value / token0_price in
    let token1_debt := token1_debt_value / token1_price in
    Ok ((token0_supply, token1_supply), (token0_debt, token1_debt),
        6 * fee_gas)
  else Raise ValueError.

(** [remove_liquidity(token_supply, token_debt, pool_prices, amount,
    fee_swap, fee_gas)] returns
    [(token_supply_remaining, token_debt_remaining, cash, fees)]. *)
Definition remove_liquidity (token_supply token_debt pool_prices : pair2)
    (amount fee_swap fee_gas : R) : pair2 * pair2 * R * R :=
  let '(token0_price, token1_price) := pool_prices in
  let '(token0_supply, token1_supply) := token_supply in
  let '(token0_debt, token1_debt) := token_debt in
  let fees := 0 in
  let token0_supply_remaining := token0_supply * (1 - amount) in
  let token1_supply_remaining := token1_supply * (1 - amount) in
  let token0_debt_remaining := token0_debt * (1 - amount) in
  let token1_debt_remaining := token1_debt * (1 - amount) in
  let token0_equity := token0_supply - token0_debt in
  let token0_sell := token0_equity * amount in
  let token0_cash := token0_sell * token0_price * (1 - fee_swap) in
  let fees := fees + fee_gas in
  let token1_equity := token1_supply - token1_debt in
  let token1_sell := token1_equity * amount in
  let token1_cash := token1_sell * token1_price * (1 - fee_swap) in
  let fees := fees + fee_gas in
  let cash := token0_cash + token1_cash in
  ((token0_supply_remaining, token1_supply_remaining),
   (token0_debt_remaining, token1_debt_remaining), cash, fees).

End Core.

(** ** strategies/rewards.py *)

Module Rewards.

(** Constructor arguments are untyped Python values. *)
Inductive value : Type :=
| VFloat (x : R)
| VCallable (name : string)
| VNone.

(** A comparison [v <= 0] or an arithmetic use of a non-number raises
    [TypeError]. *)
Definition as_float (v : value) : result R :=
  match v with
  | VFloat x => Ok x
  | _ => Raise TypeError
  end.

(** [sell_rewards(reward_tokens, reward_price, pool_tokens, amount,
    fee_swap, fee_gas)] returns [(reward_tokens, pool_tokens, cash, fees)]. *)
Definition sell_rewards (reward_tokens reward_price : R)
    (pool_tokens : option pair2) (amount : value) (fee_swap fee_gas : R)
    : result (R * option pair2 * R * R) :=
  amount <- as_float amount ;;
  if Rle_dec amount 0 then Ok (reward_tokens, pool_tokens, 0, 0)
  else
    let reward_tokens_sell := amount * reward_tokens in
    let reward_tokens := reward_tokens - reward_tokens_sell in
    let reward_tokens_sell_after_fees := reward_tokens_sell * (1 - fee_swap) in
    let cash := reward_tokens_sell_after_fees * reward_price in
    let fees := fee_gas * 1 in
    Ok (reward_tokens, pool_tokens, cash, fees).

Inductive rewards_class : Type :=
| SellRewardsStrategy
| CompoundRewardsStrategy.

(** An instance: its class and the attribute set by the base initializer. *)
Record RewardsStrategy : Type := mkRewardsStrategy {
  rewards_class_of : rewards_class;
  _rewards_sell_amount : value
}.

(** [RewardsStrategy.__init__(self, sell_amount)]: exactly one argument
    next to [self]; any other number of positional arguments is a
    [TypeError] of the call. *)
Definition RewardsStrategy_init (cls : rewards_class) (args : list value)
    : result RewardsStrategy :=
  match args with
  | [sell_amount] => Ok (mkRewardsStrategy cls sell_amount)
  | _ => Raise TypeError
  end.

(** [SellRewardsStrategy.__init__(self, sell_amount)] calls
    [super().__init__(sell_amount)]. *)
Definition SellRewardsStrategy_init (args : list value)
    : result RewardsStrategy :=
  match args with
  | [sell_amount] => RewardsStrategy_init SellRewardsStrategy [sell_amount]
  | _ => Raise TypeError
  end.

(** [CompoundRewardsStrategy.__init__(self, rewards_fn, sell_amount)] calls
    [super().__init__(rewards_fn, sell_amount)]. *)
Definition CompoundRewardsStrategy_init (args : list value)
    : result RewardsStrategy :=
  match args with
  | [rewards_fn; sell_amount] =>
      RewardsStrategy_init CompoundRewardsStrategy [rewards_fn; sell_amount]
  | _ => Raise TypeError
  end.

(** Instantiating a class of the module with a list of positional
    arguments. *)
Definition instantiate (cls : rewards_class) (args : list value)
    : result RewardsStrategy :=
  match cls with
  | SellRewardsStrategy => SellRewardsStrategy_init args
  | CompoundRewardsStrategy => CompoundRewardsStrategy_init args
  end.

(** Subscripting an [Optional] argument that is [None] raises. *)
Definition subscriptable (o : option pair2) : result pair2 :=
  match o with
  | Some p => Ok p
  | None => Raise TypeError
  end.

Definition SellRewardsStrategy_execute (self : RewardsStrategy)
    (reward_tokens reward_price : R) (pool_tokens pool_prices : option pair2)
    (fee_swap fee_gas : R) : result (R * option pair2 * R * R) :=
  sell_rewards reward_tokens reward_price pool_tokens
    (_rewards_sell_amount self) fee_swap fee_gas.

Definition CompoundRewardsStrategy_execute (self : RewardsStrategy)
    (reward_tokens reward_price : R) (pool_tokens pool_prices : option pair2)
    (fee_swap fee_gas : R) : result (R * option pair2 * R * R) :=
  amount <- as_float (_rewards_sell_amount self) ;;
  if Rle_dec amount 0 then Ok (reward_tokens, pool_tokens, 0, 0)
  else
    '(reward_tokens, _, cash, fees) <-
      sell_rewards reward_tokens reward_price None
        (_rewards_sell_amount self) fee_swap fee_gas ;;
    prices <- subscriptable pool_prices ;;
    (* i = 0 *)
    let cash_swap_after_fees := (1 / 2) * cash * (1 - fee_swap) in
    let bought_tokens := cash_swap_after_fees / fst prices in
    tokens <- subscriptable pool_tokens ;;
    let tokens := (fst tokens + bought_tokens, snd tokens) in
    (* i = 1 *)
    let cash_swap_after_fees := (1 / 2) * cash * (1 - fee_swap) in
    let bought_tokens := cash_swap_after_fees / snd prices in
    let tokens := (fst tokens, snd tokens + bought_tokens) in
    let cash := 0 in
    let fees := fees + fee_gas * 2 in
    let fees := fees + fee_gas * 1 in
    Ok (reward_tokens, Some tokens, cash, fees).

(** Method dispatch on the instance's class. *)
Definition execute (self : RewardsStrategy)
    (reward_tokens reward_price : R) (pool_tokens pool_prices : option pair2)
    (fee_swap fee_gas : R) : result (R * option pair2 * R * R) :=
  match rewards_class_of self with
  | SellRewardsStrategy =>
      SellRewardsStrategy_execute self reward_tokens reward_price
        pool_tokens pool_prices fee_swap fee_gas
  | CompoundRewardsStrategy =>
      CompoundRewardsStrategy_execute self reward_tokens reward_price
        pool_tokens pool_prices fee_swap fee_gas
  end.

End Rewards.

(** ** The input table

    A pandas DataFrame indexed by date: the column labels, and per row
    the date (a day number) with the row's cells.  Reading a cell whose
    column is not among the labels raises [KeyError]. *)

Module Frame.

Record DataFrame : Type := mkDataFrame {
  columns : list string;
  rows : list (Z * (string -> R))
}.

(** One row as [iterrows] and [iloc] hand it out. *)
Record Series : Type := mkSeries {
  name : Z;
  labels : list string;
  cells : string -> R
}.

Definition has_column (df : DataFrame) (c : string) : bool :=
  existsb (String.eqb c) (columns df).

(** The cells of a row after the cell of column [c] is assigned [v]. *)
Definition assign (c : string) (v : R) (cells : string -> R) : string -> R :=
  fun c' => if String.eqb c' c then v else cells c'.

(** [df[c] = v] with a scalar [v]. *)
Definition set_column (df : DataFrame) (c : string) (v : R) : DataFrame :=
  mkDataFrame
    (if has_column df c then columns df else columns df ++ [c])
    (map (fun dr : Z * (string -> R) => (fst dr, assign c v (snd dr)))
         (rows df)).

Definition series_of (df : DataFrame) (dr : Z * (string -> R)) : Series :=
  mkSeries (fst dr) (columns df) (snd dr).

Definition iterrows (df : DataFrame) : list Series :=
  map (series_of df) (rows df).

(** [row[c]] *)
Definition getitem (row : Series) (c : string) : result R :=
  if existsb (String.eqb c) (labels row) then Ok (cells row c)
  else Raise KeyError.

(** [df[c][0]] *)
Definition column_first (df : DataFrame) (c : string) : result R :=
  if has_column df c then
    match rows df with
    | dr :: _ => Ok (snd dr c)
    | [] => Raise IndexError
    end
  else Raise KeyError.

(** [df.iloc[0]] and [df.iloc[-1]] *)
Definition iloc_first (df : DataFrame) : result Series :=
  match rows df with
  | dr :: _ => Ok (series_of df dr)
  | [] => Raise IndexError
  end.

Definition iloc_last (df : DataFrame) : result Series :=
  match rev (rows df) with
  | dr :: _ => Ok (series_of df dr)
  | [] => Raise IndexError
  end.

(** [df[df.index <= idx]] *)
Definition up_to (df : DataFrame) (idx : Z) : DataFrame :=
  mkDataFrame (columns df)
    (filter (fun dr : Z * (string -> R) => (fst dr <=? idx)%Z) (rows df)).

End Frame.

(** ** strategies/trading.py *)

Module Trading.

Definition metadata : Type := list (string * R).

Record RebalanceStrategy : Type := mkRebalanceStrategy {
  _price_anchor : R;
  _threshold : R;
  _leverage : R;
  _amount : R;
  _fee_swap : R;
  _fee_gas : R;
  _initial_price : R
}.

(** [RebalanceStrategy.__init__] with its defaults written out by the
    caller. *)
Definition RebalanceStrategy_init
    (price_anchor threshold leverage amount fee_swap fee_gas : R)
    : RebalanceStrategy :=
  mkRebalanceStrategy price_anchor threshold leverage amount fee_swap
    fee_gas price_anchor.

Definition set_price_anchor (self : RebalanceStrategy) (p : R)
    : RebalanceStrategy :=
  mkRebalanceStrategy p (_threshold self) (_leverage self) (_amount self)
    (_fee_swap self) (_fee_gas self) (_initial_price self).

Inductive TradingStrategy : Type :=
| HODLStrategy
| Rebalancing (self : RebalanceStrategy).

(** What [execute] returns: supply, debt, cash, fees, metadata. *)
Definition outcome : Type := (pair2 * pair2 * R * R * metadata)%type.

Definition HODLStrategy_execute (token_supply token_debt : pair2)
    (df : Frame.DataFrame) (input_cash : R) : result outcome :=
  Ok (token_supply, token_debt, input_cash, 0, []).

(** The deviation of the latest token1 price from the anchor. *)
Definition price_delta_of (token1_price anchor : R) : R :=
  Rabs (token1_price - anchor) / anchor.

(** [RebalanceStrategy.execute]; the instance is threaded through because
    the method assigns [self._price_anchor]. *)
Definition RebalanceStrategy_execute (self : RebalanceStrategy)
    (token_supply token_debt : pair2) (df : Frame.DataFrame)
    (input_cash : R) : result (RebalanceStrategy * outcome) :=
  last <- Frame.iloc_last df ;;
  token0_price <- Frame.getitem last "token0_price" ;;
  token1_price <- Frame.getitem last "token1_price" ;;
  let pool_prices := (token0_price, token1_price) in
  let output_cash := input_cash in
  let price_delta := price_delta_of token1_price (_price_anchor self) in
  let metadata := [("price_delta"%string, price_delta)] in
  if Rgt_dec price_delta (_threshold self) then
    let '(token_supply, token_debt, cash_close, fees_close) :=
      Core.remove_liquidity token_supply token_debt pool_prices
        (_amount self) (_fee_swap self) (_fee_gas self) in
    '(token_supply, token_debt, fees_open) <-
      Core.add_liquidity cash_close (_leverage self) pool_prices
        (_fee_swap self) (_fee_gas self) ;;
    let fees := fees_close + fees_open in
    Ok (set_price_anchor self token1_price,
        (token_supply, token_debt, output_cash, fees, metadata))
  else
    Ok (self, (token_supply, token_debt, output_cash, 0, metadata)).

Definition execute (strategy_cls : TradingStrategy)
    (token_supply token_debt : pair2) (df : Frame.DataFrame)
    (input_cash : R) : result (TradingStrategy * outcome) :=
  match strategy_cls with
  | HODLStrategy =>
      out <- HODLStrategy_execute token_supply token_debt df input_cash ;;
      Ok (HODLStrategy, out)
  | Rebalancing self =>
      '(self, out) <-
        RebalanceStrategy_execute self token_supply token_debt df
          input_cash ;;
      Ok (Rebalancing self, out)
  end.

End Trading.

(** ** simulation.py *)

Module Simulation.

Import Frame.

(** The derived columns of one epoch ([daily_record]). *)
Record EpochRecord : Type := mkEpochRecord {
  token0_supply_open : R;
  token1_supply_open : R;
  position_pool_open_dollars : R;
  apy_total : R;
  token0_earnings : R;
  token1_earnings : R;
  trading_fee_earnings_dollars : R;
  reward_earnings_dollars : R;
  reward_token_earnings : R;
  cash_from_rewards : R;
  token0_supply_close : R;
  token1_supply_close : R;
  token0_debt_close : R;
  token1_debt_close : R;
  pool_value : R;
  cash_value : R;
  rewards_value : R;
  fees_value : R;
  position_value : R;
  debt_value : R;
  pool_equity : R;
  equity_value : R;
  profit_value : R;
  effective_leverage : quotient;
  roi : R;
  annualized_apr : R;
  debt_ratio : quotient;
  iloss : R;
  position_hodl_dollars : R;
  trade_event : bool;
  strategy_metadata : Trading.metadata
}.

(** The keyword arguments of [simulate] that may be left at [None]. *)
Record Overrides : Type := mkOverrides {
  reward_token_price : option R;
  apy_trading_fee : option R;
  apy_reward : option R;
  apy_borrow_token0 : option R;
  apy_borrow_token1 : option R
}.

(** [if c not in df.columns and v is not None: df[c] = v] *)
Definition add_optional (df : DataFrame) (c : string) (v : option R)
    : DataFrame :=
  match v with
  | Some x => if has_column df c then df else set_column df c x
  | None => df
  end.

(** Lines 97 to 114: the copy of the table the loop runs over.  The
    derived columns that [enrich_columns] adds are the fields of
    [EpochRecord]. *)
Definition prepare (df : DataFrame) (ov : Overrides) (fee_gas : R)
    : DataFrame :=
  let df := add_optional df "reward_token_price" (reward_token_price ov) in
  let df := add_optional df "apy_trading_fee" (apy_trading_fee ov) in
  let df := add_optional df "apy_reward" (apy_reward ov) in
  let df := add_optional df "apy_borrow_token0" (apy_borrow_token0 ov) in
  let df := add_optional df "apy_borrow_token1" (apy_borrow_token1 ov) in
  let df := set_column df "fee_gas" fee_gas in
  let df := set_column df "fee_swap" fee_gas in
  df.

(** What the loop carries from one epoch to the next, the trading
    strategy instance included. *)
Record LoopState : Type := mkLoopState {
  strategy_cls : Trading.TradingStrategy;
  last_token0_supply : R;
  last_token1_supply : R;
  last_token0_debt : R;
  last_token1_debt : R;
  cash_accum : R;
  fees_accum : R;
  rewards_accum : R
}.

(** What is fixed before the loop starts. *)
Record Initial : Type := mkInitial {
  ratio_initial : R;
  token0_supply_initial : R;
  token1_supply_initial : R;
  first_date : Z
}.

(** [apy * 1.0 / 365.25] with [apy] possibly [None]. *)
Definition daily_rate (apy : option R) : result R :=
  match apy with
  | Some a => Ok (a * 1 / (36525 / 100))
  | None => Raise TypeError
  end.

(** [365 / days_elapsed] on Python integers. *)
Definition per_year (days_elapsed : Z) : result R :=
  if (days_elapsed =? 0)%Z then Raise ZeroDivisionError
  else Ok (365 / IZR days_elapsed).

(** Lines 116 to 157: everything before the loop. *)
Definition simulate_init (df : DataFrame)
    (strategy : Trading.TradingStrategy) (initial_cap leverage : R)
    (fee_gas fee_swap : R) (open_on_start : bool)
    : result (Initial * LoopState) :=
  price0_initial <- column_first df "token0_price" ;;
  price1_initial <- column_first df "token1_price" ;;
  let ratio_initial := price1_initial / price0_initial in
  let token0_supply_initial := 0 in
  let token1_supply_initial := 0 in
  let token0_debt_initial := 0 in
  let token1_debt_initial := 0 in
  let cash_accum := initial_cap in
  if open_on_start then
    '(token_supply, token_debt, fees_open) <-
      Core.add_liquidity initial_cap leverage
        (price0_initial, price1_initial) fee_swap fee_gas ;;
    let '(token0_supply_initial, token1_supply_initial) := token_supply in
    let '(token0_debt_initial, token1_debt_initial) := token_debt in
    let cash_accum := 0 in
    let fees_accum := fees_open in
    let rewards_accum := 0 in
    first <- iloc_first df ;;
    Ok (mkInitial ratio_initial token0_supply_initial token1_supply_initial
          (name first),
        mkLoopState strategy token0_supply_initial token1_supply_initial
          token0_debt_initial token1_debt_initial cash_accum fees_accum
          rewards_accum)
  else
    (* [fees_accum = fees_open] reads a local that was never bound *)
    Raise UnboundLocalError.

(** Lines 161 to 409: the body of the loop for one row. *)
Definition epoch (df : DataFrame) (rewards_cls : Rewards.RewardsStrategy)
    (initial_cap leverage fee_swap : R) (ov : Overrides) (init : Initial)
    (st : LoopState) (row : Series) : result (LoopState * EpochRecord) :=
  let idx := name row in
  let cur_date := name row in
  let days_elapsed := (cur_date - first_date init + 1)%Z in
  token0_price <- getitem row "token0_price" ;;
  token1_price <- getitem row "token1_price" ;;
  reward_token_price <- getitem row "reward_token_price" ;;
  ratio_n <- getitem row "token1_price" ;;
  ratio_d <- getitem row "token0_price" ;;
  let ratio := ratio_n / ratio_d in
  apy_trading_fee <- getitem row "apy_trading_fee" ;;
  apy_reward <- getitem row "apy_reward" ;;
  fee_gas <- getitem row "fee_gas" ;;
  let tk := last_token0_supply st * last_token1_supply st in
  let '(token0_supply_open, token1_supply_open) := Util.iloss_amt tk ratio in
  let token0_supply_cur := token0_supply_open in
  let token1_supply_cur := token1_supply_open in
  let token0_debt_cur := last_token0_debt st in
  let token1_debt_cur := last_token1_debt st in
  let position_pool_open_dollars :=
    token0_price * token0_supply_open + token1_price * token1_supply_open in
  let apy_total := apy_trading_fee + apy_reward in
  let token0_earnings := token0_supply_open * (apy_trading_fee / (36525 / 100)) in
  let token1_earnings := token1_supply_open * (apy_trading_fee / (36525 / 100)) in
  let trading_fee_earnings_dollars :=
    token0_earnings * token0_price + token1_earnings * token1_price in
  let token0_supply_cur := token0_supply_cur + token0_earnings in
  let token1_supply_cur := token1_supply_cur + token1_earnings in
  let reward_earnings_dollars :=
    position_pool_open_dollars * apy_reward / (36525 / 100) in
  let reward_token_earnings := reward_earnings_dollars / reward_token_price in
  rate0 <- daily_rate (apy_borrow_token0 ov) ;;
  let token0_debt_cur := token0_debt_cur * exp rate0 in
  rate1 <- daily_rate (apy_borrow_token1 ov) ;;
  let token1_debt_cur := token1_debt_cur * exp rate1 in
  '(reward_tokens_remaining, pool_tokens_from_rewards, cash_rewards,
    fees_rewards) <-
    Rewards.execute rewards_cls reward_token_earnings reward_token_price
      (Some (0, 0)) (Some (token0_price, token1_price)) fee_swap fee_gas ;;
  pool_tokens_from_rewards <- Rewards.subscriptable pool_tokens_from_rewards ;;
  let token0_supply_cur := token0_supply_cur + fst pool_tokens_from_rewards in
  let token1_supply_cur := token1_supply_cur + snd pool_tokens_from_rewards in
  let cash_in := cash_accum st + cash_rewards in
  let df_input := up_to df idx in
  let token_supply_in := (token0_supply_cur, token1_supply_cur) in
  let token_debt_in := (token0_debt_cur, token1_debt_cur) in
  '(strategy', (token_supply_out, token_debt_out, cash_out, fees_trade,
                strategy_metadata)) <-
    Trading.execute (strategy_cls st) token_supply_in token_debt_in df_input
      cash_in ;;
  let trade_occurred :=
    negb (pair2_eqb token_supply_in token_supply_out)
    || negb (pair2_eqb token_debt_in token_debt_out) in
  let '(token0_supply_cur, token1_supply_cur) := token_supply_out in
  let '(token0_debt_cur, token1_debt_cur) := token_debt_out in
  let cash_accum := cash_out in
  let rewards_accum := rewards_accum st + reward_tokens_remaining in
  let fees_accum := fees_accum st + fees_rewards + fees_trade in
  let token0_supply_close := token0_supply_cur in
  let token1_supply_close := token1_supply_cur in
  let token0_debt_close := token0_debt_cur in
  let token1_debt_close := token1_debt_cur in
  let token0_debt_value := token0_debt_close * token0_price in
  let token1_debt_value := token1_debt_close * token1_price in
  let pool_value :=
    token0_price * token0_supply_close + token1_price * token1_supply_close in
  let cash_value := cash_accum in
  let fees_value := fees_accum in
  let rewards_value := rewards_accum * reward_token_price in
  let position_value := pool_value + rewards_value + cash_value - fees_value in
  let debt_value := token0_debt_value + token1_debt_value in
  let pool_equity := pool_value - debt_value in
  let equity_value := position_value - debt_value in
  let profit_value := equity_value - initial_cap in
  let roi := profit_value / initial_cap in
  (* [debt_value] has gone through [np.exp], so this is numpy's division *)
  let debt_ratio := np_divide debt_value (debt_value + pool_equity) in
  exponent <- per_year days_elapsed ;;
  let annualized_apr := Rpower (1 + profit_value / initial_cap) exponent - 1 in
  let effective_leverage := np_divide pool_value pool_equity in
  let rel_ratio := ratio_initial init / ratio in
  let iloss := 2 * (sqrt rel_ratio / (1 + rel_ratio)) - 1 in
  let position_hodl_dollars :=
    (token0_price * token0_supply_initial init
     + token1_price * token1_supply_initial init) / leverage in
  Ok (mkLoopState strategy' token0_supply_close token1_supply_close
        token0_debt_close token1_debt_close cash_accum fees_accum
        rewards_accum,
      mkEpochRecord token0_supply_open token1_supply_open
        position_pool_open_dollars apy_total token0_earnings token1_earnings
        trading_fee_earnings_dollars reward_earnings_dollars
        reward_token_earnings cash_rewards token0_supply_close
        token1_supply_close token0_debt_close token1_debt_close pool_value
        cash_value rewards_value fees_value position_value debt_value
        pool_equity equity_value profit_value effective_leverage roi
        annualized_apr debt_ratio iloss position_hodl_dollars trade_occurred
        strategy_metadata).

(** [for idx, row in df.iterrows(): ...], collecting the records in row
    order. *)
Fixpoint loop (df : DataFrame) (rewards_cls : Rewards.RewardsStrategy)
    (initial_cap leverage fee_swap : R) (ov : Overrides) (init : Initial)
    (st : LoopState) (todo : list Series) : result (list EpochRecord) :=
  match todo with
  | [] => Ok []
  | row :: todo =>
      '(st, rec) <-
        epoch df rewards_cls initial_cap leverage fee_swap ov init st row ;;
      recs <-
        loop df rewards_cls initial_cap leverage fee_swap ov init st todo ;;
      Ok (rec :: recs)
  end.

(** [simulate(df, strategy_cls, rewards_cls, initial_cap, leverage,
    fee_gas, fee_swap, reward_token_price, apy_trading_fee, apy_reward,
    apy_borrow_token0, apy_borrow_token1, open_on_start)]: the records of
    the returned table, one per row. *)
Definition simulate (df : DataFrame) (strategy : Trading.TradingStrategy)
    (rewards_cls : Rewards.RewardsStrategy) (initial_cap leverage : R)
    (fee_gas fee_swap : R) (ov : Overrides) (open_on_start : bool)
    : result (list EpochRecord) :=
  let df := prepare df ov fee_gas in
  '(init, st) <-
    simulate_init df strategy initial_cap leverage fee_gas fee_swap
      open_on_start ;;
  loop df rewards_cls initial_cap leverage fee_swap ov init st (iterrows df).

End Simulation.

(** ** Tables and strategy instances for the worked examples *)

Module Scenarios.

Import Frame.

(** The cell under label [c] of a row given by its values in column
    order. *)
Fixpoint cell (cols : list string) (vals : list R) (c : string) : R :=
  match cols, vals with
  | k :: cols, v :: vals => if String.eqb c k then v else cell cols vals c
  | _, _ => 0
  end.

(** [pd.DataFrame(data, columns=cols)] indexed by the day numbers. *)
Definition frame_of (cols : list string) (data : list (Z * list R))
    : DataFrame :=
  mkDataFrame cols (map (fun dv => (fst dv, cell cols (snd dv))) data).

Definition price_columns : list string :=
  ["token0_price"; "token1_price"]%string.

Definition all_columns : list string :=
  ["token0_price"; "token1_price"; "reward_token_price"; "apy_trading_fee";
   "apy_reward"; "apy_borrow_token0"; "apy_borrow_token1"]%string.

Definition no_overrides : Simulation.Overrides :=
  Simulation.mkOverrides None None None None None.

(** [SellRewardsStrategy(1.0)] *)
Definition sell_all : Rewards.RewardsStrategy :=
  Rewards.mkRewardsStrategy Rewards.SellRewardsStrategy (Rewards.VFloat 1).

(** The borrow APYs passed as keyword arguments, both zero. *)
Definition zero_borrow : Simulation.Overrides :=
  Simulation.mkOverrides None None None (Some 0) (Some 0).

(** Two days, every price at 1 and every APY at 0. *)
Definition flat_two_days : DataFrame :=
  frame_of all_columns
    [(0%Z, [1; 1; 1; 0; 0; 0; 0]); (1%Z, [1; 1; 1; 0; 0; 0; 0])].

(** One day, prices at 1, no trading-fee or reward APY, and 10% a year in
    both borrow columns. *)
Definition borrow_day : DataFrame :=
  frame_of all_columns [(0%Z, [1; 1; 1; 0; 0; 1 / 10; 1 / 10])].

(** One day with token1 at twice the price of token0. *)
Definition doubled_day : DataFrame :=
  frame_of price_columns [(0%Z, [1; 2])].

(** [RebalanceStrategy(1.0, 0.1, 1.0, amount=0.5, fee_swap=0.0)] *)
Definition half_closer : Trading.RebalanceStrategy :=
  Trading.RebalanceStrategy_init 1 (1 / 10) 1 (1 / 2) 0 0.

(** Three days on which token1 goes from 1 to 4 and stays there; no APY. *)
Definition jump_three_days : DataFrame :=
  frame_of all_columns
    [(0%Z, [1; 1; 1; 0; 0; 0; 0]); (1%Z, [1; 4; 1; 0; 0; 0; 0]);
     (2%Z, [1; 4; 1; 0; 0; 0; 0])].

(** [RebalanceStrategy(1.0, 0.1, 1.0, amount=1.0, fee_swap=0.0)] *)
Definition unlevered_rebalancer : Trading.RebalanceStrategy :=
  Trading.RebalanceStrategy_init 1 (1 / 10) 1 1 0 0.


(** One day, both prices at 1, no other column. *)
Definition prices_only : DataFrame :=
  frame_of price_columns [(0%Z, [1; 1])].

(** Two days on which token1 goes from 1 to 4; no APY. *)
Definition jump_two_days : DataFrame :=
  frame_of all_columns
    [(0%Z, [1; 1; 1; 0; 0; 0; 0]); (1%Z, [1; 4; 1; 0; 0; 0; 0])].

End Scenarios.

(** ** scenarios.py *)

Module Generators.

Import Frame.

(** Day number of 2021-01-01, counted from 1970-01-01. *)
Definition date_2021_01_01 : Z := 18628.

(** [pd.date_range("2021-01-01", periods=periods, freq="D")] *)
Definition date_range (periods : nat) : list Z :=
  map (fun i => (date_2021_01_01 + Z.of_nat i)%Z) (seq 0 periods).

(** [initialize_price_dataframe(n_days, token0_price_initial,
    token1_price_initial, start_date)]: a frame built from the dates
    [pd.date_range("2021-01-01", ...)], [n_days * [1.0]] and
    [n_days * [token1_price_initial]], transposed, its columns renamed to
    date, token0_price, token1_price, and indexed by date. *)
Definition initialize_price_dataframe (n_days : nat)
    (token0_price_initial token1_price_initial : R) (start_date : string)
    : DataFrame :=
  Scenarios.frame_of ["token0_price"; "token1_price"]%string
    (map (fun d => (d, [1; token1_price_initial])) (date_range n_days)).

(** [create_no_price_change_example(n_days, token0_price, token1_price)] *)
Definition create_no_price_change_example (n_days : nat)
    (token0_price token1_price : R) : DataFrame :=
  initialize_price_dataframe n_days token0_price token1_price "2021-01-01".

(** [df.iloc[i, j] = v]: the cell at row position [i] and column position
    [j]; a position past the end raises [IndexError]. *)
Definition iloc_set (df : DataFrame) (i j : nat) (v : R) : result DataFrame :=
  match nth_error (columns df) j, nth_error (rows df) i with
  | Some c, Some _ =>
      Ok (mkDataFrame (columns df)
            (map (fun kdr : nat * (Z * (string -> R)) =>
                    if Nat.eqb (fst kdr) i
                    then (fst (snd kdr), assign c v (snd (snd kdr)))
                    else snd kdr)
               (combine (seq 0 (List.length (rows df))) (rows df))))
  | _, _ => Raise IndexError
  end.

(** [create_small_example()] *)
Definition create_small_example : result DataFrame :=
  let df := create_no_price_change_example 4 1 (1 / 10) in
  df <- iloc_set df 2 1 (1 / 100) ;;
  df <- iloc_set df 3 1 (1 / 2) ;;
  Ok df.

(** [np.linspace(start, stop, num)]: [arange(0, num) * step + start] with
    [step = (stop - start) / (num - 1)], and the last of two or more
    entries set to [stop]; with a single entry, [arange(0, 1) * (stop -
    start) + start].  (For a step of zero numpy divides before it
    multiplies, which gives the same numbers.) *)
Definition linspace (start stop : R) (num : nat) : list R :=
  let div := (num - 1)%nat in
  let delta := stop - start in
  let y := map INR (seq 0 num) in
  let y :=
    if (0 <? div)%nat then map (fun v => v * (delta / INR div)) y
    else map (fun v => v * delta) y in
  let y := map (fun v => v + start) y in
  if (1 <? num)%nat then removelast y ++ [stop] else y.

(** [df[c] = values] with an array of values: one value per row, and
    [ValueError] when there are more or fewer values than rows. *)
Definition set_column_values (df : DataFrame) (c : string) (values : list R)
    : result DataFrame :=
  if Nat.eqb (List.length values) (List.length (rows df)) then
    Ok (mkDataFrame
          (if has_column df c then columns df else columns df ++ [c])
          (map (fun drv : (Z * (string -> R)) * R =>
                  (fst (fst drv), assign c (snd drv) (snd (fst drv))))
             (combine (rows df) values)))
  else Raise ValueError.

(** The truth value of an optional number: [None] and zero are false. *)
Definition truthy (o : option R) : bool :=
  match o with
  | Some v => if Req_dec_T v 0 then false else true
  | None => false
  end.

(** [create_linear_price_change_example(n_days, token0_price,
    token1_price_initial, token1_price_final, reward_token_price_initial,
    reward_token_price_final)] *)
Definition create_linear_price_change_example (n_days : nat)
    (token0_price token1_price_initial token1_price_final : R)
    (reward_token_price_initial reward_token_price_final : option R)
    : result DataFrame :=
  let df :=
    initialize_price_dataframe n_days token0_price token1_price_initial
      "2021-01-01" in
  df <- set_column_values df "token1_price"
          (linspace token1_price_initial token1_price_final
             (List.length (rows df))) ;;
  if truthy reward_token_price_initial && truthy reward_token_price_final
  then
    match reward_token_price_initial, reward_token_price_final with
    | Some initial, Some final =>
        df <- set_column_values df "reward_token_price"
                (linspace initial final (List.length (rows df))) ;;
        Ok df
    | _, _ => Raise TypeError
    end
  else Ok df.

(** [int(round(k / 2))] for the length [k] of a table: a half rounds to
    the even neighbour. *)
Definition round_half (k : nat) : nat :=
  let q := (k / 2)%nat in
  if Nat.even k then q else if Nat.even q then q else S q.

(** [create_linear_and_back_example(n_days, token0_price,
    token1_price_base, token1_price_peak, reward_token_price_base,
    reward_token_price_peak)] *)
Definition create_linear_and_back_example (n_days : nat)
    (token0_price token1_price_base token1_price_peak : R)
    (reward_token_price_base reward_token_price_peak : option R)
    : result DataFrame :=
  let df :=
    initialize_price_dataframe n_days token0_price token1_price_base
      "2021-01-01" in
  let n := (round_half (List.length (rows df)) + 1)%nat in
  df <- set_column_values df "token1_price"
          (firstn (List.length (rows df))
             (linspace token1_price_base token1_price_peak n
              ++ linspace token1_price_peak token1_price_base (n + 1))) ;;
  if truthy reward_token_price_base && truthy reward_token_price_peak
  then
    match reward_token_price_base, reward_token_price_peak with
    | Some base, Some peak =>
        df <- set_column_values df "reward_token_price"
                (firstn n
                   (linspace base peak n ++ linspace peak base (n + 1))) ;;
        Ok df
    | _, _ => Raise TypeError
    end
  else Ok df.

End Generators.

(** ** Vocabulary of the statements *)

Section Vocabulary.

Import Frame Simulation.

(** The cells of a row after [add_optional]. *)
Definition optional_cells (present : bool) (c : string) (o : option R)
    (cells : string -> R) : string -> R :=
  match o with
  | Some v => if present then cells else assign c v cells
  | None => cells
  end.

(** The cells of a row of the prepared table, from the cells of the row
    it was made from. *)
Definition prepared_cells (df : DataFrame) (ov : Overrides) (fee_gas : R)
    (cells : string -> R) : string -> R :=
  assign "fee_swap" fee_gas
    (assign "fee_gas" fee_gas
       (optional_cells (has_column df "apy_borrow_token1")
          "apy_borrow_token1" (apy_borrow_token1 ov)
          (optional_cells (has_column df "apy_borrow_token0")
             "apy_borrow_token0" (apy_borrow_token0 ov)
             (optional_cells (has_column df "apy_reward")
                "apy_reward" (apy_reward ov)
                (optional_cells (has_column df "apy_trading_fee")
                   "apy_trading_fee" (apy_trading_fee ov)
                   (optional_cells (has_column df "reward_token_price")
                      "reward_token_price" (reward_token_price ov)
                      cells)))))).

(** Column [c] is not in the table and its keyword argument was left at
    [None]. *)
Definition lacks (df : DataFrame) (c : string) (o : option R) : Prop :=
  has_column df c = false /\ o = None.

(** One of the series the loop reads from the row is lacking. *)
Definition missing_row_series (df : DataFrame) (ov : Overrides) : Prop :=
  lacks df "reward_token_price" (reward_token_price ov)
  \/ lacks df "apy_trading_fee" (apy_trading_fee ov)
  \/ lacks df "apy_reward" (apy_reward ov).

(** One of the optional series is lacking. *)
Definition missing_input (df : DataFrame) (ov : Overrides) : Prop :=
  missing_row_series df ov
  \/ lacks df "apy_borrow_token0" (apy_borrow_token0 ov)
  \/ lacks df "apy_borrow_token1" (apy_borrow_token1 ov).

(** The value the run sees for an optional series satisfies [P]: the
    table's cell when the column is there, the keyword argument
    otherwise. *)
Definition supplied (df : DataFrame) (c : string) (o : option R)
    (P : R -> Prop) (cells : string -> R) : Prop :=
  if has_column df c then P (cells c)
  else match o with Some v => P v | None => False end.

(** Constant prices, no trading-fee APY, no reward APY and a reward price
    other than zero, on every row. *)
Definition flat_table (df : DataFrame) (ov : Overrides) (p0 p1 : R) : Prop :=
  has_column df "token0_price" = true
  /\ has_column df "token1_price" = true
  /\ Forall (fun dr : Z * (string -> R) =>
       snd dr "token0_price"%string = p0
       /\ snd dr "token1_price"%string = p1
       /\ supplied df "reward_token_price" (reward_token_price ov)
            (fun v => v <> 0) (snd dr)
       /\ supplied df "apy_trading_fee" (apy_trading_fee ov)
            (fun v => v = 0) (snd dr)
       /\ supplied df "apy_reward" (apy_reward ov)
            (fun v => v = 0) (snd dr))
     (rows df).

(** Dates strictly increase down the table. *)
Definition dates_increasing (df : DataFrame) : Prop :=
  StronglySorted Z.lt (map fst (rows df)).

(** Both token prices are positive on every row. *)
Definition positive_prices (df : DataFrame) : Prop :=
  Forall (fun dr : Z * (string -> R) =>
            0 < snd dr "token0_price"%string
            /\ 0 < snd dr "token1_price"%string)
    (rows df).

(** No reward price the run can meet, in the table or as keyword
    argument, is zero. *)
Definition usable_reward_price (df : DataFrame) (ov : Overrides) : Prop :=
  reward_token_price ov <> Some 0
  /\ Forall (fun dr : Z * (string -> R) =>
              has_column df "reward_token_price" = true ->
              snd dr "reward_token_price"%string <> 0)
       (rows df).

(** The borrow APYs the table and the keyword arguments supply are zero on
    every row. *)
Definition zero_borrow_apys (df : Frame.DataFrame) (ov : Simulation.Overrides)
    : Prop :=
  Forall (fun dr : Z * (string -> R) =>
       supplied df "apy_borrow_token0" (Simulation.apy_borrow_token0 ov)
         (fun v => v = 0) (snd dr)
       /\ supplied df "apy_borrow_token1" (Simulation.apy_borrow_token1 ov)
            (fun v => v = 0) (snd dr))
    (Frame.rows df).

(** The row a strategy reads as the latest one is the row of the
    epoch. *)
Definition sees_current_row (df : DataFrame) (row : Series) : Prop :=
  iloc_last (up_to df (name row)) = Ok row.

(** Gas-charged transactions of the reward strategy in one epoch. *)
Definition reward_transactions (self : Rewards.RewardsStrategy) : R :=
  match Rewards._rewards_sell_amount self with
  | Rewards.VFloat a =>
      if Rle_dec a 0 then 0
      else match Rewards.rewards_class_of self with
           | Rewards.SellRewardsStrategy => 1
           | Rewards.CompoundRewardsStrategy => 4
           end
  | _ => 0
  end.

(** Gas-charged transactions of opening a position. *)
Definition open_transactions (leverage : R) : R :=
  if Req_dec_T leverage 1 then 1
  else if Req_dec_T leverage 2 then 4 else 6.

(** A row with prices [p0] and [p1], gas fee [fg], no trading-fee and no
    reward APY, and a usable reward price. *)
Definition flat_row (p0 p1 fg : R) (row : Series) : Prop :=
  getitem row "token0_price" = Ok p0
  /\ getitem row "token1_price" = Ok p1
  /\ (exists rp, getitem row "reward_token_price" = Ok rp /\ rp <> 0)
  /\ getitem row "apy_trading_fee" = Ok 0
  /\ getitem row "apy_reward" = Ok 0
  /\ getitem row "fee_gas" = Ok fg.

(** The state the passive run is in between epochs. *)
Definition flat_state (s0 s1 d0 d1 fees : R) (st : LoopState) : Prop :=
  st = mkLoopState Trading.HODLStrategy s0 s1 d0 d1 0 fees 0.

(** What each record of such a run shows. *)
Definition flat_record (initial_cap p0 p1 : R) (s0 s1 d0 d1 fees : R)
    (rec : EpochRecord) : Prop :=
  token0_supply_open rec = s0 /\ token1_supply_open rec = s1
  /\ token0_supply_close rec = s0 /\ token1_supply_close rec = s1
  /\ token0_debt_close rec = d0 /\ token1_debt_close rec = d1
  /\ iloss rec = 0
  /\ trade_event rec = false
  /\ fees_value rec = fees
  /\ profit_value rec
     = p0 * s0 + p1 * s1 - (d0 * p0 + d1 * p1) - fees - initial_cap.

(** A strategy that closes everything and reopens without leverage and
    without swap fee. *)
Definition unlevered_full_close (self : Trading.RebalanceStrategy) : Prop :=
  Trading._leverage self = 1 /\ Trading._amount self = 1
  /\ Trading._fee_swap self = 0.

(** Between epochs: such a strategy, no debt, some supplies. *)
Definition quiet_state (st : LoopState) : Prop :=
  (exists self, strategy_cls st = Trading.Rebalancing self
                /\ unlevered_full_close self)
  /\ last_token0_debt st = 0 /\ last_token1_debt st = 0
  /\ 0 <= last_token0_supply st /\ 0 <= last_token1_supply st.

(** A row with positive prices, a usable reward price and neither
    trading-fee nor reward APY. *)
Definition quiet_row (row : Series) : Prop :=
  exists p0 p1 rp fg,
    getitem row "token0_price" = Ok p0 /\ 0 < p0
    /\ getitem row "token1_price" = Ok p1 /\ 0 < p1
    /\ getitem row "reward_token_price" = Ok rp /\ rp <> 0
    /\ getitem row "apy_trading_fee" = Ok 0
    /\ getitem row "apy_reward" = Ok 0
    /\ getitem row "fee_gas" = Ok fg.

(** Positive prices, a reward price other than zero, and neither
    trading-fee nor reward APY, on every row. *)
Definition quiet_table (df : DataFrame) (ov : Overrides) : Prop :=
  has_column df "token0_price" = true
  /\ has_column df "token1_price" = true
  /\ Forall (fun dr : Z * (string -> R) =>
       0 < snd dr "token0_price"%string
       /\ 0 < snd dr "token1_price"%string
       /\ supplied df "reward_token_price" (reward_token_price ov)
            (fun v => v <> 0) (snd dr)
       /\ supplied df "apy_trading_fee" (apy_trading_fee ov)
            (fun v => v = 0) (snd dr)
       /\ supplied df "apy_reward" (apy_reward ov)
            (fun v => v = 0) (snd dr))
     (rows df).

(** After the specification: the deviations a threshold-rebalance run
    measures, epoch by epoch.  Each is the distance of the current token1
    price from the anchor, relative to the anchor; the anchor moves to the
    current price whenever the deviation exceeds the threshold. *)
Fixpoint deviations (threshold anchor : R) (prices : list R) : list R :=
  match prices with
  | [] => []
  | p :: prices =>
      let delta := Rabs (p - anchor) / anchor in
      delta
      :: deviations threshold
           (if Rgt_dec delta threshold then p else anchor) prices
  end.

Definition price_delta_entry (delta : R) : Trading.metadata :=
  [("price_delta"%string, delta)].

(** The product of the supplies an epoch reprices: those the loop started
    from for the first record, the closing ones of the record before for
    the others. *)
Definition product_before (st : LoopState) (recs : list EpochRecord)
    (i : nat) : R :=
  match i with
  | O => last_token0_supply st * last_token1_supply st
  | S j =>
      match nth_error recs j with
      | Some rec => token0_supply_close rec * token1_supply_close rec
      | None => 0
      end
  end.

(** Every optional series passed as keyword argument: a reward price and
    four APYs of zero. *)
Definition zero_apy_keywords (reward_price : R) : Overrides :=
  mkOverrides (Some reward_price) (Some 0) (Some 0) (Some 0) (Some 0).

(** What the run reads for an optional series on a row: the table's cell
    when the column is there, the keyword argument otherwise. *)
Definition seen (df : DataFrame) (c : string) (o : option R)
    (cells : string -> R) : option R :=
  if has_column df c then Some (cells c) else o.

(** Two tables with their keyword arguments give a run the same things
    to read: the same borrow APYs as keyword arguments, the price columns
    present in both or absent from both, and row by row the same date,
    the same prices and the same reward price, trading-fee APY and reward
    APY, each from the column or from the keyword argument. *)
Definition same_inputs (df : DataFrame) (ov : Overrides) (df' : DataFrame)
    (ov' : Overrides) : Prop :=
  apy_borrow_token0 ov = apy_borrow_token0 ov'
  /\ apy_borrow_token1 ov = apy_borrow_token1 ov'
  /\ has_column df "token0_price" = has_column df' "token0_price"
  /\ has_column df "token1_price" = has_column df' "token1_price"
  /\ Forall2
       (fun dr dr' : Z * (string -> R) =>
          fst dr = fst dr'
          /\ snd dr "token0_price"%string = snd dr' "token0_price"%string
          /\ snd dr "token1_price"%string = snd dr' "token1_price"%string
          /\ seen df "reward_token_price" (reward_token_price ov) (snd dr)
             = seen df' "reward_token_price" (reward_token_price ov')
                 (snd dr')
          /\ seen df "apy_trading_fee" (apy_trading_fee ov) (snd dr)
             = seen df' "apy_trading_fee" (apy_trading_fee ov') (snd dr')
          /\ seen df "apy_reward" (apy_reward ov) (snd dr)
             = seen df' "apy_reward" (apy_reward ov') (snd dr'))
       (rows df) (rows df').

(** Two rows carry the same date and read the same under the six labels
    the loop and the trading strategies read. *)
Definition same_reads (row row' : Series) : Prop :=
  name row = name row'
  /\ getitem row "token0_price" = getitem row' "token0_price"
  /\ getitem row "token1_price" = getitem row' "token1_price"
  /\ getitem row "reward_token_price" = getitem row' "reward_token_price"
  /\ getitem row "apy_trading_fee" = getitem row' "apy_trading_fee"
  /\ getitem row "apy_reward" = getitem row' "apy_reward"
  /\ getitem row "fee_gas" = getitem row' "fee_gas".

(** Two tables end in rows that read the same, or are both empty: the
    trading strategies read the last row of the table they are handed. *)
Definition same_last (df df' : DataFrame) : Prop :=
  match iloc_last df, iloc_last df' with
  | Ok s, Ok s' => same_reads s s'
  | Raise e, Raise e' => e = e'
  | _, _ => False
  end.



End Vocabulary.

(** * Properties *)

(** ** Deciding comparisons of reals *)

Section Decisions.

Context {T : Type} (a b : T).

Lemma if_Req_true (x y : R) :
  x = y -> (if Req_dec_T x y then a else b) = a.
Proof. intros H; destruct (Req_dec_T x y); [reflexivity|contradiction]. Qed.

Lemma if_Req_false (x y : R) :
  x <> y -> (if Req_dec_T x y then a else b) = b.
Proof. intros H; destruct (Req_dec_T x y); [contradiction|reflexivity]. Qed.

Lemma if_Rgt_true (x y : R) :
  x > y -> (if Rgt_dec x y then a else b) = a.
Proof. intros H; destruct (Rgt_dec x y); [reflexivity|contradiction]. Qed.

Lemma if_Rgt_false (x y : R) :
  ~ x > y -> (if Rgt_dec x y then a else b) = b.
Proof. intros H; destruct (Rgt_dec x y); [contradiction|reflexivity]. Qed.

Lemma if_Rle_true (x y : R) :
  x <= y -> (if Rle_dec x y then a else b) = a.
Proof. intros H; destruct (Rle_dec x y); [reflexivity|contradiction]. Qed.

Lemma if_Rle_false (x y : R) :
  ~ x <= y -> (if Rle_dec x y then a else b) = b.
Proof. intros H; destruct (Rle_dec x y); [contradiction|reflexivity]. Qed.

End Decisions.

Lemma pair2_eqb_refl (p : pair2) : pair2_eqb p p = true.
Proof. unfold pair2_eqb. now rewrite !if_Req_true. Qed.

Lemma pair2_eqb_eq (p q : pair2) : pair2_eqb p q = true <-> p = q.
Proof.
  destruct p as [p0 p1], q as [q0 q1]; unfold pair2_eqb; cbn [fst snd].
  destruct (Req_dec_T p0 q0), (Req_dec_T p1 q1); cbn; split;
    intros H; try discriminate; try congruence; try reflexivity.
Qed.

Lemma bind_ok {A B : Type} (m : result A) (f : A -> result B) (b : B) :
  bind m f = Ok b -> exists a, m = Ok a /\ f a = Ok b.
Proof. destruct m as [a|e]; cbn; [eauto|discriminate]. Qed.

Lemma np_divide_finite (x y : R) : y <> 0 -> np_divide x y = Finite (x / y).
Proof.
  intros Hy. unfold np_divide.
  destruct (Req_dec_T y 0); [contradiction|reflexivity].
Qed.

Lemma np_divide_zero (x : R) :
  np_divide x 0
  = if Rlt_dec 0 x then PosInf else if Rlt_dec x 0 then NegInf else NaN.
Proof.
  unfold np_divide. destruct (Req_dec_T 0 0) as [_|H]; [reflexivity|].
  now contradiction H.
Qed.

Lemma sqrt_of_square (x y : R) : 0 <= x -> y = x * x -> sqrt y = x.
Proof. intros Hx ->. now apply sqrt_square. Qed.

(** ** Liquidity math *)

(** The three branches of [add_liquidity], one equation each. *)
Lemma add_liquidity_1 (capital : R) (p0 p1 fee_swap fee_gas : R) :
  Core.add_liquidity capital 1 (p0, p1) fee_swap fee_gas
  = Ok ((capital * (1 - fee_swap) / 2 / p0,
         capital * (1 - fee_swap) / 2 / p1), (0, 0), fee_gas).
Proof. unfold Core.add_liquidity. now rewrite if_Req_true. Qed.

Lemma add_liquidity_2 (capital : R) (p0 p1 fee_swap fee_gas : R) :
  Core.add_liquidity capital 2 (p0, p1) fee_swap fee_gas
  = Ok ((capital * (1 - fee_swap) / p0, capital * (1 - fee_swap) / p1),
        (0, capital * (1 - fee_swap) / p1), 4 * fee_gas).
Proof.
  unfold Core.add_liquidity.
  rewrite if_Req_false by lra. now rewrite if_Req_true.
Qed.

Lemma add_liquidity_gt2 (capital L : R) (p0 p1 fee_swap fee_gas : R) :
  2 < L ->
  Core.add_liquidity capital L (p0, p1) fee_swap fee_gas
  = Ok ((1 / 2 * L * (capital * (1 - fee_swap)) / p0,
         1 / 2 * L * (capital * (1 - fee_swap)) / p1),
        (capital * (1 - fee_swap) * (1 / (L / (L - 2) + 1)) * (L - 1) / p0,
         capital * (1 - fee_swap) * (1 - 1 / (L / (L - 2) + 1)) * (L - 1)
           / p1),
        6 * fee_gas).
Proof.
  intros HL. unfold Core.add_liquidity.
  rewrite 2 if_Req_false by lra. now rewrite if_Rgt_true by lra.
Qed.

Lemma add_liquidity_unsupported (capital L : R) (prices : pair2)
    (fee_swap fee_gas : R) :
  L <> 1 -> L < 2 ->
  Core.add_liquidity capital L prices fee_swap fee_gas = Raise ValueError.
Proof.
  intros H1 H2. destruct prices as [p0 p1]. unfold Core.add_liquidity.
  rewrite 2 if_Req_false by lra. now rewrite if_Rgt_false by lra.
Qed.

(** C4: the three leverage branches of [add_liquidity], with
    [c = capital * (1 - fee_swap)]. *)
Theorem add_liquidity_branches (capital p0 p1 fee_swap fee_gas L : R)
    (Hcap : 0 < capital) (Hp0 : 0 < p0) (Hp1 : 0 < p1) (HL : 2 < L) :
  let c := capital * (1 - fee_swap) in
  let token0_frac := 1 / (L / (L - 2) + 1) in
  (* leverage = 1 *)
  Core.add_liquidity capital 1 (p0, p1) fee_swap fee_gas
    = Ok ((c / 2 / p0, c / 2 / p1), (0, 0), fee_gas)
  (* leverage = 2 *)
  /\ Core.add_liquidity capital 2 (p0, p1) fee_swap fee_gas
    = Ok ((c / p0, c / p1), (0, c / p1), 4 * fee_gas)
  (* leverage > 2 *)
  /\ (exists s0 s1 d0 d1,
        Core.add_liquidity capital L (p0, p1) fee_swap fee_gas
          = Ok ((s0, s1), (d0, d1), 6 * fee_gas)
        /\ s0 * p0 = L * c / 2 /\ s1 * p1 = L * c / 2
        /\ s0 * p0 + s1 * p1 = L * c
        /\ d0 * p0 = token0_frac * ((L - 1) * c)
        /\ d1 * p1 = (1 - token0_frac) * ((L - 1) * c)
        /\ d0 * p0 + d1 * p1 = (L - 1) * c)
  (* the documented 3X example: $100 principal, no swap fee *)
  /\ (exists s0 s1 d0 d1,
        Core.add_liquidity 100 3 (p0, p1) 0 fee_gas
          = Ok ((s0, s1), (d0, d1), 6 * fee_gas)
        /\ s0 * p0 = 150 /\ s1 * p1 = 150
        /\ d0 * p0 = 50 /\ d1 * p1 = 150).
Proof.
  intros c token0_frac. subst c token0_frac.
  split; [apply add_liquidity_1|].
  split; [apply add_liquidity_2|].
  split.
  - do 4 eexists. split; [apply add_liquidity_gt2; lra|].
    repeat split; field; lra.
  - do 4 eexists. split; [apply add_liquidity_gt2; lra|].
    repeat split; field; lra.
Qed.

Lemma add_liquidity_branches_witness :
  Core.add_liquidity 100 1 (1, 2) 0 5 = Ok ((100 * (1 - 0) / 2 / 1,
                                             100 * (1 - 0) / 2 / 2),
                                            (0, 0), 5).
Proof.
  apply (add_liquidity_branches 100 1 2 0 5 4); lra.
Defined.

(** ** Reward strategies *)

(** C9: [CompoundRewardsStrategy.__init__] hands two arguments to the base
    initializer, which takes one: every construction raises [TypeError],
    so no instance of the compound class is ever produced. *)
Theorem compound_rewards_never_constructed :
  (forall rewards_fn sell_amount : Rewards.value,
      Rewards.CompoundRewardsStrategy_init [rewards_fn; sell_amount]
      = Raise TypeError)
  /\ (forall args : list Rewards.value,
         Rewards.instantiate Rewards.CompoundRewardsStrategy args
         = Raise TypeError)
  /\ (forall (cls : Rewards.rewards_class) (args : list Rewards.value),
         match Rewards.instantiate cls args with
         | Ok self => Rewards.rewards_class_of self = Rewards.SellRewardsStrategy
         | Raise e => e = TypeError
         end).
Proof.
  split; [reflexivity|].
  assert (Hc : forall args,
             Rewards.instantiate Rewards.CompoundRewardsStrategy args
             = Raise TypeError).
  { intros [|a [|b [|c args]]]; reflexivity. }
  split; [exact Hc|].
  intros [|] args.
  - destruct args as [|a [|b args]]; reflexivity.
  - now rewrite Hc.
Qed.

(** ** The rebalancing strategy *)

Section Rebalance.

Import Frame Trading.

Variable self : RebalanceStrategy.
Variables (df : DataFrame) (last : Series) (p0 p1 : R).
Hypothesis Hlast : iloc_last df = Ok last.
Hypothesis Hp0 : getitem last "token0_price" = Ok p0.
Hypothesis Hp1 : getitem last "token1_price" = Ok p1.

(** Above the threshold: close, reopen on the close proceeds, move the
    anchor. *)
Lemma rebalance_execute_trigger (supply debt : pair2) (input_cash : R) :
  price_delta_of p1 (_price_anchor self) > _threshold self ->
  RebalanceStrategy_execute self supply debt df input_cash
  = ('(token_supply, token_debt, fees_open) <-
       Core.add_liquidity
         (snd (fst (Core.remove_liquidity supply debt (p0, p1)
                      (_amount self) (_fee_swap self) (_fee_gas self))))
         (_leverage self) (p0, p1) (_fee_swap self) (_fee_gas self) ;;
     Ok (set_price_anchor self p1,
         (token_supply, token_debt, input_cash,
          snd (Core.remove_liquidity supply debt (p0, p1)
                 (_amount self) (_fee_swap self) (_fee_gas self))
          + fees_open,
          [("price_delta"%string,
            price_delta_of p1 (_price_anchor self))]))).
Proof.
  intros Hgt. unfold RebalanceStrategy_execute.
  rewrite Hlast; cbn [bind]. rewrite Hp0; cbn [bind]. rewrite Hp1; cbn [bind].
  rewrite if_Rgt_true by exact Hgt.
  destruct (Core.remove_liquidity supply debt (p0, p1) (_amount self)
              (_fee_swap self) (_fee_gas self)) as [[[s d] c] f].
  reflexivity.
Qed.

(** At or below the threshold: everything passes through. *)
Lemma rebalance_execute_hold (supply debt : pair2) (input_cash : R) :
  ~ price_delta_of p1 (_price_anchor self) > _threshold self ->
  RebalanceStrategy_execute self supply debt df input_cash
  = Ok (self, (supply, debt, input_cash, 0,
               [("price_delta"%string,
                 price_delta_of p1 (_price_anchor self))])).
Proof.
  intros Hle. unfold RebalanceStrategy_execute.
  rewrite Hlast; cbn [bind]. rewrite Hp0; cbn [bind]. rewrite Hp1; cbn [bind].
  now rewrite if_Rgt_false by exact Hle.
Qed.

End Rebalance.

(** C10: on a triggered rebalance with a close fraction below 1 the
    partial close leaves [(1 - amount)] of the supply and of the debt, and
    the strategy returns the supply and debt of [add_liquidity] on the
    close proceeds alone; what the close left is in no returned value. *)
Theorem partial_close_remainder_discarded
    (self : Trading.RebalanceStrategy) (df : Frame.DataFrame)
    (last : Frame.Series) (p0 p1 s0 s1 d0 d1 input_cash : R)
    (Hlast : Frame.iloc_last df = Ok last)
    (Hp0 : Frame.getitem last "token0_price" = Ok p0)
    (Hp1 : Frame.getitem last "token1_price" = Ok p1)
    (Hanchor : Trading._price_anchor self <> 0)
    (Htrig : Trading.price_delta_of p1 (Trading._price_anchor self)
             > Trading._threshold self)
    (Hamount : Trading._amount self < 1) :
  let a := Trading._amount self in
  let fs := Trading._fee_swap self in
  let fg := Trading._fee_gas self in
  let cash_close :=
    (s0 - d0) * a * p0 * (1 - fs) + (s1 - d1) * a * p1 * (1 - fs) in
  Core.remove_liquidity (s0, s1) (d0, d1) (p0, p1) a fs fg
  = ((s0 * (1 - a), s1 * (1 - a)), (d0 * (1 - a), d1 * (1 - a)),
     cash_close, 0 + fg + fg)
  /\ Trading.RebalanceStrategy_execute self (s0, s1) (d0, d1) df input_cash
     = ('(token_supply, token_debt, fees_open) <-
          Core.add_liquidity cash_close (Trading._leverage self) (p0, p1)
            fs fg ;;
        Ok (Trading.set_price_anchor self p1,
            (token_supply, token_debt, input_cash, 0 + fg + fg + fees_open,
             [("price_delta"%string,
               Trading.price_delta_of p1 (Trading._price_anchor self))]))).
Proof.
  intros a fs fg cash_close. split; [reflexivity|].
  rewrite (rebalance_execute_trigger self df last p0 p1 Hlast Hp0 Hp1)
    by exact Htrig.
  reflexivity.
Qed.

Lemma partial_close_remainder_discarded_witness :
  Core.remove_liquidity (100, 50) (0, 0) (1, 2) (1 / 2) 0 0
  = ((100 * (1 - 1 / 2), 50 * (1 - 1 / 2)), (0 * (1 - 1 / 2), 0 * (1 - 1 / 2)),
     (100 - 0) * (1 / 2) * 1 * (1 - 0) + (50 - 0) * (1 / 2) * 2 * (1 - 0),
     0 + 0 + 0)
  /\ Trading.RebalanceStrategy_execute Scenarios.half_closer (100, 50) (0, 0)
       Scenarios.doubled_day 0
     = ('(token_supply, token_debt, fees_open) <-
          Core.add_liquidity
            ((100 - 0) * (1 / 2) * 1 * (1 - 0)
             + (50 - 0) * (1 / 2) * 2 * (1 - 0)) 1 (1, 2) 0 0 ;;
        Ok (Trading.set_price_anchor Scenarios.half_closer 2,
            (token_supply, token_debt, 0, 0 + 0 + 0 + fees_open,
             [("price_delta"%string, Trading.price_delta_of 2 1)]))).
Proof.
  apply (partial_close_remainder_discarded Scenarios.half_closer
           Scenarios.doubled_day
           (Frame.series_of Scenarios.doubled_day
              (0%Z, Scenarios.cell Scenarios.price_columns [1; 2]))
           1 2 100 50 0 0 0);
    try reflexivity.
  - change (1 <> 0). lra.
  - change (Rabs (2 - 1) / 1 > 1 / 10).
    replace (2 - 1) with 1 by lra. rewrite Rabs_R1. lra.
  - change (1 / 2 < 1). lra.
Defined.

(** ** The prepared table *)

Section Prepared.

Import Frame Simulation.

Lemma has_column_set_column (df : DataFrame) (c c' : string) (v : R) :
  has_column (set_column df c v) c' = has_column df c' || String.eqb c' c.
Proof.
  unfold has_column, set_column; cbn [columns].
  fold (has_column df c).
  destruct (has_column df c) eqn:Hc.
  - destruct (String.eqb_spec c' c) as [->|Hne].
    + fold (has_column df c). rewrite Hc. reflexivity.
    + now rewrite orb_false_r.
  - rewrite existsb_app; cbn [existsb]. now rewrite orb_false_r.
Qed.

Lemma has_column_add_optional (df : DataFrame) (c c' : string)
    (o : option R) :
  has_column (add_optional df c o) c'
  = has_column df c'
    || (String.eqb c' c && match o with Some _ => true | None => false end).
Proof.
  unfold add_optional. destruct o as [v|].
  - destruct (has_column df c) eqn:Hc.
    + destruct (String.eqb_spec c' c) as [->|Hne].
      * rewrite Hc. reflexivity.
      * now rewrite orb_false_r.
    + rewrite has_column_set_column. now rewrite andb_true_r.
  - now rewrite andb_false_r, orb_false_r.
Qed.

Lemma rows_add_optional (df : DataFrame) (c : string) (o : option R) :
  rows (add_optional df c o)
  = map (fun dr => (fst dr, optional_cells (has_column df c) c o (snd dr)))
      (rows df).
Proof.
  unfold add_optional, optional_cells.
  assert (Hid : rows df = map (fun dr : Z * (string -> R) => (fst dr, snd dr))
                            (rows df)).
  { rewrite <- (map_id (rows df)) at 1. apply map_ext. now intros [d r]. }
  destruct o as [v|]; [|exact Hid].
  destruct (has_column df c); [exact Hid|reflexivity].
Qed.

Lemma rows_prepare (df : DataFrame) (ov : Overrides) (fee_gas : R) :
  rows (prepare df ov fee_gas)
  = map (fun dr => (fst dr, prepared_cells df ov fee_gas (snd dr))) (rows df).
Proof.
  unfold prepare, prepared_cells.
  cbn [set_column rows].
  rewrite !rows_add_optional, !map_map; cbn [fst snd].
  rewrite !has_column_add_optional; cbn [String.eqb Ascii.eqb Bool.eqb andb].
  now rewrite !orb_false_r.
Qed.

Lemma has_column_prepare (df : DataFrame) (ov : Overrides) (fee_gas : R)
    (c : string) :
  has_column (prepare df ov fee_gas) c
  = has_column df c
    || (String.eqb c "reward_token_price"
        && match reward_token_price ov with Some _ => true | None => false end)
    || (String.eqb c "apy_trading_fee"
        && match apy_trading_fee ov with Some _ => true | None => false end)
    || (String.eqb c "apy_reward"
        && match apy_reward ov with Some _ => true | None => false end)
    || (String.eqb c "apy_borrow_token0"
        && match apy_borrow_token0 ov with Some _ => true | None => false end)
    || (String.eqb c "apy_borrow_token1"
        && match apy_borrow_token1 ov with Some _ => true | None => false end)
    || String.eqb c "fee_gas" || String.eqb c "fee_swap".
Proof.
  unfold prepare.
  now rewrite !has_column_set_column, !has_column_add_optional.
Qed.

Lemma iterrows_prepare (df : DataFrame) (ov : Overrides) (fee_gas : R) :
  iterrows (prepare df ov fee_gas)
  = map (fun dr => mkSeries (fst dr) (columns (prepare df ov fee_gas))
                     (prepared_cells df ov fee_gas (snd dr)))
      (rows df).
Proof.
  unfold iterrows. rewrite rows_prepare, map_map. reflexivity.
Qed.

End Prepared.

Section PreparedCells.

Import Frame Simulation.

Variables (df : DataFrame) (ov : Overrides) (fee_gas : R).

Lemma optional_cells_other (present : bool) (c c' : string) (o : option R)
    (cells : string -> R) :
  String.eqb c' c = false -> optional_cells present c o cells c' = cells c'.
Proof.
  intros Hne. unfold optional_cells, assign.
  destruct o; [destruct present|]; now rewrite ?Hne.
Qed.

Lemma optional_cells_same (present : bool) (c : string) (o : option R)
    (cells : string -> R) :
  optional_cells present c o cells c
  = match o with
    | Some v => if present then cells c else v
    | None => cells c
    end.
Proof.
  unfold optional_cells, assign.
  destruct o; [destruct present|]; now rewrite ?String.eqb_refl.
Qed.

Lemma prepared_token0_price (cells : string -> R) :
  prepared_cells df ov fee_gas cells "token0_price" = cells "token0_price"%string.
Proof.
  unfold prepared_cells, assign; cbn [String.eqb Ascii.eqb Bool.eqb].
  now rewrite !optional_cells_other by reflexivity.
Qed.

Lemma prepared_token1_price (cells : string -> R) :
  prepared_cells df ov fee_gas cells "token1_price" = cells "token1_price"%string.
Proof.
  unfold prepared_cells, assign; cbn [String.eqb Ascii.eqb Bool.eqb].
  now rewrite !optional_cells_other by reflexivity.
Qed.

Lemma prepared_fee_gas (cells : string -> R) :
  prepared_cells df ov fee_gas cells "fee_gas" = fee_gas.
Proof. reflexivity. Qed.

Lemma prepared_reward_token_price (cells : string -> R) :
  prepared_cells df ov fee_gas cells "reward_token_price"
  = match reward_token_price ov with
    | Some v =>
        if has_column df "reward_token_price" then cells "reward_token_price"%string
        else v
    | None => cells "reward_token_price"%string
    end.
Proof.
  unfold prepared_cells, assign; cbn [String.eqb Ascii.eqb Bool.eqb].
  rewrite !optional_cells_other by reflexivity.
  rewrite optional_cells_same.
  now rewrite ?optional_cells_other by reflexivity.
Qed.

Lemma prepared_apy_trading_fee (cells : string -> R) :
  prepared_cells df ov fee_gas cells "apy_trading_fee"
  = match apy_trading_fee ov with
    | Some v =>
        if has_column df "apy_trading_fee" then cells "apy_trading_fee"%string
        else v
    | None => cells "apy_trading_fee"%string
    end.
Proof.
  unfold prepared_cells, assign; cbn [String.eqb Ascii.eqb Bool.eqb].
  rewrite !optional_cells_other by reflexivity.
  rewrite optional_cells_same.
  now rewrite ?optional_cells_other by reflexivity.
Qed.

Lemma prepared_apy_reward (cells : string -> R) :
  prepared_cells df ov fee_gas cells "apy_reward"
  = match apy_reward ov with
    | Some v =>
        if has_column df "apy_reward" then cells "apy_reward"%string else v
    | None => cells "apy_reward"%string
    end.
Proof.
  unfold prepared_cells, assign; cbn [String.eqb Ascii.eqb Bool.eqb].
  rewrite !optional_cells_other by reflexivity.
  rewrite optional_cells_same.
  now rewrite ?optional_cells_other by reflexivity.
Qed.

(** Reading a cell of a row of the prepared table. *)
Lemma getitem_prepared (d : Z) (cells : string -> R) (c : string) :
  getitem (mkSeries d (columns (prepare df ov fee_gas)) cells) c
  = if has_column (prepare df ov fee_gas) c then Ok (cells c)
    else Raise KeyError.
Proof. reflexivity. Qed.

Lemma column_first_prepare (c : string) (dr : Z * (string -> R))
    (rest : list (Z * (string -> R))) :
  has_column df c = true -> rows df = dr :: rest ->
  column_first (prepare df ov fee_gas) c
  = Ok (prepared_cells df ov fee_gas (snd dr) c).
Proof.
  intros Hc Hrows. unfold column_first.
  rewrite has_column_prepare, Hc; cbn [orb].
  now rewrite rows_prepare, Hrows.
Qed.

Lemma iloc_first_prepare (dr : Z * (string -> R))
    (rest : list (Z * (string -> R))) :
  rows df = dr :: rest ->
  iloc_first (prepare df ov fee_gas)
  = Ok (mkSeries (fst dr) (columns (prepare df ov fee_gas))
          (prepared_cells df ov fee_gas (snd dr))).
Proof.
  intros Hrows. unfold iloc_first. now rewrite rows_prepare, Hrows.
Qed.

End PreparedCells.

(** ** Failing before the loop *)

(** C5: a leverage that is neither 1 nor at least 2 makes [add_liquidity]
    raise [ValueError], and a run that opens on start raises it from the
    part of [simulate] that precedes the loop, so no record is returned. *)
Theorem unsupported_leverage_fails_fast
    (df : Frame.DataFrame) (strategy : Trading.TradingStrategy)
    (rewards_cls : Rewards.RewardsStrategy)
    (initial_cap leverage fee_gas fee_swap : R) (ov : Simulation.Overrides)
    (dr : Z * (string -> R)) (rest : list (Z * (string -> R)))
    (Hne1 : leverage <> 1) (Hlt2 : ~ 2 <= leverage)
    (Hc0 : Frame.has_column df "token0_price" = true)
    (Hc1 : Frame.has_column df "token1_price" = true)
    (Hrows : Frame.rows df = dr :: rest)
    (Hp0 : snd dr "token0_price"%string <> 0) :
  (forall capital prices fs fg,
      Core.add_liquidity capital leverage prices fs fg = Raise ValueError)
  /\ Simulation.simulate_init (Simulation.prepare df ov fee_gas) strategy
       initial_cap leverage fee_gas fee_swap true = Raise ValueError
  /\ Simulation.simulate df strategy rewards_cls initial_cap leverage fee_gas
       fee_swap ov true = Raise ValueError.
Proof.
  assert (Hlt : leverage < 2) by lra.
  assert (Hinit :
    Simulation.simulate_init (Simulation.prepare df ov fee_gas) strategy
      initial_cap leverage fee_gas fee_swap true = Raise ValueError).
  { unfold Simulation.simulate_init.
    rewrite (column_first_prepare df ov fee_gas _ dr rest Hc0 Hrows).
    rewrite (column_first_prepare df ov fee_gas _ dr rest Hc1 Hrows).
    cbn [bind].
    now rewrite add_liquidity_unsupported. }
  split; [intros; now apply add_liquidity_unsupported|].
  split; [exact Hinit|].
  unfold Simulation.simulate. now rewrite Hinit.
Qed.

Lemma unsupported_leverage_fails_fast_witness :
  (forall capital prices fs fg,
      Core.add_liquidity capital (3 / 2) prices fs fg = Raise ValueError)
  /\ Simulation.simulate_init
       (Simulation.prepare Scenarios.prices_only Scenarios.no_overrides 0)
       Trading.HODLStrategy 100 (3 / 2) 0 0 true = Raise ValueError
  /\ Simulation.simulate Scenarios.prices_only Trading.HODLStrategy
       Scenarios.sell_all 100 (3 / 2) 0 0 Scenarios.no_overrides true
     = Raise ValueError.
Proof.
  apply (unsupported_leverage_fails_fast Scenarios.prices_only
           Trading.HODLStrategy Scenarios.sell_all 100 (3 / 2) 0 0
           Scenarios.no_overrides
           (0%Z, Scenarios.cell Scenarios.price_columns [1; 1]) []);
    try reflexivity; try lra.
  change (1 <> 0). lra.
Defined.

(** ** A series with no column and no override *)

Section MissingInput.

Import Frame Simulation.

Lemma getitem_raise (row : Series) (c : string) (e : exn) :
  getitem row c = Raise e -> e = KeyError.
Proof.
  unfold getitem. destruct (existsb _ _); [discriminate|congruence].
Qed.

Lemma getitem_ok (row : Series) (c : string) (v : R) :
  getitem row c = Ok v ->
  existsb (String.eqb c) (labels row) = true /\ v = cells row c.
Proof.
  unfold getitem. destruct (existsb _ _); [|discriminate].
  intros H; split; congruence.
Qed.

Ltac read_cell :=
  match goal with
  | |- context [bind (getitem ?r ?c) _] =>
      let E := fresh "E" in
      let v := fresh "v" in
      let e := fresh "e" in
      destruct (getitem r c) as [v|e] eqn:E; cbn [bind];
      [|apply getitem_raise in E; subst e; exists KeyError;
        split; [reflexivity|intros _; reflexivity]]
  end.

Variables (df : DataFrame) (ov : Overrides) (fee_gas : R).
Variable rewards_cls : Rewards.RewardsStrategy.
Variables (initial_cap leverage fee_swap : R).

(** On a row of the prepared table the body of the loop raises; it is a
    [KeyError] when a series read from the row is lacking. *)
Lemma epoch_missing_input (init : Initial) (st : LoopState) (d : Z)
    (cells : string -> R) :
  missing_input df ov ->
  exists e,
    epoch (prepare df ov fee_gas) rewards_cls initial_cap leverage
      fee_swap ov init st
      (mkSeries d (columns (prepare df ov fee_gas)) cells) = Raise e
    /\ (missing_row_series df ov -> e = KeyError).
Proof.
  intros Hmiss. unfold epoch.
  do 6 read_cell.
  assert (Hread : ~ missing_row_series df ov).
  { apply getitem_ok in E1, E2, E3. cbn [labels] in E1, E2, E3.
    destruct E1 as [E1 _], E2 as [E2 _], E3 as [E3 _].
    fold (has_column (prepare df ov fee_gas) "reward_token_price") in E1.
    fold (has_column (prepare df ov fee_gas) "apy_trading_fee") in E2.
    fold (has_column (prepare df ov fee_gas) "apy_reward") in E3.
    rewrite has_column_prepare in E1, E2, E3.
    cbn [String.eqb Ascii.eqb Bool.eqb andb] in E1, E2, E3.
    rewrite ?orb_false_r in E1, E2, E3.
    intros [[H1 H2]|[[H1 H2]|[H1 H2]]].
    - rewrite H1, H2 in E1. discriminate.
    - rewrite H1, H2 in E2. discriminate.
    - rewrite H1, H2 in E3. discriminate. }
  unfold Util.iloss_amt; cbn zeta beta iota.
  destruct (apy_borrow_token0 ov) as [a0|] eqn:Ha0; cbn [daily_rate bind];
    [|exists TypeError; split; [reflexivity|intros H; now contradiction Hread]].
  destruct (apy_borrow_token1 ov) as [a1|] eqn:Ha1; cbn [daily_rate bind];
    [|exists TypeError; split; [reflexivity|intros H; now contradiction Hread]].
  exfalso.
  destruct Hmiss as [Hrow|[[_ H]|[_ H]]]; [now apply Hread| |];
    congruence.
Qed.

End MissingInput.

Lemma simulate_init_rows (df : Frame.DataFrame)
    (strategy : Trading.TradingStrategy) (initial_cap leverage : R)
    (fee_gas fee_swap : R) (open_on_start : bool)
    (r : Simulation.Initial * Simulation.LoopState) :
  Simulation.simulate_init df strategy initial_cap leverage fee_gas fee_swap
    open_on_start = Ok r ->
  Frame.rows df <> [].
Proof.
  unfold Simulation.simulate_init, Frame.column_first.
  destruct (Frame.has_column df "token0_price"); [|discriminate].
  destruct (Frame.rows df); [discriminate|]. intros _; discriminate.
Qed.

(** C8, as stated: on a table with the two price columns only and no
    override, everything before the loop succeeds; the [KeyError] comes
    out of the loop. *)
Lemma missing_series_passes_the_part_before_the_loop :
  is_ok (Simulation.simulate_init
           (Simulation.prepare Scenarios.prices_only Scenarios.no_overrides 0)
           Trading.HODLStrategy 100 1 0 0 true) = true
  /\ Simulation.simulate Scenarios.prices_only Trading.HODLStrategy
       Scenarios.sell_all 100 1 0 0 Scenarios.no_overrides true
     = Raise KeyError.
Proof.
  assert (Hinit : exists r,
    Simulation.simulate_init
      (Simulation.prepare Scenarios.prices_only Scenarios.no_overrides 0)
      Trading.HODLStrategy 100 1 0 0 true = Ok r).
  { unfold Simulation.simulate_init.
    rewrite 2 (column_first_prepare Scenarios.prices_only _ _ _
                 (0%Z, Scenarios.cell Scenarios.price_columns [1; 1]) [])
      by reflexivity.
    cbn [bind]. rewrite add_liquidity_1; cbn [bind].
    rewrite (iloc_first_prepare Scenarios.prices_only _ _
               (0%Z, Scenarios.cell Scenarios.price_columns [1; 1]) [])
      by reflexivity.
    cbn [bind]. eauto. }
  destruct Hinit as [[init st] Hinit].
  split; [now rewrite Hinit|].
  unfold Simulation.simulate. rewrite Hinit; cbn [bind].
  rewrite iterrows_prepare.
  cbn [Frame.rows Scenarios.prices_only Scenarios.frame_of map
       Simulation.loop].
  unfold Simulation.epoch.
  rewrite !getitem_prepared, !has_column_prepare.
  reflexivity.
Qed.

(** C8, amended: when a series is neither a column of the table nor given
    as a keyword argument, the run raises and returns no record; unless a
    configuration error stops it before the loop, the exception is raised
    while the first row is processed, and it is a [KeyError] when the
    series is one of those the loop reads from the row. *)
Theorem missing_series_fails_on_first_row
    (df : Frame.DataFrame) (strategy : Trading.TradingStrategy)
    (rewards_cls : Rewards.RewardsStrategy)
    (initial_cap leverage fee_gas fee_swap : R) (ov : Simulation.Overrides)
    (open_on_start : bool) (Hmiss : missing_input df ov)
    (Hprices : positive_prices df) (Hreward : usable_reward_price df ov) :
  match
    Simulation.simulate_init (Simulation.prepare df ov fee_gas) strategy
      initial_cap leverage fee_gas fee_swap open_on_start
  with
  | Raise e =>
      Simulation.simulate df strategy rewards_cls initial_cap leverage
        fee_gas fee_swap ov open_on_start = Raise e
  | Ok (init, st) =>
      exists row rest e,
        Frame.iterrows (Simulation.prepare df ov fee_gas) = row :: rest
        /\ Simulation.epoch (Simulation.prepare df ov fee_gas) rewards_cls
             initial_cap leverage fee_swap ov init st row = Raise e
        /\ Simulation.simulate df strategy rewards_cls initial_cap leverage
             fee_gas fee_swap ov open_on_start = Raise e
        /\ (missing_row_series df ov -> e = KeyError)
  end.
Proof.
  unfold Simulation.simulate.
  destruct (Simulation.simulate_init _ _ _ _ _ _ _) as [[init st]|e] eqn:Hinit;
    [|reflexivity].
  apply simulate_init_rows in Hinit.
  rewrite iterrows_prepare.
  destruct (Frame.rows df) as [|dr rest] eqn:Hrows.
  { rewrite rows_prepare, Hrows in Hinit. now contradiction Hinit. }
  cbn [map].
  destruct (epoch_missing_input df ov fee_gas rewards_cls initial_cap
              leverage fee_swap init st (fst dr)
              (prepared_cells df ov fee_gas (snd dr)) Hmiss)
    as (e & Hepoch & He).
  eexists _, _, e. split; [reflexivity|]. split; [exact Hepoch|].
  split; [|exact He].
  cbn [bind Simulation.loop]. now rewrite Hepoch.
Qed.

Lemma missing_series_fails_on_first_row_witness :
  match
    Simulation.simulate_init
      (Simulation.prepare Scenarios.prices_only Scenarios.no_overrides 0)
      Trading.HODLStrategy 100 1 0 0 true
  with
  | Raise e =>
      Simulation.simulate Scenarios.prices_only Trading.HODLStrategy
        Scenarios.sell_all 100 1 0 0 Scenarios.no_overrides true = Raise e
  | Ok (init, st) =>
      exists row rest e,
        Frame.iterrows
          (Simulation.prepare Scenarios.prices_only Scenarios.no_overrides 0)
        = row :: rest
        /\ Simulation.epoch
             (Simulation.prepare Scenarios.prices_only
                Scenarios.no_overrides 0)
             Scenarios.sell_all 100 1 0 Scenarios.no_overrides init st row
           = Raise e
        /\ Simulation.simulate Scenarios.prices_only Trading.HODLStrategy
             Scenarios.sell_all 100 1 0 0 Scenarios.no_overrides true
           = Raise e
        /\ (missing_row_series Scenarios.prices_only Scenarios.no_overrides ->
            e = KeyError)
  end.
Proof.
  apply (missing_series_fails_on_first_row Scenarios.prices_only
           Trading.HODLStrategy Scenarios.sell_all 100 1 0 0
           Scenarios.no_overrides true).
  - left. left. split; reflexivity.
  - repeat constructor; cbn; lra.
  - split; [discriminate|]. repeat constructor. discriminate.
Defined.

(** ** Epochs in which nothing moves *)

Section FlatEpoch.

Import Frame Simulation.

Lemma rewards_execute_nothing (self : Rewards.RewardsStrategy) (a : R)
    (rp p0 p1 fs fg : R) :
  Rewards._rewards_sell_amount self = Rewards.VFloat a ->
  p0 <> 0 -> p1 <> 0 ->
  exists r t0 t1 c f,
    Rewards.execute self 0 rp (Some (0, 0)) (Some (p0, p1)) fs fg
    = Ok (r, Some (t0, t1), c, f)
    /\ r = 0 /\ t0 = 0 /\ t1 = 0 /\ c = 0
    /\ f = fg * reward_transactions self.
Proof.
  intros Ha Hp0 Hp1.
  unfold Rewards.execute, reward_transactions,
    Rewards.SellRewardsStrategy_execute,
    Rewards.CompoundRewardsStrategy_execute, Rewards.sell_rewards.
  rewrite Ha; cbn [Rewards.as_float bind].
  destruct (Rewards.rewards_class_of self), (Rle_dec a 0);
    cbn [bind Rewards.subscriptable fst snd];
    do 5 eexists; (split; [reflexivity|]); repeat split;
    try lra; try (field; assumption).
Qed.

Lemma per_year_ok (days : Z) :
  (0 < days)%Z -> per_year days = Ok (365 / IZR days).
Proof.
  intros H. unfold per_year.
  destruct (Z.eqb_spec days 0); [lia|reflexivity].
Qed.

Lemma sqrt_balanced_0 (s0 s1 p0 p1 : R) :
  0 < p0 -> 0 < p1 -> 0 <= s0 -> p0 * s0 = p1 * s1 ->
  sqrt (s0 * s1 * (p1 / p0)) = s0.
Proof.
  intros Hp0 Hp1 Hs0 Hbal. apply sqrt_of_square; [exact Hs0|].
  replace (s0 * s1 * (p1 / p0)) with (s0 * (p1 * s1) / p0) by (field; lra).
  rewrite <- Hbal. field. lra.
Qed.

Lemma sqrt_balanced_1 (s0 s1 p0 p1 : R) :
  0 < p0 -> 0 < p1 -> 0 <= s1 -> p0 * s0 = p1 * s1 ->
  sqrt (s0 * s1 / (p1 / p0)) = s1.
Proof.
  intros Hp0 Hp1 Hs1 Hbal. apply sqrt_of_square; [exact Hs1|].
  replace (s0 * s1 / (p1 / p0)) with ((p0 * s0) * s1 / p1) by (field; lra).
  rewrite Hbal. field. lra.
Qed.

Lemma iloss_same_ratio (r : R) :
  0 < r -> 2 * (sqrt (r / r) / (1 + r / r)) - 1 = 0.
Proof.
  intros Hr. replace (r / r) with 1 by (field; lra).
  rewrite sqrt_1. lra.
Qed.

Variables (df : DataFrame) (rewards_cls : Rewards.RewardsStrategy).
Variables (initial_cap leverage fee_swap : R) (ov : Overrides).
Variables (p0 p1 fg a : R).
Hypothesis Hp0 : 0 < p0.
Hypothesis Hp1 : 0 < p1.
Hypothesis Hb0 : apy_borrow_token0 ov = Some 0.
Hypothesis Hb1 : apy_borrow_token1 ov = Some 0.
Hypothesis Hsell : Rewards._rewards_sell_amount rewards_cls = Rewards.VFloat a.

Lemma epoch_flat (init : Initial) (st : LoopState) (row : Series)
    (s0 s1 d0 d1 fees : R) :
  flat_row p0 p1 fg row ->
  flat_state s0 s1 d0 d1 fees st ->
  0 <= s0 -> 0 <= s1 -> p0 * s0 = p1 * s1 ->
  ratio_initial init = p1 / p0 ->
  (first_date init <= name row)%Z ->
  exists st' rec,
    epoch df rewards_cls initial_cap leverage fee_swap ov init st row
    = Ok (st', rec)
    /\ flat_state s0 s1 d0 d1 (fees + fg * reward_transactions rewards_cls) st'
    /\ flat_record initial_cap p0 p1 s0 s1 d0 d1
         (fees + fg * reward_transactions rewards_cls) rec.
Proof.
  intros (R0 & R1 & (rp & R2 & Hrp) & R3 & R4 & R5) -> Hs0 Hs1 Hbal Hratio
    Hdate.
  unfold epoch.
  rewrite R0, R1, R2, R3, R4, R5; cbn [bind].
  cbn [last_token0_supply last_token1_supply last_token0_debt
       last_token1_debt cash_accum fees_accum rewards_accum strategy_cls].
  unfold Util.iloss_amt.
  rewrite (sqrt_balanced_0 s0 s1 p0 p1) by assumption.
  rewrite (sqrt_balanced_1 s0 s1 p0 p1) by assumption.
  cbn zeta beta iota.
  rewrite Hb0, Hb1; cbn [daily_rate bind].
  replace (0 * 1 / (36525 / 100)) with 0 by (field; lra).
  replace ((p0 * s0 + p1 * s1) * 0 / (36525 / 100) / rp) with 0
    by (field; lra).
  rewrite exp_0.
  destruct (rewards_execute_nothing rewards_cls a rp p0 p1 fee_swap fg Hsell)
    as (r & t0 & t1 & c & f & Hexec & -> & -> & -> & -> & ->); try lra.
  rewrite Hexec; cbn [bind Rewards.subscriptable fst snd].
  cbn [Trading.execute Trading.HODLStrategy_execute bind].
  rewrite !pair2_eqb_refl.
  rewrite per_year_ok by lia. cbn [bind negb orb].
  do 2 eexists. split; [reflexivity|]. split.
  - unfold flat_state. f_equal; lra.
  - unfold flat_record;
      cbn [token0_supply_open token1_supply_open token0_supply_close
           token1_supply_close token0_debt_close token1_debt_close iloss
           trade_event fees_value profit_value].
    rewrite Hratio, iloss_same_ratio by (apply Rdiv_lt_0_compat; lra).
    repeat split; try lra.
Qed.

End FlatEpoch.

Section FlatRun.

Import Frame Simulation.

Variables (rewards_cls : Rewards.RewardsStrategy).
Variables (initial_cap leverage fee_swap fee_gas : R) (ov : Overrides).
Variables (p0 p1 a : R).
Hypothesis Hp0 : 0 < p0.
Hypothesis Hp1 : 0 < p1.
Hypothesis Hb0 : apy_borrow_token0 ov = Some 0.
Hypothesis Hb1 : apy_borrow_token1 ov = Some 0.
Hypothesis Hsell : Rewards._rewards_sell_amount rewards_cls = Rewards.VFloat a.

Lemma loop_flat (df : DataFrame) (init : Initial) (s0 s1 d0 d1 : R)
    (todo : list Series) :
  0 <= s0 -> 0 <= s1 -> p0 * s0 = p1 * s1 ->
  ratio_initial init = p1 / p0 ->
  Forall (flat_row p0 p1 fee_gas) todo ->
  Forall (fun row => (first_date init <= name row)%Z) todo ->
  forall (fees : R) (st : LoopState),
    flat_state s0 s1 d0 d1 fees st ->
    exists recs,
      loop df rewards_cls initial_cap leverage fee_swap ov init st todo
      = Ok recs
      /\ List.length recs = List.length todo
      /\ forall (i : nat) (rec : EpochRecord),
           nth_error recs i = Some rec ->
           flat_record initial_cap p0 p1 s0 s1 d0 d1
             (fees + INR (S i) * (fee_gas * reward_transactions rewards_cls))
             rec.
Proof.
  intros Hs0 Hs1 Hbal Hratio Hrows Hdates.
  induction todo as [|row todo IH]; intros fees st Hst.
  - exists []. split; [reflexivity|]. split; [reflexivity|].
    intros [|i] rec H; discriminate.
  - inversion Hrows as [|? ? Hrow Hrows']; subst.
    inversion Hdates as [|? ? Hdate Hdates']; subst.
    destruct (epoch_flat df rewards_cls initial_cap leverage fee_swap ov
                p0 p1 fee_gas a Hp0 Hp1 Hb0 Hb1 Hsell init st row
                s0 s1 d0 d1 fees Hrow Hst Hs0 Hs1 Hbal Hratio Hdate)
      as (st' & rec0 & Hepoch & Hst' & Hrec0).
    destruct (IH Hrows' Hdates' _ st' Hst') as (recs & Hloop & Hlen & Hrecs).
    exists (rec0 :: recs). cbn [loop]. rewrite Hepoch; cbn [bind].
    rewrite Hloop; cbn [bind]. split; [reflexivity|].
    split; [cbn [List.length]; now rewrite Hlen|].
    intros [|i] rec Hnth; cbn [nth_error] in Hnth.
    + injection Hnth as <-.
      replace (fees + INR 1 * (fee_gas * reward_transactions rewards_cls))
        with (fees + fee_gas * reward_transactions rewards_cls)
        by (cbn [INR]; lra).
      exact Hrec0.
    + apply Hrecs in Hnth.
      replace (fees + INR (S (S i))
                      * (fee_gas * reward_transactions rewards_cls))
        with (fees + fee_gas * reward_transactions rewards_cls
              + INR (S i) * (fee_gas * reward_transactions rewards_cls))
        by (rewrite (S_INR (S i)); lra).
      exact Hnth.
Qed.

(** The opened position holds the same value on both sides, and its
    value net of debt is the capital left after the swap fee. *)
Lemma add_liquidity_balanced :
  leverage = 1 \/ 2 <= leverage ->
  0 <= initial_cap * (1 - fee_swap) ->
  exists s0 s1 d0 d1,
    Core.add_liquidity initial_cap leverage (p0, p1) fee_swap fee_gas
    = Ok ((s0, s1), (d0, d1), fee_gas * open_transactions leverage)
    /\ 0 <= s0 /\ 0 <= s1 /\ p0 * s0 = p1 * s1
    /\ p0 * s0 + p1 * s1 - (d0 * p0 + d1 * p1)
       = initial_cap * (1 - fee_swap).
Proof.
  intros HL Hc. unfold open_transactions.
  set (c := initial_cap * (1 - fee_swap)) in *.
  destruct (Req_dec_T leverage 1) as [->|Hne1].
  { rewrite add_liquidity_1. fold c. do 4 eexists.
    split; [f_equal; f_equal; lra|].
    assert (0 <= c / 2 / p0).
    { apply Rmult_le_pos; [lra|]. left. now apply Rinv_0_lt_compat. }
    assert (0 <= c / 2 / p1).
    { apply Rmult_le_pos; [lra|]. left. now apply Rinv_0_lt_compat. }
    repeat split; try assumption; field; lra. }
  destruct (Req_dec_T leverage 2) as [->|Hne2].
  { rewrite add_liquidity_2. fold c. do 4 eexists.
    split; [f_equal; f_equal; lra|].
    assert (0 <= c / p0).
    { apply Rmult_le_pos; [lra|]. left. now apply Rinv_0_lt_compat. }
    assert (0 <= c / p1).
    { apply Rmult_le_pos; [lra|]. left. now apply Rinv_0_lt_compat. }
    repeat split; try assumption; field; lra. }
  assert (HL2 : 2 < leverage) by lra.
  rewrite add_liquidity_gt2 by exact HL2. fold c. do 4 eexists.
  split; [f_equal; f_equal; lra|].
  assert (Hlc : 0 <= 1 / 2 * leverage * c).
  { apply Rmult_le_pos; lra. }
  assert (0 <= 1 / 2 * leverage * c / p0).
  { apply Rmult_le_pos; [lra|]. left. now apply Rinv_0_lt_compat. }
  assert (0 <= 1 / 2 * leverage * c / p1).
  { apply Rmult_le_pos; [lra|]. left. now apply Rinv_0_lt_compat. }
  repeat split; try assumption; field; lra.
Qed.

End FlatRun.

(** ** Runs over a table in which nothing moves *)

Section FlatTable.

Import Frame Simulation.

Variables (df : DataFrame) (ov : Overrides) (fee_gas : R).

Lemma getitem_prepared_present (d : Z) (cells : string -> R) (c : string) :
  has_column df c = true ->
  getitem (mkSeries d (columns (prepare df ov fee_gas)) (prepared_cells df ov fee_gas cells)) c
  = Ok (prepared_cells df ov fee_gas cells c).
Proof.
  intros Hc. rewrite getitem_prepared.
  now rewrite has_column_prepare, Hc.
Qed.

Lemma getitem_prepared_fee_gas (d : Z) (cells : string -> R) :
  getitem (mkSeries d (columns (prepare df ov fee_gas)) (prepared_cells df ov fee_gas cells))
    "fee_gas"
  = Ok fee_gas.
Proof.
  rewrite getitem_prepared. rewrite has_column_prepare.
  cbn [String.eqb Ascii.eqb Bool.eqb]. now rewrite orb_true_r.
Qed.

Lemma getitem_prepared_reward_token_price (d : Z) (cells : string -> R)
    (P : R -> Prop) :
  supplied df "reward_token_price" (reward_token_price ov) P cells ->
  exists v,
    getitem (mkSeries d (columns (prepare df ov fee_gas)) (prepared_cells df ov fee_gas cells))
      "reward_token_price" = Ok v /\ P v.
Proof.
  unfold supplied. intros H. rewrite getitem_prepared.
  rewrite has_column_prepare, prepared_reward_token_price.
  cbn [String.eqb Ascii.eqb Bool.eqb andb]. rewrite ?orb_false_r.
  destruct (has_column df "reward_token_price"),
    (reward_token_price ov); cbn [orb]; try contradiction; eauto.
Qed.

Lemma getitem_prepared_apy_trading_fee (d : Z) (cells : string -> R)
    (P : R -> Prop) :
  supplied df "apy_trading_fee" (apy_trading_fee ov) P cells ->
  exists v,
    getitem (mkSeries d (columns (prepare df ov fee_gas)) (prepared_cells df ov fee_gas cells))
      "apy_trading_fee" = Ok v /\ P v.
Proof.
  unfold supplied. intros H. rewrite getitem_prepared.
  rewrite has_column_prepare, prepared_apy_trading_fee.
  cbn [String.eqb Ascii.eqb Bool.eqb andb]. rewrite ?orb_false_r.
  destruct (has_column df "apy_trading_fee"),
    (apy_trading_fee ov); cbn [orb]; try contradiction; eauto.
Qed.

Lemma getitem_prepared_apy_reward (d : Z) (cells : string -> R)
    (P : R -> Prop) :
  supplied df "apy_reward" (apy_reward ov) P cells ->
  exists v,
    getitem (mkSeries d (columns (prepare df ov fee_gas)) (prepared_cells df ov fee_gas cells))
      "apy_reward" = Ok v /\ P v.
Proof.
  unfold supplied. intros H. rewrite getitem_prepared.
  rewrite has_column_prepare, prepared_apy_reward.
  cbn [String.eqb Ascii.eqb Bool.eqb andb]. rewrite ?orb_false_r.
  destruct (has_column df "apy_reward"),
    (apy_reward ov); cbn [orb]; try contradiction; eauto.
Qed.

Lemma flat_table_rows (p0 p1 : R) :
  flat_table df ov p0 p1 ->
  Forall (flat_row p0 p1 fee_gas) (iterrows (prepare df ov fee_gas)).
Proof.
  intros (Hc0 & Hc1 & Hrows). rewrite iterrows_prepare.
  apply Forall_map. eapply Forall_impl; [|exact Hrows].
  intros [d cells]; cbn [fst snd].
  intros (H0 & H1 & Hrp & Htf & Har).
  unfold flat_row.
  rewrite !getitem_prepared_present by assumption.
  rewrite prepared_token0_price, prepared_token1_price, H0, H1.
  rewrite getitem_prepared_fee_gas.
  destruct (getitem_prepared_reward_token_price d cells _ Hrp)
    as (rp & -> & Hrp').
  destruct (getitem_prepared_apy_trading_fee d cells _ Htf)
    as (tf & -> & ->).
  destruct (getitem_prepared_apy_reward d cells _ Har) as (ar & -> & ->).
  repeat split; eauto.
Qed.

Lemma dates_from_first (dr : Z * (string -> R))
    (rest : list (Z * (string -> R))) :
  dates_increasing df -> rows df = dr :: rest ->
  Forall (fun row => (fst dr <= name row)%Z) (iterrows (prepare df ov fee_gas)).
Proof.
  unfold dates_increasing. intros Hsorted Hrows.
  rewrite iterrows_prepare, Hrows. rewrite Hrows in Hsorted.
  cbn [map] in *. apply StronglySorted_inv in Hsorted.
  destruct Hsorted as [_ Hall].
  constructor; [cbn [name]; lia|].
  apply Forall_map. rewrite Forall_map in Hall.
  eapply Forall_impl; [|exact Hall]. intros x Hx; cbn [name fst] in *.
  unfold Z.le. unfold Z.lt in Hx. now rewrite Hx.
Qed.

End FlatTable.

Section FlatSimulation.

Import Frame Simulation.

Variables (df : DataFrame) (rewards_cls : Rewards.RewardsStrategy).
Variables (initial_cap leverage fee_gas fee_swap : R) (ov : Overrides).
Variables (p0 p1 a : R).

(** The passive run over a flat table: it returns one record per row, and
    every record shows the opened position unchanged; the fees to date
    are the gas of the opening and of one reward sale per epoch.  Only
    the borrow APYs given as keyword arguments enter, whatever the table
    has in its borrow columns. *)
Lemma simulate_flat :
  0 < p0 -> 0 < p1 ->
  apy_borrow_token0 ov = Some 0 -> apy_borrow_token1 ov = Some 0 ->
  Rewards._rewards_sell_amount rewards_cls = Rewards.VFloat a ->
  flat_table df ov p0 p1 -> dates_increasing df -> rows df <> [] ->
  leverage = 1 \/ 2 <= leverage ->
  0 <= initial_cap * (1 - fee_swap) ->
  exists s0 s1 d0 d1 recs,
    Core.add_liquidity initial_cap leverage (p0, p1) fee_swap fee_gas
    = Ok ((s0, s1), (d0, d1), fee_gas * open_transactions leverage)
    /\ p0 * s0 + p1 * s1 - (d0 * p0 + d1 * p1)
       = initial_cap * (1 - fee_swap)
    /\ simulate df Trading.HODLStrategy rewards_cls initial_cap leverage
         fee_gas fee_swap ov true = Ok recs
    /\ List.length recs = List.length (rows df)
    /\ forall (i : nat) (rec : EpochRecord),
         nth_error recs i = Some rec ->
         flat_record initial_cap p0 p1 s0 s1 d0 d1
           (fee_gas * open_transactions leverage
            + INR (S i) * (fee_gas * reward_transactions rewards_cls))
           rec.
Proof.
  intros Hp0 Hp1 Hb0 Hb1 Hsell Hflat Hdates Hne HL Hc.
  destruct (rows df) as [|dr rest] eqn:Hrows; [contradiction|].
  destruct (add_liquidity_balanced initial_cap leverage fee_swap fee_gas
              p0 p1 Hp0 Hp1 HL Hc)
    as (s0 & s1 & d0 & d1 & Hopen & Hs0 & Hs1 & Hbal & Heq).
  pose proof (flat_table_rows df ov fee_gas p0 p1 Hflat) as Hrowsflat.
  pose proof (dates_from_first df ov fee_gas dr rest Hdates Hrows) as Hfrom.
  destruct Hflat as (Hc0 & Hc1 & Hall).
  rewrite Hrows in Hall. apply Forall_inv in Hall.
  destruct Hall as (H0 & H1 & _).
  destruct (loop_flat rewards_cls initial_cap leverage fee_swap fee_gas ov
              p0 p1 a Hp0 Hp1 Hb0 Hb1 Hsell (prepare df ov fee_gas)
              (mkInitial (p1 / p0) s0 s1 (fst dr)) s0 s1 d0 d1
              (iterrows (prepare df ov fee_gas)) Hs0 Hs1 Hbal eq_refl
              Hrowsflat Hfrom
              (fee_gas * open_transactions leverage)
              (mkLoopState Trading.HODLStrategy s0 s1 d0 d1 0
                 (fee_gas * open_transactions leverage) 0) eq_refl)
    as (recs & Hloop & Hlen & Hrecs).
  exists s0, s1, d0, d1, recs.
  split; [exact Hopen|]. split; [exact Heq|]. split.
  - unfold simulate, simulate_init.
    rewrite (column_first_prepare df ov fee_gas _ dr rest Hc0 Hrows).
    rewrite (column_first_prepare df ov fee_gas _ dr rest Hc1 Hrows).
    cbn [bind].
    rewrite prepared_token0_price, prepared_token1_price, H0, H1.
    rewrite Hopen; cbn [bind].
    rewrite (iloc_first_prepare df ov fee_gas dr rest Hrows).
    cbn [bind name]. exact Hloop.
  - split; [|exact Hrecs].
    rewrite Hlen, iterrows_prepare, length_map, Hrows. reflexivity.
Qed.

End FlatSimulation.

(** ** No price change, no APY *)

Lemma flat_two_days_is_flat :
  flat_table Scenarios.flat_two_days Scenarios.zero_borrow 1 1
  /\ zero_borrow_apys Scenarios.flat_two_days Scenarios.zero_borrow
  /\ dates_increasing Scenarios.flat_two_days.
Proof.
  split; [|split].
  - split; [reflexivity|]. split; [reflexivity|].
    repeat constructor; cbn; lra.
  - repeat constructor; cbn; lra.
  - repeat constructor.
Qed.

(** C2, as stated: with the default swap fee of 0.3% the passive run over
    a flat table books a loss in its first record. *)
Lemma flat_run_profit_not_zero :
  flat_table Scenarios.flat_two_days Scenarios.zero_borrow 1 1
  /\ zero_borrow_apys Scenarios.flat_two_days Scenarios.zero_borrow
  /\ exists rec recs,
       Simulation.simulate Scenarios.flat_two_days Trading.HODLStrategy
         Scenarios.sell_all 100 1 0 (3 / 1000) Scenarios.zero_borrow true
       = Ok (rec :: recs)
       /\ Simulation.profit_value rec = - (3 / 10)
       /\ Simulation.profit_value rec <> 0.
Proof.
  destruct flat_two_days_is_flat as (Hflat & Hzero & Hdates).
  split; [exact Hflat|]. split; [exact Hzero|].
  destruct (simulate_flat Scenarios.flat_two_days Scenarios.sell_all
              100 1 0 (3 / 1000) Scenarios.zero_borrow 1 1 1)
    as (s0 & s1 & d0 & d1 & recs & _ & Heq & Hsim & Hlen & Hrecs);
    try lra; try reflexivity; try assumption.
  { discriminate. }
  destruct recs as [|rec recs]; [discriminate Hlen|].
  exists rec, recs. split; [exact Hsim|].
  destruct (Hrecs 0%nat rec eq_refl)
    as (_ & _ & _ & _ & _ & _ & _ & _ & _ & Hprofit).
  assert (Hp : Simulation.profit_value rec = - (3 / 10)).
  { rewrite Hprofit. lra. }
  split; [exact Hp|]. rewrite Hp. lra.
Qed.

(** C2, amended: a passive run that opens on start over a table with
    constant prices and zero APYs, with the borrow APYs also passed as zero
    keyword arguments, returns one record per row; in every record the
    closing supplies and debts are those of the opened position,
    [iloss = 0], and [profit_value] is minus the swap fee on the capital
    minus the gas paid so far, which is zero when both fee parameters
    are. *)
Theorem flat_run_is_a_fixed_point
    (df : Frame.DataFrame) (rewards_cls : Rewards.RewardsStrategy)
    (initial_cap leverage fee_gas fee_swap : R) (ov : Simulation.Overrides)
    (p0 p1 a : R)
    (Hcap : 0 < initial_cap) (Hp0 : 0 < p0) (Hp1 : 0 < p1)
    (Hfs : fee_swap < 1)
    (HL : leverage = 1 \/ 2 <= leverage)
    (Hb0 : Simulation.apy_borrow_token0 ov = Some 0)
    (Hb1 : Simulation.apy_borrow_token1 ov = Some 0)
    (Hsell : Rewards._rewards_sell_amount rewards_cls = Rewards.VFloat a)
    (Hflat : flat_table df ov p0 p1)
    (Hborrow : zero_borrow_apys df ov)
    (Hdates : dates_increasing df)
    (Hrows : Frame.rows df <> []) :
  exists s0 s1 d0 d1 recs,
    Core.add_liquidity initial_cap leverage (p0, p1) fee_swap fee_gas
    = Ok ((s0, s1), (d0, d1), fee_gas * open_transactions leverage)
    /\ Simulation.simulate df Trading.HODLStrategy rewards_cls initial_cap
         leverage fee_gas fee_swap ov true = Ok recs
    /\ List.length recs = List.length (Frame.rows df)
    /\ forall (i : nat) (rec : Simulation.EpochRecord),
         nth_error recs i = Some rec ->
         Simulation.token0_supply_close rec = s0
         /\ Simulation.token1_supply_close rec = s1
         /\ Simulation.token0_debt_close rec = d0
         /\ Simulation.token1_debt_close rec = d1
         /\ Simulation.iloss rec = 0
         /\ Simulation.trade_event rec = false
         /\ Simulation.profit_value rec
            = - (fee_swap * initial_cap)
              - fee_gas * (open_transactions leverage
                           + INR (S i) * reward_transactions rewards_cls)
         /\ (fee_swap = 0 -> fee_gas = 0 -> Simulation.profit_value rec = 0).
Proof.
  assert (Hc : 0 <= initial_cap * (1 - fee_swap)).
  { apply Rmult_le_pos; lra. }
  destruct (simulate_flat df rewards_cls initial_cap leverage fee_gas
              fee_swap ov p0 p1 a Hp0 Hp1 Hb0 Hb1 Hsell Hflat Hdates Hrows
              HL Hc)
    as (s0 & s1 & d0 & d1 & recs & Hopen & Heq & Hsim & Hlen & Hrecs).
  exists s0, s1, d0, d1, recs.
  split; [exact Hopen|]. split; [exact Hsim|]. split; [exact Hlen|].
  intros i rec Hnth.
  destruct (Hrecs i rec Hnth)
    as (_ & _ & Hs0 & Hs1 & Hd0 & Hd1 & Hil & Htr & _ & Hprofit).
  assert (Hp : Simulation.profit_value rec
               = - (fee_swap * initial_cap)
                 - fee_gas * (open_transactions leverage
                              + INR (S i) * reward_transactions rewards_cls)).
  { rewrite Hprofit. lra. }
  repeat split; try assumption.
  intros -> ->. rewrite Hp. lra.
Qed.

Lemma flat_run_is_a_fixed_point_witness :
  exists s0 s1 d0 d1 recs,
    Core.add_liquidity 100 1 (1, 1) 0 0
    = Ok ((s0, s1), (d0, d1), 0 * open_transactions 1)
    /\ Simulation.simulate Scenarios.flat_two_days Trading.HODLStrategy
         Scenarios.sell_all 100 1 0 0 Scenarios.zero_borrow true = Ok recs
    /\ List.length recs = List.length (Frame.rows Scenarios.flat_two_days)
    /\ forall (i : nat) (rec : Simulation.EpochRecord),
         nth_error recs i = Some rec ->
         Simulation.token0_supply_close rec = s0
         /\ Simulation.token1_supply_close rec = s1
         /\ Simulation.token0_debt_close rec = d0
         /\ Simulation.token1_debt_close rec = d1
         /\ Simulation.iloss rec = 0
         /\ Simulation.trade_event rec = false
         /\ Simulation.profit_value rec
            = - (0 * 100)
              - 0 * (open_transactions 1
                     + INR (S i) * reward_transactions Scenarios.sell_all)
         /\ (0 = 0 -> 0 = 0 -> Simulation.profit_value rec = 0).
Proof.
  apply (flat_run_is_a_fixed_point Scenarios.flat_two_days Scenarios.sell_all
           100 1 0 0 Scenarios.zero_borrow 1 1 1);
    try lra; try reflexivity; try apply flat_two_days_is_flat.
  discriminate.
Defined.

(** ** The borrow APY that enters the debt *)

(** C3 at a one-day table whose borrow columns hold 10% a year: without
    the keyword arguments the run raises [TypeError] on the first row;
    with the keyword arguments at zero the token1 debt of the 2X position
    closes the day at the 100 tokens it opened with, not at
    [100 * exp (0.1 / 365.25)]. *)
Theorem borrow_columns_are_not_read :
  Simulation.simulate Scenarios.borrow_day Trading.HODLStrategy
    Scenarios.sell_all 100 2 0 0 Scenarios.no_overrides true
  = Raise TypeError
  /\ exists rec,
       Simulation.simulate Scenarios.borrow_day Trading.HODLStrategy
         Scenarios.sell_all 100 2 0 0 Scenarios.zero_borrow true = Ok [rec]
       /\ Simulation.token1_debt_close rec = 100
       /\ Simulation.token1_debt_close rec
          <> 100 * exp ((1 / 10) / (36525 / 100)).
Proof.
  split.
  - assert (Hinit : exists r,
      Simulation.simulate_init
        (Simulation.prepare Scenarios.borrow_day Scenarios.no_overrides 0)
        Trading.HODLStrategy 100 2 0 0 true = Ok r).
    { unfold Simulation.simulate_init.
      rewrite 2 (column_first_prepare Scenarios.borrow_day _ _ _
                   (0%Z, Scenarios.cell Scenarios.all_columns
                           [1; 1; 1; 0; 0; 1 / 10; 1 / 10]) [])
        by reflexivity.
      cbn [bind].
      rewrite prepared_token0_price, prepared_token1_price.
      rewrite add_liquidity_2; cbn [bind].
      rewrite (iloc_first_prepare Scenarios.borrow_day _ _
                 (0%Z, Scenarios.cell Scenarios.all_columns
                         [1; 1; 1; 0; 0; 1 / 10; 1 / 10]) [])
        by reflexivity.
      cbn [bind]. eauto. }
    destruct Hinit as [[init st] Hinit].
    unfold Simulation.simulate. rewrite Hinit; cbn [bind].
    rewrite iterrows_prepare.
    cbn [Frame.rows Scenarios.borrow_day Scenarios.frame_of map
         Simulation.loop].
    unfold Simulation.epoch.
    rewrite !getitem_prepared, !has_column_prepare.
    reflexivity.
  - destruct (simulate_flat Scenarios.borrow_day Scenarios.sell_all
                100 2 0 0 Scenarios.zero_borrow 1 1 1)
      as (s0 & s1 & d0 & d1 & recs & Hopen & _ & Hsim & Hlen & Hrecs);
      try lra; try reflexivity.
    { split; [reflexivity|]. split; [reflexivity|].
      repeat constructor; cbn; lra. }
    { repeat constructor. }
    { discriminate. }
    destruct recs as [|rec [|rec' recs]]; try discriminate Hlen.
    exists rec. split; [exact Hsim|].
    destruct (Hrecs 0%nat rec eq_refl)
      as (_ & _ & _ & _ & _ & Hd1 & _).
    rewrite add_liquidity_2 in Hopen.
    assert (Hd : d1 = 100) by (injection Hopen; intros; lra).
    rewrite Hd1, Hd. split; [reflexivity|].
    assert (Hx : (1 / 10) / (36525 / 100) <> 0) by lra.
    pose proof (exp_ineq1 _ Hx). lra.
Qed.


(** ** The table a strategy is handed *)

Section UpTo.

Import Frame.

Lemma filter_all {A : Type} (f : A -> bool) (l : list A) :
  Forall (fun x => f x = true) l -> filter f l = l.
Proof.
  induction 1 as [|x l Hx _ IH]; cbn [filter]; [reflexivity|].
  now rewrite Hx, IH.
Qed.

Lemma filter_none {A : Type} (f : A -> bool) (l : list A) :
  Forall (fun x => f x = false) l -> filter f l = [].
Proof.
  induction 1 as [|x l Hx _ IH]; cbn [filter]; [reflexivity|].
  now rewrite Hx, IH.
Qed.

Lemma sorted_prefix_below (pre : list Z) (d : Z) (post : list Z) :
  StronglySorted Z.lt (pre ++ d :: post) ->
  Forall (fun x => (x < d)%Z) pre /\ Forall (fun x => (d < x)%Z) post.
Proof.
  induction pre as [|x pre IH]; cbn [app]; intros Hs.
  - apply StronglySorted_inv in Hs. split; [constructor|apply Hs].
  - apply StronglySorted_inv in Hs. destruct Hs as [Hs Hx].
    destruct (IH Hs) as [Hpre Hpost]. split; [|exact Hpost].
    constructor; [|exact Hpre].
    rewrite Forall_app in Hx. destruct Hx as [_ Hx].
    now apply Forall_inv in Hx.
Qed.

(** With increasing dates, the last row of [df[df.index <= idx]] is the
    row dated [idx]. *)
Lemma iloc_last_up_to (df : DataFrame) (pre post : list (Z * (string -> R)))
    (dr : Z * (string -> R)) :
  StronglySorted Z.lt (map fst (rows df)) ->
  rows df = pre ++ dr :: post ->
  iloc_last (up_to df (fst dr)) = Ok (series_of df dr).
Proof.
  intros Hs Hrows. rewrite Hrows, map_app in Hs; cbn [map] in Hs.
  apply sorted_prefix_below in Hs. destruct Hs as [Hpre Hpost].
  unfold iloc_last, up_to; cbn [rows]. rewrite Hrows, filter_app.
  cbn [filter]. rewrite Z.leb_refl.
  rewrite (filter_all _ pre), (filter_none _ post).
  - rewrite rev_app_distr. reflexivity.
  - rewrite Forall_map in Hpost. eapply Forall_impl; [|exact Hpost].
    intros x Hx; cbn beta in *. apply Z.leb_gt. exact Hx.
  - rewrite Forall_map in Hpre. eapply Forall_impl; [|exact Hpre].
    intros x Hx; cbn beta in *. apply Z.leb_le. apply Z.lt_le_incl. exact Hx.
Qed.

Lemma sorted_sees_current_rows (df : DataFrame) :
  StronglySorted Z.lt (map fst (rows df)) ->
  Forall (sees_current_row df) (iterrows df).
Proof.
  intros Hs. unfold iterrows. apply Forall_map, Forall_forall.
  intros dr Hin. apply in_split in Hin. destruct Hin as (pre & post & Hrows).
  unfold sees_current_row. cbn [series_of name].
  now apply (iloc_last_up_to df pre post dr).
Qed.

End UpTo.

(** ** What a completed epoch went through *)

Section EpochInversion.

Import Frame Simulation.

Ltac invert_binds H :=
  repeat
    (first
       [ let x := fresh "x" in
         let Hx := fresh "Hx" in
         apply bind_ok in H; destruct H as (x & Hx & H)
       | match type of H with
         | match ?p with pair _ _ => _ end = Ok _ => destruct p
         end ]).

Lemma epoch_ok_inv (df : DataFrame) (rewards_cls : Rewards.RewardsStrategy)
    (initial_cap leverage fee_swap : R) (ov : Overrides) (init : Initial)
    (st st' : LoopState) (row : Series) (rec : EpochRecord) :
  epoch df rewards_cls initial_cap leverage fee_swap ov init st row
  = Ok (st', rec) ->
  exists p0 p1 supply_in debt_in cash_in supply_out debt_out cash_out
         fees_trade,
    getitem row "token0_price" = Ok p0
    /\ getitem row "token1_price" = Ok p1
    /\ token0_supply_open rec
       = sqrt (last_token0_supply st * last_token1_supply st * (p1 / p0))
    /\ token1_supply_open rec
       = sqrt (last_token0_supply st * last_token1_supply st / (p1 / p0))
    /\ Trading.execute (strategy_cls st) supply_in debt_in
         (up_to df (name row)) cash_in
       = Ok (strategy_cls st',
             (supply_out, debt_out, cash_out, fees_trade,
              strategy_metadata rec))
    /\ trade_event rec
       = negb (pair2_eqb supply_in supply_out)
         || negb (pair2_eqb debt_in debt_out)
    /\ (token0_supply_close rec, token1_supply_close rec) = supply_out
    /\ (token0_debt_close rec, token1_debt_close rec) = debt_out
    /\ (last_token0_supply st', last_token1_supply st') = supply_out
    /\ (last_token0_debt st', last_token1_debt st') = debt_out.
Proof.
  intros H. unfold epoch in H.
  apply bind_ok in H; destruct H as (p0 & Hp0 & H).
  apply bind_ok in H; destruct H as (p1 & Hp1 & H).
  apply bind_ok in H; destruct H as (rp & Hrp & H).
  rewrite Hp1, Hp0 in H; cbn [bind] in H.
  apply bind_ok in H; destruct H as (tf & Htf & H).
  apply bind_ok in H; destruct H as (ar & Har & H).
  apply bind_ok in H; destruct H as (fg & Hfg & H).
  unfold Util.iloss_amt in H; cbn zeta beta iota in H.
  invert_binds H.
  injection H as <- <-.
  do 9 eexists.
  split; [exact Hp0|]. split; [exact Hp1|].
  cbn [token0_supply_open token1_supply_open trade_event strategy_metadata
       token0_supply_close token1_supply_close token0_debt_close
       token1_debt_close last_token0_supply last_token1_supply
       last_token0_debt last_token1_debt strategy_cls].
  split; [reflexivity|]. split; [reflexivity|].
  split; [eassumption|].
  repeat split.
Qed.

(** What [RebalanceStrategy.execute] did when it returned. *)
Lemma rebalance_execute_inv (self self' : Trading.RebalanceStrategy)
    (supply debt : pair2) (df : DataFrame) (input_cash : R)
    (out : Trading.outcome) :
  Trading.RebalanceStrategy_execute self supply debt df input_cash
  = Ok (self', out) ->
  exists last p0 p1,
    iloc_last df = Ok last
    /\ getitem last "token0_price" = Ok p0
    /\ getitem last "token1_price" = Ok p1
    /\ snd out
       = [("price_delta"%string,
           Trading.price_delta_of p1 (Trading._price_anchor self))]
    /\ ((Trading.price_delta_of p1 (Trading._price_anchor self)
         > Trading._threshold self
         /\ self' = Trading.set_price_anchor self p1)
        \/ (~ Trading.price_delta_of p1 (Trading._price_anchor self)
              > Trading._threshold self
            /\ self' = self
            /\ out = (supply, debt, input_cash, 0,
                      [("price_delta"%string,
                        Trading.price_delta_of p1
                          (Trading._price_anchor self))]))).
Proof.
  intros H. unfold Trading.RebalanceStrategy_execute in H.
  apply bind_ok in H; destruct H as (last & Hlast & H).
  apply bind_ok in H; destruct H as (p0 & Hp0 & H).
  apply bind_ok in H; destruct H as (p1 & Hp1 & H).
  exists last, p0, p1. repeat (split; [assumption|]).
  destruct (Rgt_dec (Trading.price_delta_of p1 (Trading._price_anchor self))
              (Trading._threshold self)) as [Hgt|Hle].
  - destruct (Core.remove_liquidity supply debt (p0, p1)
                (Trading._amount self) (Trading._fee_swap self)
                (Trading._fee_gas self)) as [[[s d] c] f].
    apply bind_ok in H; destruct H as ([[so do] fo] & Hopen & H).
    injection H as <- <-. split; [reflexivity|]. left. now split.
  - injection H as <- <-. split; [reflexivity|]. right. now repeat split.
Qed.

End EpochInversion.

(** ** Threshold rebalancing over a run *)

Section RebalancingRun.

Import Frame Simulation.

Variables (df : DataFrame) (rewards_cls : Rewards.RewardsStrategy).
Variables (initial_cap leverage fee_swap : R) (ov : Overrides).
Variable init : Initial.

Lemma loop_rebalancing (todo : list Series) :
  Forall (sees_current_row df) todo ->
  forall (st : LoopState) (self : Trading.RebalanceStrategy)
         (recs : list EpochRecord),
    strategy_cls st = Trading.Rebalancing self ->
    loop df rewards_cls initial_cap leverage fee_swap ov init st todo
    = Ok recs ->
    map strategy_metadata recs
    = map price_delta_entry
        (deviations (Trading._threshold self) (Trading._price_anchor self)
           (map (fun row => cells row "token1_price"%string) todo))
    /\ Forall2
         (fun rec delta =>
            trade_event rec = true -> delta > Trading._threshold self)
         recs
         (deviations (Trading._threshold self) (Trading._price_anchor self)
            (map (fun row => cells row "token1_price"%string) todo)).
Proof.
  induction 1 as [|row todo Hsees _ IH]; intros st self recs Hst Hloop.
  - injection Hloop as <-. split; [reflexivity|constructor].
  - cbn [loop] in Hloop.
    apply bind_ok in Hloop. destruct Hloop as ([st' rec] & Hepoch & Hloop).
    apply bind_ok in Hloop. destruct Hloop as (recs' & Hloop & Hrecs).
    injection Hrecs as <-.
    apply epoch_ok_inv in Hepoch.
    destruct Hepoch as (p0 & p1 & sin & din & cin & sout & dout & cout & ft
                        & _ & Hp1 & _ & _ & Hexec & Htrade & _).
    rewrite Hst in Hexec. cbn [Trading.execute] in Hexec.
    apply bind_ok in Hexec. destruct Hexec as ([self' out] & Hexec & Hout).
    injection Hout as Hst' Hout.
    apply rebalance_execute_inv in Hexec.
    destruct Hexec as (last & q0 & q1 & Hlast & _ & Hq1 & Hmeta & Hcases).
    unfold sees_current_row in Hsees. rewrite Hsees in Hlast.
    injection Hlast as <-.
    apply getitem_ok in Hq1. destruct Hq1 as [_ ->].
    rewrite Hout in Hmeta; cbn [snd] in Hmeta.
    unfold Trading.price_delta_of in *.
    cbn [map deviations].
    set (delta := Rabs (cells row "token1_price" - Trading._price_anchor self)
                  / Trading._price_anchor self) in *.
    destruct Hcases as [[Hgt ->]|(Hle & -> & Heq)].
    + rewrite if_Rgt_true by exact Hgt.
      destruct (IH st' _ recs' (eq_sym Hst') Hloop) as [IHm IHt].
      cbn [Trading.set_price_anchor Trading._threshold Trading._price_anchor]
        in IHm, IHt.
      split.
      * rewrite Hmeta. f_equal. exact IHm.
      * constructor; [intros _; exact Hgt|exact IHt].
    + rewrite if_Rgt_false by exact Hle.
      destruct (IH st' _ recs' (eq_sym Hst') Hloop) as [IHm IHt].
      split.
      * rewrite Hmeta. f_equal. exact IHm.
      * constructor; [|exact IHt].
        rewrite Heq in Hout. injection Hout as <- <- _ _ _.
        rewrite Htrade, !pair2_eqb_refl. discriminate.
Qed.

End RebalancingRun.

Lemma simulate_init_strategy (df : Frame.DataFrame)
    (strategy : Trading.TradingStrategy) (initial_cap leverage : R)
    (fee_gas fee_swap : R) (open_on_start : bool)
    (init : Simulation.Initial) (st : Simulation.LoopState) :
  Simulation.simulate_init df strategy initial_cap leverage fee_gas fee_swap
    open_on_start = Ok (init, st) ->
  Simulation.strategy_cls st = strategy.
Proof.
  unfold Simulation.simulate_init. intros H.
  apply bind_ok in H; destruct H as (q0 & _ & H).
  apply bind_ok in H; destruct H as (q1 & _ & H).
  destruct open_on_start; [|discriminate].
  apply bind_ok in H; destruct H as ([[[s0 s1] [d0 d1]] fo] & _ & H).
  apply bind_ok in H; destruct H as (first & _ & H).
  injection H as _ <-. reflexivity.
Qed.

(** What every returning threshold-rebalance run recorded. *)
Lemma simulate_rebalancing_records (df : Frame.DataFrame)
    (self : Trading.RebalanceStrategy)
    (rewards_cls : Rewards.RewardsStrategy)
    (initial_cap leverage fee_gas fee_swap : R) (ov : Simulation.Overrides)
    (open_on_start : bool) (recs : list Simulation.EpochRecord) :
  dates_increasing df ->
  Simulation.simulate df (Trading.Rebalancing self) rewards_cls initial_cap
    leverage fee_gas fee_swap ov open_on_start = Ok recs ->
  map Simulation.strategy_metadata recs
  = map price_delta_entry
      (deviations (Trading._threshold self) (Trading._price_anchor self)
         (map (fun dr => snd dr "token1_price"%string) (Frame.rows df)))
  /\ Forall2
       (fun rec delta =>
          Simulation.trade_event rec = true -> delta > Trading._threshold self)
       recs
       (deviations (Trading._threshold self) (Trading._price_anchor self)
          (map (fun dr => snd dr "token1_price"%string) (Frame.rows df))).
Proof.
  intros Hdates Hsim. unfold Simulation.simulate in Hsim.
  apply bind_ok in Hsim. destruct Hsim as ([init st] & Hinit & Hloop).
  apply simulate_init_strategy in Hinit.
  assert (Hsees : Forall (sees_current_row (Simulation.prepare df ov fee_gas))
                    (Frame.iterrows (Simulation.prepare df ov fee_gas))).
  { apply sorted_sees_current_rows. rewrite rows_prepare, map_map.
    exact Hdates. }
  pose proof (loop_rebalancing _ _ _ _ _ _ _ _ Hsees st self recs Hinit Hloop)
    as Hrecs.
  rewrite iterrows_prepare, map_map in Hrecs. cbn [Frame.cells] in Hrecs.
  assert (Hprices :
    map (fun dr : Z * (string -> R) =>
           prepared_cells df ov fee_gas (snd dr) "token1_price") (Frame.rows df)
    = map (fun dr => snd dr "token1_price"%string) (Frame.rows df)).
  { apply map_ext. intros dr. apply prepared_token1_price. }
  rewrite Hprices in Hrecs. exact Hrecs.
Qed.

(** ** A rebalance that leaves no trace in [trade_event] *)

Section QuietRebalance.

Import Frame Simulation.

Lemma sqrt_ratio (k r : R) :
  0 <= k -> 0 < r -> sqrt (k * r) = r * sqrt (k / r).
Proof.
  intros Hk Hr.
  assert (Hkr : 0 <= k / r).
  { apply Rmult_le_pos; [exact Hk|]. left. now apply Rinv_0_lt_compat. }
  replace (k * r) with (k / r * (r * r)) by (field; lra).
  rewrite sqrt_mult by nra. rewrite sqrt_square by lra. ring.
Qed.

(** The repriced pool holds the same value on both sides. *)
Lemma iloss_amt_balanced (s0 s1 p0 p1 : R) :
  0 <= s0 -> 0 <= s1 -> 0 < p0 -> 0 < p1 ->
  p0 * sqrt (s0 * s1 * (p1 / p0)) = p1 * sqrt (s0 * s1 / (p1 / p0)).
Proof.
  intros Hs0 Hs1 Hp0 Hp1.
  rewrite sqrt_ratio.
  - field. lra.
  - now apply Rmult_le_pos.
  - apply Rdiv_lt_0_compat; lra.
Qed.

Variables (df : DataFrame) (rewards_cls : Rewards.RewardsStrategy).
Variables (initial_cap leverage fee_swap : R) (ov : Overrides).
Variables (a b0 b1 : R).
Hypothesis Hb0 : apy_borrow_token0 ov = Some b0.
Hypothesis Hb1 : apy_borrow_token1 ov = Some b1.
Hypothesis Hsell : Rewards._rewards_sell_amount rewards_cls = Rewards.VFloat a.

Lemma epoch_quiet (init : Initial) (st : LoopState) (row : Series) :
  quiet_row row -> quiet_state st -> sees_current_row df row ->
  (first_date init <= name row)%Z ->
  exists st' rec,
    epoch df rewards_cls initial_cap leverage fee_swap ov init st row
    = Ok (st', rec)
    /\ quiet_state st'
    /\ trade_event rec = false.
Proof.
  intros (p0 & p1 & rp & fg & R0 & Hp0 & R1 & Hp1 & R2 & Hrp & R3 & R4 & R5).
  intros ((self & Hst & HL & Ham & Hfs) & Hd0 & Hd1 & Hs0 & Hs1) Hsees Hdate.
  destruct st as [strat s0 s1 d0 d1 cash fees rew].
  cbn [strategy_cls last_token0_debt last_token1_debt last_token0_supply
       last_token1_supply] in *. subst strat d0 d1.
  pose proof (iloss_amt_balanced s0 s1 p0 p1 Hs0 Hs1 Hp0 Hp1) as Hbal.
  unfold epoch.
  rewrite R0, R1, R2, R3, R4, R5; cbn [bind].
  cbn [last_token0_supply last_token1_supply last_token0_debt
       last_token1_debt cash_accum fees_accum rewards_accum strategy_cls].
  unfold Util.iloss_amt.
  set (x := sqrt (s0 * s1 * (p1 / p0))) in *.
  set (y := sqrt (s0 * s1 / (p1 / p0))) in *.
  assert (Hx : 0 <= x) by apply sqrt_pos.
  assert (Hy : y = p0 * x / p1).
  { apply Rmult_eq_reg_l with p1; [|lra]. rewrite <- Hbal. field. lra. }
  clearbody x y. subst y. clear Hbal.
  assert (Hy : 0 <= p0 * x / p1).
  { apply Rmult_le_pos; [nra|]. left. now apply Rinv_0_lt_compat. }
  cbn zeta beta iota.
  rewrite Hb0, Hb1; cbn [daily_rate bind].
  replace ((p0 * x + p1 * (p0 * x / p1)) * 0 / (36525 / 100) / rp) with 0
    by (field; lra).
  destruct (rewards_execute_nothing rewards_cls a rp p0 p1 fee_swap fg Hsell)
    as (r & t0 & t1 & c & f & Hexec & -> & -> & -> & -> & ->); try lra.
  rewrite Hexec; cbn [bind Rewards.subscriptable fst snd].
  cbn [Trading.execute].
  destruct (Rgt_dec (Trading.price_delta_of p1 (Trading._price_anchor self))
              (Trading._threshold self)) as [Hgt|Hle].
  - rewrite (rebalance_execute_trigger self _ row p0 p1 Hsees R0 R1)
      by exact Hgt.
    rewrite HL, Ham, Hfs, add_liquidity_1.
    cbn [bind Core.remove_liquidity fst snd].
    rewrite 2 (proj2 (pair2_eqb_eq _ _));
      [|f_equal; ring|f_equal; field; lra].
    rewrite per_year_ok by lia. cbn [bind negb orb].
    do 2 eexists. split; [reflexivity|]. split; [|reflexivity].
    unfold quiet_state;
      cbn [strategy_cls last_token0_debt last_token1_debt
           last_token0_supply last_token1_supply].
    split.
    { eexists. split; [reflexivity|]. now repeat split. }
    split; [reflexivity|]. split; [reflexivity|]. split.
    + match goal with
      | |- 0 <= ?e => replace e with x by (field; lra)
      end.
      exact Hx.
    + match goal with
      | |- 0 <= ?e => replace e with (p0 * x / p1) by (field; lra)
      end.
      exact Hy.
  - rewrite (rebalance_execute_hold self _ row p0 p1 Hsees R0 R1)
      by exact Hle.
    cbn [bind]. rewrite !pair2_eqb_refl.
    rewrite per_year_ok by lia. cbn [bind negb orb].
    do 2 eexists. split; [reflexivity|]. split; [|reflexivity].
    unfold quiet_state;
      cbn [strategy_cls last_token0_debt last_token1_debt
           last_token0_supply last_token1_supply].
    split.
    { eexists. split; [reflexivity|]. now repeat split. }
    split; [ring|]. split; [ring|]. split.
    + match goal with
      | |- 0 <= ?e => replace e with x by (field; lra)
      end.
      exact Hx.
    + match goal with
      | |- 0 <= ?e => replace e with (p0 * x / p1) by (field; lra)
      end.
      exact Hy.
Qed.

End QuietRebalance.

Section QuietRun.

Import Frame Simulation.

Variables (rewards_cls : Rewards.RewardsStrategy).
Variables (initial_cap fee_swap fee_gas : R) (ov : Overrides).
Variables (a b0 b1 : R).
Hypothesis Hb0 : apy_borrow_token0 ov = Some b0.
Hypothesis Hb1 : apy_borrow_token1 ov = Some b1.
Hypothesis Hsell : Rewards._rewards_sell_amount rewards_cls = Rewards.VFloat a.

Lemma quiet_table_rows (df : DataFrame) :
  quiet_table df ov -> Forall quiet_row (iterrows (prepare df ov fee_gas)).
Proof.
  intros (Hc0 & Hc1 & Hrows). rewrite iterrows_prepare.
  apply Forall_map. eapply Forall_impl; [|exact Hrows].
  intros [d cells]; cbn [fst snd].
  intros (H0 & H1 & Hrp & Htf & Har).
  destruct (getitem_prepared_reward_token_price df ov fee_gas d cells _ Hrp)
    as (rp & Erp & Hrp').
  destruct (getitem_prepared_apy_trading_fee df ov fee_gas d cells _ Htf)
    as (tf & Etf & ->).
  destruct (getitem_prepared_apy_reward df ov fee_gas d cells _ Har)
    as (ar & Ear & ->).
  exists (cells "token0_price"%string), (cells "token1_price"%string), rp,
    fee_gas.
  rewrite !getitem_prepared_present by assumption.
  rewrite prepared_token0_price, prepared_token1_price.
  rewrite getitem_prepared_fee_gas.
  repeat split; assumption.
Qed.

Lemma loop_quiet (df : DataFrame) (leverage : R) (init : Initial)
    (todo : list Series) :
  Forall quiet_row todo ->
  Forall (sees_current_row df) todo ->
  Forall (fun row => (first_date init <= name row)%Z) todo ->
  forall st : LoopState,
    quiet_state st ->
    exists recs,
      loop df rewards_cls initial_cap leverage fee_swap ov init st todo
      = Ok recs
      /\ List.length recs = List.length todo
      /\ Forall (fun rec => trade_event rec = false) recs.
Proof.
  intros Hrows Hsees Hdates.
  induction todo as [|row todo IH]; intros st Hst.
  - exists []. repeat split. constructor.
  - inversion Hrows as [|? ? Hrow Hrows']; subst.
    inversion Hsees as [|? ? Hsee Hsees']; subst.
    inversion Hdates as [|? ? Hdate Hdates']; subst.
    destruct (epoch_quiet df rewards_cls initial_cap leverage fee_swap ov
                a b0 b1 Hb0 Hb1 Hsell init st row Hrow Hst Hsee Hdate)
      as (st' & rec & Hepoch & Hst' & Hrec).
    destruct (IH Hrows' Hsees' Hdates' st' Hst')
      as (recs & Hloop & Hlen & Hall).
    exists (rec :: recs). cbn [loop]. rewrite Hepoch; cbn [bind].
    rewrite Hloop; cbn [bind]. split; [reflexivity|].
    split; [cbn [List.length]; now rewrite Hlen|].
    now constructor.
Qed.

(** An unlevered run under an unlevered, fee-free, full-close rebalancer
    returns, and in exact arithmetic none of its records has
    [trade_event] set, whatever the prices do: the position bought back
    is the position sold.  (In floating point that holds where the
    repricing is exact, as for a price going from 1 to 4.) *)
Lemma simulate_quiet (df : DataFrame) (self : Trading.RebalanceStrategy) :
  quiet_table df ov -> dates_increasing df -> rows df <> [] ->
  0 <= initial_cap * (1 - fee_swap) ->
  unlevered_full_close self ->
  exists recs,
    simulate df (Trading.Rebalancing self) rewards_cls initial_cap 1 fee_gas
      fee_swap ov true = Ok recs
    /\ List.length recs = List.length (rows df)
    /\ Forall (fun rec => trade_event rec = false) recs.
Proof.
  intros Hquiet Hdates Hne Hc Hself.
  destruct (rows df) as [|dr rest] eqn:Hrows; [contradiction|].
  pose proof (quiet_table_rows df Hquiet) as Hqrows.
  pose proof (dates_from_first df ov fee_gas dr rest Hdates Hrows) as Hfrom.
  assert (Hsees : Forall (sees_current_row (prepare df ov fee_gas))
                    (iterrows (prepare df ov fee_gas))).
  { apply sorted_sees_current_rows. rewrite rows_prepare, map_map.
    exact Hdates. }
  destruct Hquiet as (Hc0 & Hc1 & Hall).
  rewrite Hrows in Hall. apply Forall_inv in Hall.
  destruct Hall as (H0 & H1 & _).
  set (p0 := snd dr "token0_price"%string) in *.
  set (p1 := snd dr "token1_price"%string) in *.
  set (c := initial_cap * (1 - fee_swap)) in *.
  destruct (loop_quiet (prepare df ov fee_gas) 1
              (mkInitial (p1 / p0) (c / 2 / p0) (c / 2 / p1) (fst dr))
              (iterrows (prepare df ov fee_gas)) Hqrows Hsees Hfrom
              (mkLoopState (Trading.Rebalancing self) (c / 2 / p0)
                 (c / 2 / p1) 0 0 0 fee_gas 0))
    as (recs & Hloop & Hlen & Hrecs).
  { unfold quiet_state;
      cbn [strategy_cls last_token0_debt last_token1_debt
           last_token0_supply last_token1_supply].
    split; [eauto|].
    assert (0 < / p0) by now apply Rinv_0_lt_compat.
    assert (0 < / p1) by now apply Rinv_0_lt_compat.
    repeat split; try reflexivity;
      (apply Rmult_le_pos; [lra|lra]). }
  exists recs. split.
  - unfold simulate, simulate_init.
    rewrite (column_first_prepare df ov fee_gas _ dr rest Hc0 Hrows).
    rewrite (column_first_prepare df ov fee_gas _ dr rest Hc1 Hrows).
    cbn [bind].
    rewrite prepared_token0_price, prepared_token1_price.
    rewrite add_liquidity_1; cbn [bind].
    rewrite (iloc_first_prepare df ov fee_gas dr rest Hrows).
    cbn [bind name]. exact Hloop.
  - split; [|exact Hrecs].
    rewrite Hlen, iterrows_prepare, length_map, Hrows. reflexivity.
Qed.

End QuietRun.

(** ** A passive run over a table without trading-fee and reward APY *)

Section PassiveQuietRun.

Import Frame Simulation.

Variables (df : DataFrame) (rewards_cls : Rewards.RewardsStrategy).
Variables (initial_cap leverage fee_swap : R) (ov : Overrides).
Variables (a b0 b1 : R).
Hypothesis Hb0 : apy_borrow_token0 ov = Some b0.
Hypothesis Hb1 : apy_borrow_token1 ov = Some b1.
Hypothesis Hsell : Rewards._rewards_sell_amount rewards_cls = Rewards.VFloat a.

(** One epoch of the passive strategy on such a row: the pool is
    repriced, the debt compounds, and the two ratios are numpy
    divisions of the values the record holds. *)
Lemma epoch_hodl_quiet (init : Initial) (st : LoopState) (row : Series) :
  quiet_row row -> strategy_cls st = Trading.HODLStrategy ->
  (first_date init <= name row)%Z ->
  let p0 := cells row "token0_price"%string in
  let p1 := cells row "token1_price"%string in
  let x := sqrt (last_token0_supply st * last_token1_supply st * (p1 / p0)) in
  let y := sqrt (last_token0_supply st * last_token1_supply st / (p1 / p0)) in
  let d0 := last_token0_debt st * exp (b0 * 1 / (36525 / 100)) in
  let d1 := last_token1_debt st * exp (b1 * 1 / (36525 / 100)) in
  exists st' rec,
    epoch df rewards_cls initial_cap leverage fee_swap ov init st row
    = Ok (st', rec)
    /\ strategy_cls st' = Trading.HODLStrategy
    /\ last_token0_supply st' = x /\ last_token1_supply st' = y
    /\ last_token0_debt st' = d0 /\ last_token1_debt st' = d1
    /\ token0_supply_close rec = x /\ token1_supply_close rec = y
    /\ token0_debt_close rec = d0 /\ token1_debt_close rec = d1
    /\ pool_value rec = p0 * x + p1 * y
    /\ debt_value rec = d0 * p0 + d1 * p1
    /\ pool_equity rec = pool_value rec - debt_value rec
    /\ debt_ratio rec
       = np_divide (debt_value rec) (debt_value rec + pool_equity rec)
    /\ effective_leverage rec
       = np_divide (pool_value rec) (pool_equity rec)
    /\ trade_event rec = false.
Proof.
  intros (q0 & q1 & rp & fg & R0 & Hp0 & R1 & Hp1 & R2 & Hrp & R3 & R4 & R5).
  intros Hst Hdate p0 p1.
  pose proof (getitem_ok _ _ _ R0) as [_ E0].
  pose proof (getitem_ok _ _ _ R1) as [_ E1].
  subst p0 p1. rewrite <- E0, <- E1. clear E0 E1.
  destruct st as [strat s0 s1 d0 d1 cash fees rew].
  cbn [strategy_cls last_token0_debt last_token1_debt last_token0_supply
       last_token1_supply] in *. subst strat.
  cbn zeta. unfold epoch.
  rewrite R0, R1, R2, R3, R4, R5; cbn [bind].
  cbn [last_token0_supply last_token1_supply last_token0_debt
       last_token1_debt cash_accum fees_accum rewards_accum strategy_cls].
  unfold Util.iloss_amt.
  set (x := sqrt (s0 * s1 * (q1 / q0))).
  set (y := sqrt (s0 * s1 / (q1 / q0))).
  cbn zeta beta iota.
  rewrite Hb0, Hb1; cbn [daily_rate bind].
  replace ((q0 * x + q1 * y) * 0 / (36525 / 100) / rp) with 0
    by (field; lra).
  destruct (rewards_execute_nothing rewards_cls a rp q0 q1 fee_swap fg Hsell)
    as (r & t0 & t1 & c & f & Hexec & -> & -> & -> & -> & ->); try lra.
  rewrite Hexec; cbn [bind Rewards.subscriptable fst snd].
  cbn [Trading.execute Trading.HODLStrategy_execute bind].
  rewrite !pair2_eqb_refl.
  rewrite per_year_ok by lia. cbn [bind negb orb].
  do 2 eexists. split; [reflexivity|].
  cbn [strategy_cls last_token0_debt last_token1_debt last_token0_supply
       last_token1_supply token0_supply_close token1_supply_close
       token0_debt_close token1_debt_close pool_value debt_value
       pool_equity debt_ratio effective_leverage trade_event].
  assert (Ex : x + x * (0 / (36525 / 100)) + 0 = x) by (field; lra).
  assert (Ey : y + y * (0 / (36525 / 100)) + 0 = y) by (field; lra).
  rewrite Ex, Ey. repeat split.
Qed.

Lemma loop_hodl_quiet (init : Initial) (todo : list Series) :
  Forall quiet_row todo ->
  Forall (fun row => (first_date init <= name row)%Z) todo ->
  forall st : LoopState,
    strategy_cls st = Trading.HODLStrategy ->
    exists recs,
      loop df rewards_cls initial_cap leverage fee_swap ov init st todo
      = Ok recs
      /\ List.length recs = List.length todo.
Proof.
  intros Hrows Hdates.
  induction todo as [|row todo IH]; intros st Hst.
  - exists []. now split.
  - inversion Hrows as [|? ? Hrow Hrows']; subst.
    inversion Hdates as [|? ? Hdate Hdates']; subst.
    destruct (epoch_hodl_quiet init st row Hrow Hst Hdate)
      as (st' & rec & Hepoch & Hst' & _).
    destruct (IH Hrows' Hdates' st' Hst') as (recs & Hloop & Hlen).
    exists (rec :: recs). cbn [loop]. rewrite Hepoch; cbn [bind].
    rewrite Hloop; cbn [bind]. split; [reflexivity|].
    cbn [List.length]. now rewrite Hlen.
Qed.

End PassiveQuietRun.

(** A passive run at a supported leverage over such a table returns one
    record per row, whatever the prices and the borrow APYs are. *)
Lemma simulate_hodl_quiet (df : Frame.DataFrame)
    (rewards_cls : Rewards.RewardsStrategy)
    (initial_cap leverage fee_gas fee_swap : R) (ov : Simulation.Overrides)
    (a b0 b1 : R) :
  Simulation.apy_borrow_token0 ov = Some b0 ->
  Simulation.apy_borrow_token1 ov = Some b1 ->
  Rewards._rewards_sell_amount rewards_cls = Rewards.VFloat a ->
  quiet_table df ov -> dates_increasing df -> Frame.rows df <> [] ->
  leverage = 1 \/ 2 <= leverage ->
  exists recs,
    Simulation.simulate df Trading.HODLStrategy rewards_cls initial_cap
      leverage fee_gas fee_swap ov true = Ok recs
    /\ List.length recs = List.length (Frame.rows df).
Proof.
  intros Hb0 Hb1 Hsell Hquiet Hdates Hne HL.
  destruct (Frame.rows df) as [|dr rest] eqn:Hrows; [contradiction|].
  pose proof (quiet_table_rows fee_gas ov df Hquiet) as Hqrows.
  pose proof (dates_from_first df ov fee_gas dr rest Hdates Hrows) as Hfrom.
  destruct Hquiet as (Hc0 & Hc1 & Hall).
  rewrite Hrows in Hall. apply Forall_inv in Hall.
  destruct Hall as (H0 & H1 & _).
  assert (Hopen : exists s0 s1 d0 d1 fo,
    Core.add_liquidity initial_cap leverage
      (snd dr "token0_price"%string, snd dr "token1_price"%string)
      fee_swap fee_gas
    = Ok ((s0, s1), (d0, d1), fo)).
  { destruct (Req_dec_T leverage 1) as [->|Hne1];
      [rewrite add_liquidity_1; eauto 6|].
    destruct (Req_dec_T leverage 2) as [->|Hne2];
      [rewrite add_liquidity_2; eauto 6|].
    rewrite add_liquidity_gt2 by lra. eauto 6. }
  destruct Hopen as (s0 & s1 & d0 & d1 & fo & Hopen).
  destruct (loop_hodl_quiet (Simulation.prepare df ov fee_gas) rewards_cls
              initial_cap leverage fee_swap ov a b0 b1 Hb0 Hb1 Hsell
              (Simulation.mkInitial
                 (snd dr "token1_price"%string / snd dr "token0_price"%string)
                 s0 s1 (fst dr))
              (Frame.iterrows (Simulation.prepare df ov fee_gas)) Hqrows Hfrom
              (Simulation.mkLoopState Trading.HODLStrategy s0 s1 d0 d1 0
                 fo 0) eq_refl)
    as (recs & Hloop & Hlen).
  exists recs. split.
  - unfold Simulation.simulate, Simulation.simulate_init.
    rewrite (column_first_prepare df ov fee_gas _ dr rest Hc0 Hrows).
    rewrite (column_first_prepare df ov fee_gas _ dr rest Hc1 Hrows).
    cbn [bind].
    rewrite prepared_token0_price, prepared_token1_price.
    rewrite Hopen; cbn [bind].
    rewrite (iloc_first_prepare df ov fee_gas dr rest Hrows).
    cbn [bind Frame.name]. exact Hloop.
  - rewrite Hlen, iterrows_prepare, length_map, Hrows. reflexivity.
Qed.

Lemma jump_three_days_is_quiet :
  quiet_table Scenarios.jump_three_days Scenarios.zero_borrow
  /\ dates_increasing Scenarios.jump_three_days
  /\ unlevered_full_close Scenarios.unlevered_rebalancer.
Proof.
  split; [|split].
  - split; [reflexivity|]. split; [reflexivity|].
    repeat constructor; cbn; lra.
  - repeat constructor.
  - repeat split.
Qed.

Lemma jump_three_days_deviations :
  deviations (1 / 10) 1 [1; 4; 4]
  = [Rabs (1 - 1) / 1; Rabs (4 - 1) / 1; Rabs (4 - 4) / 4]
  /\ ~ Rabs (1 - 1) / 1 > 1 / 10
  /\ Rabs (4 - 1) / 1 > 1 / 10.
Proof.
  assert (H0 : ~ Rabs (1 - 1) / 1 > 1 / 10).
  { replace (1 - 1) with 0 by lra. rewrite Rabs_R0. lra. }
  assert (H1 : Rabs (4 - 1) / 1 > 1 / 10).
  { rewrite Rabs_pos_eq by lra. lra. }
  split; [|now split].
  cbn [deviations].
  rewrite (if_Rgt_false _ _ _ _ H0), (if_Rgt_true _ _ _ _ H1).
  reflexivity.
Qed.

(** C6 at a three-day table: token1 jumps from 1 to 4 on the second day,
    the deviation 3 exceeds the threshold 0.1 there for the first time
    and the strategy, which closes everything and reopens unlevered
    without swap fee, rebalances (the third day is measured against the
    new anchor 4); yet [trade_event] is false on the second record, as on
    the others, where the claim has it true: the position bought back is
    the position sold, and the driver takes an equal position for no
    trade. *)
Theorem rebalance_without_trade_event :
  exists r0 r1 r2,
    Simulation.simulate Scenarios.jump_three_days
      (Trading.Rebalancing Scenarios.unlevered_rebalancer) Scenarios.sell_all
      100 1 0 0 Scenarios.zero_borrow true = Ok [r0; r1; r2]
    /\ Simulation.strategy_metadata r0 = price_delta_entry (Rabs (1 - 1) / 1)
    /\ Simulation.strategy_metadata r1 = price_delta_entry (Rabs (4 - 1) / 1)
    /\ Simulation.strategy_metadata r2 = price_delta_entry (Rabs (4 - 4) / 4)
    /\ ~ Rabs (1 - 1) / 1 > 1 / 10
    /\ Rabs (4 - 1) / 1 > 1 / 10
    /\ Simulation.trade_event r1 = false
    /\ Simulation.trade_event r0 = false
    /\ Simulation.trade_event r2 = false.
Proof.
  destruct jump_three_days_is_quiet as (Hquiet & Hdates & Hself).
  destruct (simulate_quiet Scenarios.sell_all 100 0 0 Scenarios.zero_borrow
              1 0 0 eq_refl eq_refl eq_refl Scenarios.jump_three_days
              Scenarios.unlevered_rebalancer Hquiet Hdates)
    as (recs & Hsim & Hlen & Hquietrecs); try assumption; try lra.
  { discriminate. }
  destruct recs as [|r0 [|r1 [|r2 [|r3 recs]]]]; try discriminate Hlen.
  exists r0, r1, r2. split; [exact Hsim|].
  destruct (simulate_rebalancing_records _ _ _ _ _ _ _ _ _ _ Hdates Hsim)
    as [Hmeta _].
  change (map (fun dr : Z * (string -> R) => snd dr "token1_price"%string)
            (Frame.rows Scenarios.jump_three_days))
    with [1; 4; 4] in Hmeta.
  change (Trading._threshold Scenarios.unlevered_rebalancer)
    with (1 / 10) in Hmeta.
  change (Trading._price_anchor Scenarios.unlevered_rebalancer)
    with 1 in Hmeta.
  destruct jump_three_days_deviations as (Hdev & H0 & H1).
  rewrite Hdev in Hmeta. cbn [map] in Hmeta.
  injection Hmeta as M0 M1 M2.
  repeat (split; [assumption|]).
  inversion Hquietrecs as [|? ? T0 Hrest]; subst.
  inversion Hrest as [|? ? T1 Hrest']; subst.
  inversion Hrest' as [|? ? T2 _]; subst.
  now repeat split.
Qed.

(** ** An epoch that ends with no pool equity *)

Section ZeroPoolEquity.

Import Frame Simulation.

Lemma jump_two_days_is_quiet :
  quiet_table Scenarios.jump_two_days Scenarios.zero_borrow
  /\ dates_increasing Scenarios.jump_two_days.
Proof.
  split.
  - split; [reflexivity|]. split; [reflexivity|].
    repeat constructor; cbn; lra.
  - repeat constructor.
Qed.

Lemma exp_no_interest : exp (0 * 1 / (36525 / 100)) = 1.
Proof. replace (0 * 1 / (36525 / 100)) with 0 by (field; lra). apply exp_0. Qed.

End ZeroPoolEquity.

(** C7, as stated: a passive 2X position opened for 100 at prices 1 and 1
    holds 200 and 50 tokens worth 400 after token1 has gone to 4, against
    a debt of 100 token1 worth 400: the pool equity is exactly zero.
    The run returns both records, and [effective_leverage] holds
    infinity, but [debt_ratio] divides by the pool value, not by zero,
    and holds the number 1, not a sentinel. *)
Lemma zero_pool_equity_debt_ratio_is_a_number :
  exists r0 r1,
    Simulation.simulate Scenarios.jump_two_days Trading.HODLStrategy
      Scenarios.sell_all 100 2 0 0 Scenarios.zero_borrow true = Ok [r0; r1]
    /\ Simulation.pool_value r1 = 400
    /\ Simulation.debt_value r1 = 400
    /\ Simulation.pool_equity r1 = 0
    /\ Simulation.effective_leverage r1 = PosInf
    /\ Simulation.debt_ratio r1 = Finite 1
    /\ Simulation.debt_ratio r1 <> PosInf
    /\ Simulation.debt_ratio r1 <> NegInf
    /\ Simulation.debt_ratio r1 <> NaN.
Proof.
  destruct jump_two_days_is_quiet as [Hquiet Hdates].
  pose proof (quiet_table_rows 0 Scenarios.zero_borrow _ Hquiet) as Hrows.
  rewrite iterrows_prepare in Hrows.
  cbn [Frame.rows Scenarios.jump_two_days Scenarios.frame_of map fst snd]
    in Hrows.
  inversion Hrows as [|row0 ? Hrow0 Hrows']; subst.
  inversion Hrows' as [|row1 ? Hrow1 _]; subst.
  clear Hrows Hrows'.
  unfold Simulation.simulate, Simulation.simulate_init.
  rewrite 2 (column_first_prepare Scenarios.jump_two_days _ _ _
               (0%Z, Scenarios.cell Scenarios.all_columns
                       [1; 1; 1; 0; 0; 0; 0])
               [(1%Z, Scenarios.cell Scenarios.all_columns
                        [1; 4; 1; 0; 0; 0; 0])])
    by reflexivity.
  cbn [bind].
  rewrite prepared_token0_price, prepared_token1_price.
  cbn [snd Scenarios.cell Scenarios.all_columns String.eqb Ascii.eqb
       Bool.eqb].
  rewrite add_liquidity_2; cbn [bind].
  rewrite (iloc_first_prepare Scenarios.jump_two_days _ _
             (0%Z, Scenarios.cell Scenarios.all_columns
                     [1; 1; 1; 0; 0; 0; 0])
             [(1%Z, Scenarios.cell Scenarios.all_columns
                      [1; 4; 1; 0; 0; 0; 0])])
    by reflexivity.
  cbn [bind Frame.name fst].
  rewrite iterrows_prepare.
  cbn [Frame.rows Scenarios.jump_two_days Scenarios.frame_of map fst snd
       Simulation.loop].
  match goal with
  | |- context [Simulation.epoch ?df ?rw ?cap ?lev ?fs ?ov ?init ?st ?row] =>
      destruct (epoch_hodl_quiet df rw cap lev fs ov 1 0 0 eq_refl eq_refl
                  eq_refl init st row Hrow0 eq_refl)
        as (st1 & r0 & He0 & Hst1 & Hs0 & Hs1 & Hd0 & Hd1 & _);
        [cbn; lia|]
  end.
  rewrite He0; cbn [bind].
  cbn [Simulation.last_token0_supply Simulation.last_token1_supply
       Simulation.last_token0_debt Simulation.last_token1_debt
       Frame.cells] in Hs0, Hs1, Hd0, Hd1.
  rewrite prepared_token0_price, prepared_token1_price in Hs0, Hs1.
  cbn [snd Scenarios.cell Scenarios.all_columns String.eqb Ascii.eqb
       Bool.eqb] in Hs0, Hs1.
  rewrite exp_no_interest in Hd0, Hd1.
  match goal with
  | |- context [Simulation.epoch ?df ?rw ?cap ?lev ?fs ?ov ?init st1 ?row] =>
      destruct (epoch_hodl_quiet df rw cap lev fs ov 1 0 0 eq_refl eq_refl
                  eq_refl init st1 row Hrow1 Hst1)
        as (st2 & r1 & He1 & _ & _ & _ & _ & _ & Hc0 & Hc1 & He0' & He1'
            & Hpv & Hdv & Hpe & Hdr & Hel & _);
        [cbn; lia|]
  end.
  rewrite He1; cbn [bind].
  exists r0, r1. split; [reflexivity|].
  cbn [Frame.cells] in Hpv, Hdv.
  rewrite prepared_token0_price, prepared_token1_price in Hpv, Hdv.
  cbn [snd Scenarios.cell Scenarios.all_columns String.eqb Ascii.eqb
       Bool.eqb] in Hpv, Hdv.
  rewrite Hs0, Hs1 in Hpv. rewrite Hd0, Hd1, exp_no_interest in Hdv.
  assert (Ha : sqrt (100 * (1 - 0) / 1 * (100 * (1 - 0) / 1) * (1 / 1)) = 100)
    by (apply sqrt_of_square; lra).
  assert (Hb : sqrt (100 * (1 - 0) / 1 * (100 * (1 - 0) / 1) / (1 / 1)) = 100)
    by (apply sqrt_of_square; lra).
  rewrite Ha, Hb in Hpv.
  assert (Hx : sqrt (100 * 100 * (4 / 1)) = 200)
    by (apply sqrt_of_square; lra).
  assert (Hy : sqrt (100 * 100 / (4 / 1)) = 50)
    by (apply sqrt_of_square; lra).
  rewrite Hx, Hy in Hpv.
  assert (Hpv' : Simulation.pool_value r1 = 400) by lra.
  assert (Hdv' : Simulation.debt_value r1 = 400) by lra.
  assert (Hpe' : Simulation.pool_equity r1 = 0) by lra.
  rewrite Hpe', Hpv' in Hel. rewrite Hpe', Hdv' in Hdr.
  rewrite np_divide_zero in Hel.
  destruct (Rlt_dec 0 400) as [_|Hn]; [|exfalso; lra].
  rewrite np_divide_finite in Hdr by lra.
  replace (400 / (400 + 0)) with 1 in Hdr by (field; lra).
  repeat split; try assumption; rewrite Hdr; discriminate.
Qed.

(** C7, amended: an epoch whose reads and strategy calls return, on a
    day other than the one before the first, returns its record also
    when the position it closes on has no pool equity.  In that record
    [effective_leverage], the pool value over zero, is the sentinel of
    the pool value's sign: infinity, minus infinity, or not-a-number for
    no pool value; [debt_ratio] has the pool value as divisor, so it is
    the number 1 unless there is no pool value either, where it is
    not-a-number; and the other books hold what they hold in any epoch. *)
Theorem zero_pool_equity_leaves_a_sentinel
    (df : Frame.DataFrame) (rewards_cls : Rewards.RewardsStrategy)
    (initial_cap leverage fee_swap : R) (ov : Simulation.Overrides)
    (init : Simulation.Initial) (st : Simulation.LoopState)
    (row : Frame.Series)
    (p0 p1 rp tf ar fg b0 b1 : R)
    (remaining cash fees_rewards cash_out fees_trade : R)
    (pool supply_out debt_out : pair2)
    (strat' : Trading.TradingStrategy) (meta : Trading.metadata)
    (R0 : Frame.getitem row "token0_price" = Ok p0)
    (R1 : Frame.getitem row "token1_price" = Ok p1)
    (R2 : Frame.getitem row "reward_token_price" = Ok rp)
    (R3 : Frame.getitem row "apy_trading_fee" = Ok tf)
    (R4 : Frame.getitem row "apy_reward" = Ok ar)
    (R5 : Frame.getitem row "fee_gas" = Ok fg)
    (Hp0 : 0 < p0) (Hp1 : 0 < p1) (Hrp : rp <> 0)
    (Hk : 0 <= Simulation.last_token0_supply st
               * Simulation.last_token1_supply st)
    (Hratio : 0 < Simulation.ratio_initial init)
    (Hcap : initial_cap <> 0) (HL : leverage <> 0)
    (Hb0 : Simulation.apy_borrow_token0 ov = Some b0)
    (Hb1 : Simulation.apy_borrow_token1 ov = Some b1)
    (Hdays : (Frame.name row - Simulation.first_date init + 1 <> 0)%Z) :
  let k := Simulation.last_token0_supply st
           * Simulation.last_token1_supply st in
  let x := sqrt (k * (p1 / p0)) in
  let y := sqrt (k / (p1 / p0)) in
  let supply_in :=
    (x + x * (tf / (36525 / 100)) + fst pool,
     y + y * (tf / (36525 / 100)) + snd pool) in
  let debt_in :=
    (Simulation.last_token0_debt st * exp (b0 * 1 / (36525 / 100)),
     Simulation.last_token1_debt st * exp (b1 * 1 / (36525 / 100))) in
  Rewards.execute rewards_cls
    ((p0 * x + p1 * y) * ar / (36525 / 100) / rp) rp (Some (0, 0))
    (Some (p0, p1)) fee_swap fg
  = Ok (remaining, Some pool, cash, fees_rewards) ->
  Trading.execute (Simulation.strategy_cls st) supply_in debt_in
    (Frame.up_to df (Frame.name row)) (Simulation.cash_accum st + cash)
  = Ok (strat', (supply_out, debt_out, cash_out, fees_trade, meta)) ->
  p0 * fst supply_out + p1 * snd supply_out
  = fst debt_out * p0 + snd debt_out * p1 ->
  exists st' rec,
    Simulation.epoch df rewards_cls initial_cap leverage fee_swap ov init st
      row = Ok (st', rec)
    /\ Simulation.pool_value rec = p0 * fst supply_out + p1 * snd supply_out
    /\ Simulation.debt_value rec = Simulation.pool_value rec
    /\ Simulation.pool_equity rec = 0
    /\ Simulation.effective_leverage rec
       = (if Rlt_dec 0 (Simulation.pool_value rec) then PosInf
          else if Rlt_dec (Simulation.pool_value rec) 0 then NegInf
          else NaN)
    /\ Simulation.debt_ratio rec
       = (if Req_dec_T (Simulation.pool_value rec) 0 then NaN else Finite 1)
    /\ (Simulation.token0_supply_close rec, Simulation.token1_supply_close rec)
       = supply_out
    /\ (Simulation.token0_debt_close rec, Simulation.token1_debt_close rec)
       = debt_out
    /\ Simulation.cash_value rec = cash_out
    /\ Simulation.fees_value rec
       = Simulation.fees_accum st + fees_rewards + fees_trade
    /\ Simulation.rewards_value rec
       = (Simulation.rewards_accum st + remaining) * rp
    /\ Simulation.position_value rec
       = Simulation.pool_value rec + Simulation.rewards_value rec
         + Simulation.cash_value rec - Simulation.fees_value rec
    /\ Simulation.equity_value rec
       = Simulation.rewards_value rec + Simulation.cash_value rec
         - Simulation.fees_value rec
    /\ Simulation.profit_value rec = Simulation.equity_value rec - initial_cap
    /\ Simulation.roi rec = Simulation.profit_value rec / initial_cap
    /\ Simulation.strategy_metadata rec = meta
    /\ Simulation.strategy_cls st' = strat'.
Proof.
  intros k x y supply_in debt_in Hrewards Htrade Hzero.
  unfold Simulation.epoch.
  rewrite R0, R1, R2, R3, R4, R5; cbn [bind].
  unfold Util.iloss_amt. fold k. fold x. fold y. cbn zeta beta iota.
  rewrite Hb0, Hb1; cbn [Simulation.daily_rate bind].
  rewrite Hrewards; cbn [bind Rewards.subscriptable].
  fold supply_in. fold debt_in. rewrite Htrade; cbn [bind].
  destruct supply_out as [s0' s1'], debt_out as [d0' d1'].
  cbn [fst snd] in Hzero.
  unfold Simulation.per_year.
  destruct (Z.eqb_spec (Frame.name row - Simulation.first_date init + 1) 0)
    as [E|_]; [contradiction|].
  cbn [bind]. do 2 eexists. split; [reflexivity|].
  cbn [Simulation.pool_value Simulation.debt_value Simulation.pool_equity
       Simulation.effective_leverage Simulation.debt_ratio
       Simulation.token0_supply_close Simulation.token1_supply_close
       Simulation.token0_debt_close Simulation.token1_debt_close
       Simulation.cash_value Simulation.fees_value Simulation.rewards_value
       Simulation.position_value Simulation.equity_value
       Simulation.profit_value Simulation.roi Simulation.strategy_metadata
       Simulation.strategy_cls fst snd].
  set (pv := p0 * s0' + p1 * s1') in *.
  assert (Hpe : pv - (d0' * p0 + d1' * p1) = 0) by lra.
  rewrite Hpe, <- Hzero.
  split; [reflexivity|]. split; [reflexivity|]. split; [reflexivity|].
  split; [apply np_divide_zero|].
  split.
  { unfold np_divide. replace (pv + 0) with pv by ring.
    destruct (Req_dec_T pv 0) as [->|Hne].
    - destruct (Rlt_dec 0 0); [lra|reflexivity].
    - f_equal. field. exact Hne. }
  repeat split; ring.
Qed.

Lemma zero_pool_equity_leaves_a_sentinel_witness :
  exists st' rec,
    Simulation.epoch
      (Simulation.prepare Scenarios.jump_two_days Scenarios.zero_borrow 0)
      Scenarios.sell_all 100 2 0 Scenarios.zero_borrow
      (Simulation.mkInitial 1 100 100 0)
      (Simulation.mkLoopState Trading.HODLStrategy 100 100 0 100 0 0 0)
      (Frame.mkSeries 1
         (Frame.columns
            (Simulation.prepare Scenarios.jump_two_days Scenarios.zero_borrow
               0))
         (prepared_cells Scenarios.jump_two_days Scenarios.zero_borrow 0
            (Scenarios.cell Scenarios.all_columns [1; 4; 1; 0; 0; 0; 0])))
    = Ok (st', rec)
    /\ Simulation.pool_value rec = 400
    /\ Simulation.debt_value rec = 400
    /\ Simulation.pool_equity rec = 0
    /\ Simulation.effective_leverage rec = PosInf
    /\ Simulation.debt_ratio rec = Finite 1.
Proof.
  assert (Hx : sqrt (100 * 100 * (4 / 1)) = 200)
    by (apply sqrt_of_square; lra).
  assert (Hy : sqrt (100 * 100 / (4 / 1)) = 50)
    by (apply sqrt_of_square; lra).
  edestruct (zero_pool_equity_leaves_a_sentinel
               (Simulation.prepare Scenarios.jump_two_days
                  Scenarios.zero_borrow 0)
               Scenarios.sell_all 100 2 0 Scenarios.zero_borrow
               (Simulation.mkInitial 1 100 100 0)
               (Simulation.mkLoopState Trading.HODLStrategy 100 100 0 100 0
                  0 0)
               (Frame.mkSeries 1
                  (Frame.columns
                     (Simulation.prepare Scenarios.jump_two_days
                        Scenarios.zero_borrow 0))
                  (prepared_cells Scenarios.jump_two_days
                     Scenarios.zero_borrow 0
                     (Scenarios.cell Scenarios.all_columns
                        [1; 4; 1; 0; 0; 0; 0])))
               1 4 1 0 0 0 0 0)
    as (st' & rec & Hepoch & Hpv & Hdv & Hpe & Hel & Hdr & _).
  - reflexivity.
  - reflexivity.
  - reflexivity.
  - reflexivity.
  - reflexivity.
  - reflexivity.
  - lra.
  - lra.
  - lra.
  - cbn [Simulation.last_token0_supply Simulation.last_token1_supply]. lra.
  - cbn [Simulation.ratio_initial]. lra.
  - lra.
  - lra.
  - reflexivity.
  - reflexivity.
  - cbn [Simulation.first_date Frame.name]. lia.
  - cbn [Simulation.last_token0_supply Simulation.last_token1_supply].
    unfold Rewards.execute, Scenarios.sell_all,
      Rewards.SellRewardsStrategy_execute, Rewards.sell_rewards.
    cbn [Rewards.rewards_class_of Rewards._rewards_sell_amount
         Rewards.as_float bind].
    rewrite if_Rle_false by lra. reflexivity.
  - reflexivity.
  - cbn [Simulation.last_token0_supply Simulation.last_token1_supply
         Simulation.last_token0_debt Simulation.last_token1_debt fst snd].
    rewrite Hx, Hy, exp_no_interest. lra.
  - cbn [Simulation.last_token0_supply Simulation.last_token1_supply
         Simulation.last_token0_debt Simulation.last_token1_debt fst snd]
      in Hpv.
    rewrite Hx, Hy in Hpv.
    assert (Hpv' : Simulation.pool_value rec = 400) by lra.
    rewrite Hpv' in Hel, Hdr, Hdv.
    destruct (Rlt_dec 0 400) as [_|Hn]; [|exfalso; lra].
    destruct (Req_dec_T 400 0) as [E|_]; [exfalso; lra|].
    exists st', rec. repeat split; assumption.
Defined.

(** ** Repricing under a new price ratio *)

(** C1, as stated: a pool of 50 token0 and 500 token1 at prices 1 and 0.1
    is repriced at the same ratio to itself, [(50, 500)]; the claimed pair
    is [(500, 50)]. *)
Lemma iloss_amt_claimed_order_fails :
  Util.iloss_amt (50 * 500) (1 / 10) = (50, 500)
  /\ (sqrt (50 * 500 / (1 / 10)), sqrt (50 * 500 * (1 / 10))) = (500, 50)
  /\ Util.iloss_amt (50 * 500) (1 / 10)
     <> (sqrt (50 * 500 / (1 / 10)), sqrt (50 * 500 * (1 / 10))).
Proof.
  assert (Hmul : sqrt (50 * 500 * (1 / 10)) = 50)
    by (apply sqrt_of_square; lra).
  assert (Hdiv : sqrt (50 * 500 / (1 / 10)) = 500)
    by (apply sqrt_of_square; lra).
  unfold Util.iloss_amt. rewrite Hmul, Hdiv.
  split; [reflexivity|]. split; [reflexivity|].
  intros H. injection H as H _. lra.
Qed.

(** C1, amended: for [k > 0] and [r > 0] the repricing returns
    [(sqrt (k * r), sqrt (k / r))] in (token0, token1) order, a pair whose
    product is [k] and whose quotient token0 / token1 is [r]; every epoch
    opens on that pair for [k] the product of the previous closing
    supplies and [r = p1 / p0] of the epoch's row. *)
Theorem iloss_amt_order (k r : R) (Hk : 0 < k) (Hr : 0 < r) :
  Util.iloss_amt k r = (sqrt (k * r), sqrt (k / r))
  /\ fst (Util.iloss_amt k r) * snd (Util.iloss_amt k r) = k
  /\ fst (Util.iloss_amt k r) / snd (Util.iloss_amt k r) = r
  /\ (forall (df : Frame.DataFrame) (rewards_cls : Rewards.RewardsStrategy)
             (initial_cap leverage fee_swap : R) (ov : Simulation.Overrides)
             (init : Simulation.Initial) (st st' : Simulation.LoopState)
             (row : Frame.Series) (rec : Simulation.EpochRecord),
         Simulation.epoch df rewards_cls initial_cap leverage fee_swap ov
           init st row = Ok (st', rec) ->
         exists p0 p1,
           Frame.getitem row "token0_price" = Ok p0
           /\ Frame.getitem row "token1_price" = Ok p1
           /\ (Simulation.token0_supply_open rec,
               Simulation.token1_supply_open rec)
              = Util.iloss_amt
                  (Simulation.last_token0_supply st
                   * Simulation.last_token1_supply st)
                  (p1 / p0)).
Proof.
  unfold Util.iloss_amt; cbn [fst snd].
  assert (Hkr : 0 < k * r) by now apply Rmult_lt_0_compat.
  assert (Hk_r : 0 < k / r) by now apply Rdiv_lt_0_compat.
  split; [reflexivity|]. split; [|split].
  - rewrite <- sqrt_mult by lra.
    apply sqrt_of_square; [lra|]. field. lra.
  - rewrite <- sqrt_div by lra.
    apply sqrt_of_square; [lra|]. field. lra.
  - intros df rewards_cls initial_cap leverage fee_swap ov init st st' row rec
      Hepoch.
    apply epoch_ok_inv in Hepoch.
    destruct Hepoch as (p0 & p1 & sin & din & cin & sout & dout & cout & ft
                        & Hp0 & Hp1 & Ho0 & Ho1 & _).
    exists p0, p1. rewrite Ho0, Ho1. now repeat split.
Qed.

Lemma iloss_amt_order_witness :
  Util.iloss_amt 4 4 = (sqrt (4 * 4), sqrt (4 / 4))
  /\ fst (Util.iloss_amt 4 4) * snd (Util.iloss_amt 4 4) = 4
  /\ fst (Util.iloss_amt 4 4) / snd (Util.iloss_amt 4 4) = 4.
Proof.
  destruct (iloss_amt_order 4 4) as (H1 & H2 & H3 & _); try lra.
  now repeat split.
Defined.

(** * Further properties of the liquidity math *)

Section LiquidityMath.

Lemma pair_eq {A B : Type} (a a' : A) (b b' : B) :
  a = a' -> b = b' -> (a, b) = (a', b').
Proof. now intros -> ->. Qed.

Lemma tuple4_eq {A B C D : Type} (a a' : A) (b b' : B) (c c' : C)
    (d d' : D) :
  a = a' -> b = b' -> c = c' -> d = d' -> (a, b, c, d) = (a', b', c', d').
Proof. now intros -> -> -> ->. Qed.

Lemma borrow_fraction (L : R) :
  2 < L -> 1 / (L / (L - 2) + 1) = (L - 2) / (2 * L - 2).
Proof. intros HL. field. split; lra. Qed.

(** The value of what [add_liquidity] returns, whatever the sign of the
    capital. *)
Lemma add_liquidity_values (capital leverage p0 p1 fee_swap fee_gas : R) :
  0 < p0 -> 0 < p1 -> leverage = 1 \/ 2 <= leverage ->
  exists s0 s1 d0 d1,
    Core.add_liquidity capital leverage (p0, p1) fee_swap fee_gas
    = Ok ((s0, s1), (d0, d1), fee_gas * open_transactions leverage)
    /\ p0 * s0 = p1 * s1
    /\ p0 * s0 + p1 * s1 = leverage * (capital * (1 - fee_swap))
    /\ d0 * p0 + d1 * p1 = (leverage - 1) * (capital * (1 - fee_swap)).
Proof.
  intros Hp0 Hp1 HL. unfold open_transactions.
  destruct (Req_dec_T leverage 1) as [->|Hne1].
  { rewrite add_liquidity_1. do 4 eexists.
    split; [f_equal; f_equal; lra|]. repeat split; field; lra. }
  destruct (Req_dec_T leverage 2) as [->|Hne2].
  { rewrite add_liquidity_2. do 4 eexists.
    split; [f_equal; f_equal; lra|]. repeat split; field; lra. }
  assert (HL2 : 2 < leverage) by lra.
  rewrite add_liquidity_gt2 by exact HL2.
  rewrite (borrow_fraction leverage HL2).
  do 4 eexists. split; [f_equal; f_equal; lra|].
  split; [field; lra|]. split; [field; lra|]. field. repeat split; lra.
Qed.

(** X1: for a supported leverage and positive prices [add_liquidity]
    returns a position whose two sides hold the same value, whose pool
    value is leverage times the capital left after the swap fee, whose
    debt value is (leverage - 1) times that capital, and whose supplies
    and debts are not negative. *)
Theorem opened_position_has_requested_leverage
    (capital leverage p0 p1 fee_swap fee_gas : R)
    (Hp0 : 0 < p0) (Hp1 : 0 < p1)
    (HL : leverage = 1 \/ 2 <= leverage)
    (Hc : 0 <= capital * (1 - fee_swap)) :
  exists s0 s1 d0 d1,
    Core.add_liquidity capital leverage (p0, p1) fee_swap fee_gas
    = Ok ((s0, s1), (d0, d1), fee_gas * open_transactions leverage)
    /\ p0 * s0 = p1 * s1
    /\ p0 * s0 + p1 * s1 = leverage * (capital * (1 - fee_swap))
    /\ d0 * p0 + d1 * p1 = (leverage - 1) * (capital * (1 - fee_swap))
    /\ 0 <= s0 /\ 0 <= s1 /\ 0 <= d0 /\ 0 <= d1.
Proof.
  unfold open_transactions.
  set (c := capital * (1 - fee_swap)) in *.
  assert (Hi0 : 0 < / p0) by now apply Rinv_0_lt_compat.
  assert (Hi1 : 0 < / p1) by now apply Rinv_0_lt_compat.
  destruct (Req_dec_T leverage 1) as [->|Hne1].
  { rewrite add_liquidity_1. fold c. do 4 eexists.
    split; [f_equal; f_equal; lra|].
    assert (0 <= c / 2 / p0) by (apply Rmult_le_pos; lra).
    assert (0 <= c / 2 / p1) by (apply Rmult_le_pos; lra).
    repeat split; try assumption; try lra; field; lra. }
  destruct (Req_dec_T leverage 2) as [->|Hne2].
  { rewrite add_liquidity_2. fold c. do 4 eexists.
    split; [f_equal; f_equal; lra|].
    assert (0 <= c / p0) by (apply Rmult_le_pos; lra).
    assert (0 <= c / p1) by (apply Rmult_le_pos; lra).
    repeat split; try assumption; try lra; field; lra. }
  assert (HL2 : 2 < leverage) by lra.
  rewrite add_liquidity_gt2 by exact HL2. fold c.
  rewrite (borrow_fraction leverage HL2).
  do 4 eexists. split; [f_equal; f_equal; lra|].
  assert (Hden : 0 < / (2 * leverage - 2))
    by (apply Rinv_0_lt_compat; lra).
  assert (Hf0 : 0 <= (leverage - 2) / (2 * leverage - 2))
    by (apply Rmult_le_pos; lra).
  assert (Hf1 : 0 <= 1 - (leverage - 2) / (2 * leverage - 2)).
  { replace (1 - (leverage - 2) / (2 * leverage - 2))
      with (leverage / (2 * leverage - 2)) by (field; lra).
    apply Rmult_le_pos; lra. }
  assert (Hlc : 0 <= 1 / 2 * leverage * c) by (apply Rmult_le_pos; lra).
  assert (Hm : 0 <= leverage - 1) by lra.
  repeat split.
  - field. lra.
  - field. lra.
  - field. split; [|split]; lra.
  - apply Rmult_le_pos; lra.
  - apply Rmult_le_pos; lra.
  - apply Rmult_le_pos; [|lra]. apply Rmult_le_pos; [|lra].
    apply Rmult_le_pos; lra.
  - apply Rmult_le_pos; [|lra]. apply Rmult_le_pos; [|lra].
    apply Rmult_le_pos; lra.
Qed.

Lemma opened_position_has_requested_leverage_witness :
  exists s0 s1 d0 d1,
    Core.add_liquidity 100 3 (1, 2) 0 5
    = Ok ((s0, s1), (d0, d1), 5 * open_transactions 3)
    /\ 1 * s0 = 2 * s1
    /\ 1 * s0 + 2 * s1 = 3 * (100 * (1 - 0))
    /\ d0 * 1 + d1 * 2 = (3 - 1) * (100 * (1 - 0))
    /\ 0 <= s0 /\ 0 <= s1 /\ 0 <= d0 /\ 0 <= d1.
Proof.
  apply (opened_position_has_requested_leverage 100 3 1 2 0 5); lra.
Defined.

(** X2: [remove_liquidity] pays out the fraction [amount] of the equity
    value net of the swap fee and leaves the fraction [1 - amount] of the
    equity value in the position; closing nothing returns the position
    and no cash, closing everything leaves neither supply nor debt; two
    gas fees are charged in every case, also for [amount = 0]. *)
Theorem remove_liquidity_splits_equity
    (s0 s1 d0 d1 p0 p1 amount fee_swap fee_gas : R) :
  let equity := (s0 - d0) * p0 + (s1 - d1) * p1 in
  let closed :=
    Core.remove_liquidity (s0, s1) (d0, d1) (p0, p1) amount fee_swap
      fee_gas in
  let supply := fst (fst (fst closed)) in
  let debt := snd (fst (fst closed)) in
  snd (fst closed) = amount * (1 - fee_swap) * equity
  /\ (fst supply - fst debt) * p0 + (snd supply - snd debt) * p1
     = (1 - amount) * equity
  /\ snd closed = 2 * fee_gas
  /\ Core.remove_liquidity (s0, s1) (d0, d1) (p0, p1) 0 fee_swap fee_gas
     = ((s0, s1), (d0, d1), 0, 2 * fee_gas)
  /\ Core.remove_liquidity (s0, s1) (d0, d1) (p0, p1) 1 fee_swap fee_gas
     = ((0, 0), (0, 0), (1 - fee_swap) * equity, 2 * fee_gas).
Proof.
  cbn [Core.remove_liquidity fst snd].
  split; [ring|]. split; [ring|]. split; [ring|].
  split; apply tuple4_eq; try apply pair_eq; ring.
Qed.

(** X3: opening a position at a supported leverage and closing all of it
    at the same prices returns the capital less the two swap fees,
    [capital * (1 - fee_swap) * (1 - fee_swap')], and leaves neither
    supply nor debt. *)
Theorem open_then_full_close
    (capital leverage p0 p1 fee_swap fee_gas fee_swap' fee_gas' : R)
    (Hp0 : 0 < p0) (Hp1 : 0 < p1)
    (HL : leverage = 1 \/ 2 <= leverage) :
  exists supply debt fees_open,
    Core.add_liquidity capital leverage (p0, p1) fee_swap fee_gas
    = Ok (supply, debt, fees_open)
    /\ fees_open = fee_gas * open_transactions leverage
    /\ exists supply' debt',
         Core.remove_liquidity supply debt (p0, p1) 1 fee_swap' fee_gas'
         = (supply', debt', capital * (1 - fee_swap) * (1 - fee_swap'),
            0 + fee_gas' + fee_gas')
         /\ supply' = (0, 0) /\ debt' = (0, 0).
Proof.
  assert (Hclose : forall s0 s1 d0 d1,
    (s0 - d0) * p0 + (s1 - d1) * p1 = capital * (1 - fee_swap) ->
    exists supply' debt',
      Core.remove_liquidity (s0, s1) (d0, d1) (p0, p1) 1 fee_swap' fee_gas'
      = (supply', debt', capital * (1 - fee_swap) * (1 - fee_swap'),
         0 + fee_gas' + fee_gas')
      /\ supply' = (0, 0) /\ debt' = (0, 0)).
  { intros s0 s1 d0 d1 Heq. exists (0, 0), (0, 0).
    split; [|split; reflexivity]. cbn [Core.remove_liquidity].
    rewrite <- Heq. apply tuple4_eq; [| |ring|reflexivity];
      apply pair_eq; ring. }
  unfold open_transactions.
  destruct (Req_dec_T leverage 1) as [->|Hne1].
  { rewrite add_liquidity_1. do 3 eexists. split; [reflexivity|].
    split; [lra|]. apply Hclose. field. lra. }
  destruct (Req_dec_T leverage 2) as [->|Hne2].
  { rewrite add_liquidity_2. do 3 eexists. split; [reflexivity|].
    split; [lra|]. apply Hclose. field. lra. }
  assert (HL2 : 2 < leverage) by lra.
  rewrite add_liquidity_gt2 by exact HL2. do 3 eexists.
  split; [reflexivity|]. split; [lra|]. apply Hclose.
  field. repeat split; lra.
Qed.

Lemma open_then_full_close_witness :
  exists supply debt fees_open,
    Core.add_liquidity 100 3 (1, 2) (1 / 100) 5 = Ok (supply, debt, fees_open)
    /\ fees_open = 5 * open_transactions 3
    /\ exists supply' debt',
         Core.remove_liquidity supply debt (1, 2) 1 (1 / 100) 5
         = (supply', debt', 100 * (1 - 1 / 100) * (1 - 1 / 100), 0 + 5 + 5)
         /\ supply' = (0, 0) /\ debt' = (0, 0).
Proof.
  apply (open_then_full_close 100 3 1 2 (1 / 100) 5 (1 / 100) 5); lra.
Defined.

End LiquidityMath.

(** * Further properties of the reward strategies *)

Section RewardStrategies.

(** X4: [sell_rewards] with a number [a] as amount sells [max a 0] of the
    reward tokens: what remains plus what was sold is what came in, the
    cash is the sold tokens at the reward price net of the swap fee, the
    pool tokens pass through, and one gas fee is charged exactly when
    [a > 0], also when no token is there to sell; for [a <= 1] and a
    balance that is not negative the remainder lies between 0 and the
    balance. *)
Theorem sell_rewards_accounts
    (reward_tokens reward_price a fee_swap fee_gas : R)
    (pool_tokens : option pair2)
    (Ha : a <= 1) (Htokens : 0 <= reward_tokens) :
  exists remaining cash fees,
    Rewards.sell_rewards reward_tokens reward_price pool_tokens
      (Rewards.VFloat a) fee_swap fee_gas
    = Ok (remaining, pool_tokens, cash, fees)
    /\ remaining = reward_tokens - Rmax a 0 * reward_tokens
    /\ cash = Rmax a 0 * reward_tokens * (1 - fee_swap) * reward_price
    /\ fees = (if Rle_dec a 0 then 0 else fee_gas)
    /\ 0 <= remaining <= reward_tokens.
Proof.
  unfold Rewards.sell_rewards; cbn [Rewards.as_float bind].
  destruct (Rle_dec a 0) as [Hle|Hgt].
  - rewrite Rmax_right by exact Hle. do 3 eexists.
    split; [reflexivity|]. repeat split; lra.
  - assert (H0 : 0 < a) by lra. rewrite Rmax_left by lra.
    do 3 eexists. split; [reflexivity|].
    repeat split; try ring; nra.
Qed.

Lemma sell_rewards_accounts_witness :
  exists remaining cash fees,
    Rewards.sell_rewards 10 2 None (Rewards.VFloat (1 / 2)) 0 3
    = Ok (remaining, None, cash, fees)
    /\ remaining = 10 - Rmax (1 / 2) 0 * 10
    /\ cash = Rmax (1 / 2) 0 * 10 * (1 - 0) * 2
    /\ fees = (if Rle_dec (1 / 2) 0 then 0 else 3)
    /\ 0 <= remaining <= 10.
Proof.
  apply (sell_rewards_accounts 10 2 (1 / 2) 0 3 None); lra.
Defined.

(** X5: the compounding [execute] with a positive sell amount [a] sells
    [a] of the reward tokens and buys pool tokens with the proceeds: it
    returns no cash, adds to each pool token half of the proceeds net of
    a second swap fee, [a * tokens * price * (1 - fee_swap)^2 / 2] in
    value on each side, and charges four gas fees. *)
Theorem compound_execute_buys_both_sides
    (self : Rewards.RewardsStrategy)
    (reward_tokens reward_price a fee_swap fee_gas t0 t1 p0 p1 : R)
    (Hclass : Rewards.rewards_class_of self = Rewards.CompoundRewardsStrategy)
    (Hamount : Rewards._rewards_sell_amount self = Rewards.VFloat a)
    (Ha : 0 < a) (Hp0 : 0 < p0) (Hp1 : 0 < p1) :
  exists remaining t0' t1' fees,
    Rewards.execute self reward_tokens reward_price (Some (t0, t1))
      (Some (p0, p1)) fee_swap fee_gas
    = Ok (remaining, Some (t0', t1'), 0, fees)
    /\ remaining = reward_tokens - a * reward_tokens
    /\ (t0' - t0) * p0
       = a * reward_tokens * reward_price * (1 - fee_swap) * (1 - fee_swap)
         / 2
    /\ (t1' - t1) * p1 = (t0' - t0) * p0
    /\ fees = 4 * fee_gas.
Proof.
  unfold Rewards.execute, Rewards.CompoundRewardsStrategy_execute,
    Rewards.sell_rewards.
  rewrite Hclass, Hamount; cbn [Rewards.as_float bind].
  rewrite !if_Rle_false by lra.
  cbn [bind Rewards.subscriptable fst snd].
  do 4 eexists. split; [reflexivity|].
  repeat split; try ring; field; lra.
Qed.

Lemma compound_execute_buys_both_sides_witness :
  exists remaining t0' t1' fees,
    Rewards.execute
      (Rewards.mkRewardsStrategy Rewards.CompoundRewardsStrategy
         (Rewards.VFloat 1))
      10 2 (Some (0, 0)) (Some (1, 4)) 0 3
    = Ok (remaining, Some (t0', t1'), 0, fees)
    /\ remaining = 10 - 1 * 10
    /\ (t0' - 0) * 1 = 1 * 10 * 2 * (1 - 0) * (1 - 0) / 2
    /\ (t1' - 0) * 4 = (t0' - 0) * 1
    /\ fees = 4 * 3.
Proof.
  apply (compound_execute_buys_both_sides
           (Rewards.mkRewardsStrategy Rewards.CompoundRewardsStrategy
              (Rewards.VFloat 1))
           10 2 1 0 3 0 0 1 4); try reflexivity; lra.
Defined.

(** X6: a sell amount that is zero or negative makes [execute] of either
    class return the reward tokens and the pool tokens untouched, with no
    cash and no fee. *)
Theorem execute_without_sale
    (self : Rewards.RewardsStrategy)
    (reward_tokens reward_price a fee_swap fee_gas : R)
    (pool_tokens pool_prices : option pair2)
    (Hamount : Rewards._rewards_sell_amount self = Rewards.VFloat a)
    (Ha : a <= 0) :
  Rewards.execute self reward_tokens reward_price pool_tokens pool_prices
    fee_swap fee_gas
  = Ok (reward_tokens, pool_tokens, 0, 0).
Proof.
  unfold Rewards.execute, Rewards.SellRewardsStrategy_execute,
    Rewards.CompoundRewardsStrategy_execute, Rewards.sell_rewards.
  rewrite Hamount; cbn [Rewards.as_float bind].
  destruct (Rewards.rewards_class_of self); now rewrite if_Rle_true.
Qed.

Lemma execute_without_sale_witness :
  Rewards.execute
    (Rewards.mkRewardsStrategy Rewards.SellRewardsStrategy (Rewards.VFloat 0))
    10 2 None None 0 3
  = Ok (10, None, 0, 0).
Proof.
  apply (execute_without_sale
           (Rewards.mkRewardsStrategy Rewards.SellRewardsStrategy
              (Rewards.VFloat 0))
           10 2 0 0 3 None None); [reflexivity|lra].
Defined.

End RewardStrategies.

(** * Further properties of the rebalancing strategy *)

Section RebalancingStrategy.

Import Frame Trading.

Variable self : RebalanceStrategy.
Variables (df : DataFrame) (last : Series) (p0 p1 : R).
Hypothesis Hlast : iloc_last df = Ok last.
Hypothesis Hp0 : getitem last "token0_price" = Ok p0.
Hypothesis Hp1 : getitem last "token1_price" = Ok p1.

Lemma full_rebalance_values (s0 s1 d0 d1 input_cash : R) :
  0 < p0 -> 0 < p1 ->
  price_delta_of p1 (_price_anchor self) > _threshold self ->
  _amount self = 1 ->
  _leverage self = 1 \/ 2 <= _leverage self ->
  exists s0' s1' d0' d1',
    RebalanceStrategy_execute self (s0, s1) (d0, d1) df input_cash
    = Ok (set_price_anchor self p1,
          ((s0', s1'), (d0', d1'), input_cash,
           _fee_gas self * (2 + open_transactions (_leverage self)),
           price_delta_entry (price_delta_of p1 (_price_anchor self))))
    /\ p0 * s0' = p1 * s1'
    /\ p0 * s0' + p1 * s1'
       = _leverage self
         * (((s0 - d0) * p0 + (s1 - d1) * p1)
            * (1 - _fee_swap self) * (1 - _fee_swap self))
    /\ (p0 * s0' + p1 * s1') - (d0' * p0 + d1' * p1)
       = ((s0 - d0) * p0 + (s1 - d1) * p1)
         * (1 - _fee_swap self) * (1 - _fee_swap self).
Proof.
  intros Hpos0 Hpos1 Hgt Ham HL.
  rewrite (rebalance_execute_trigger self df last p0 p1 Hlast Hp0 Hp1)
    by exact Hgt.
  cbn [Core.remove_liquidity fst snd]. rewrite Ham.
  destruct (add_liquidity_values
              ((s0 - d0) * 1 * p0 * (1 - _fee_swap self)
               + (s1 - d1) * 1 * p1 * (1 - _fee_swap self))
              (_leverage self) p0 p1 (_fee_swap self) (_fee_gas self)
              Hpos0 Hpos1 HL)
    as (s0' & s1' & d0' & d1' & Hopen & Hbal & Hpool & Hdebt).
  rewrite Hopen; cbn [bind].
  exists s0', s1', d0', d1'. split.
  - unfold price_delta_entry. f_equal. apply pair_eq; [reflexivity|].
    apply pair_eq; [|reflexivity]. apply tuple4_eq; try reflexivity. ring.
  - split; [exact Hbal|]. split; [rewrite Hpool; ring|].
    rewrite Hpool, Hdebt. ring.
Qed.

End RebalancingStrategy.

(** X7: a triggered rebalance that closes everything ([amount = 1]) at a
    supported target leverage returns a position balanced by value whose
    pool value is the target leverage times its equity, the equity being
    the equity handed in less two swap fees; the cash passes through,
    the anchor moves to the current price, and the fees are the two gas
    fees of the close plus those of the opening. *)
Theorem full_rebalance_restores_leverage
    (self : Trading.RebalanceStrategy) (df : Frame.DataFrame)
    (last : Frame.Series) (p0 p1 s0 s1 d0 d1 input_cash : R)
    (Hlast : Frame.iloc_last df = Ok last)
    (Hp0 : Frame.getitem last "token0_price" = Ok p0)
    (Hp1 : Frame.getitem last "token1_price" = Ok p1)
    (Hpos0 : 0 < p0) (Hpos1 : 0 < p1)
    (Hanchor : Trading._price_anchor self <> 0)
    (Htrig : Trading.price_delta_of p1 (Trading._price_anchor self)
             > Trading._threshold self)
    (Hamount : Trading._amount self = 1)
    (HL : Trading._leverage self = 1 \/ 2 <= Trading._leverage self) :
  let equity' :=
    ((s0 - d0) * p0 + (s1 - d1) * p1)
    * (1 - Trading._fee_swap self) * (1 - Trading._fee_swap self) in
  exists s0' s1' d0' d1',
    Trading.RebalanceStrategy_execute self (s0, s1) (d0, d1) df input_cash
    = Ok (Trading.set_price_anchor self p1,
          ((s0', s1'), (d0', d1'), input_cash,
           Trading._fee_gas self
           * (2 + open_transactions (Trading._leverage self)),
           price_delta_entry
             (Trading.price_delta_of p1 (Trading._price_anchor self))))
    /\ p0 * s0' = p1 * s1'
    /\ p0 * s0' + p1 * s1' = Trading._leverage self * equity'
    /\ (p0 * s0' + p1 * s1') - (d0' * p0 + d1' * p1) = equity'.
Proof.
  intros equity'. subst equity'.
  now apply (full_rebalance_values self df last p0 p1 Hlast Hp0 Hp1).
Qed.

(** X8: once the anchor is the current token1 price, as a rebalance
    leaves it, [execute] on the same table passes everything through and
    records a deviation of zero, for any threshold that is not negative:
    a rebalance is not repeated at the price it happened at. *)
Theorem no_second_rebalance_at_the_same_price
    (self : Trading.RebalanceStrategy) (df : Frame.DataFrame)
    (last : Frame.Series) (p0 p1 input_cash : R) (supply debt : pair2)
    (Hlast : Frame.iloc_last df = Ok last)
    (Hp0 : Frame.getitem last "token0_price" = Ok p0)
    (Hp1 : Frame.getitem last "token1_price" = Ok p1)
    (Hne : p1 <> 0) (Hth : 0 <= Trading._threshold self) :
  Trading.RebalanceStrategy_execute (Trading.set_price_anchor self p1)
    supply debt df input_cash
  = Ok (Trading.set_price_anchor self p1,
        (supply, debt, input_cash, 0, price_delta_entry 0)).
Proof.
  assert (Hdelta : Trading.price_delta_of p1 p1 = 0).
  { unfold Trading.price_delta_of. replace (p1 - p1) with 0 by ring.
    rewrite Rabs_R0. field. exact Hne. }
  rewrite (rebalance_execute_hold (Trading.set_price_anchor self p1) df last
             p0 p1 Hlast Hp0 Hp1).
  - cbn [Trading.set_price_anchor Trading._price_anchor].
    rewrite Hdelta. reflexivity.
  - cbn [Trading.set_price_anchor Trading._price_anchor Trading._threshold].
    rewrite Hdelta. lra.
Qed.

(** X9: a target leverage that [add_liquidity] does not support is not
    rejected when the strategy is built nor while the deviation stays
    within the threshold, where [execute] passes everything through; the
    first [execute] whose deviation exceeds the threshold raises
    [ValueError]. *)
Theorem unsupported_target_leverage_surfaces_on_trigger
    (self : Trading.RebalanceStrategy) (df : Frame.DataFrame)
    (last : Frame.Series) (p0 p1 input_cash : R) (supply debt : pair2)
    (Hlast : Frame.iloc_last df = Ok last)
    (Hp0 : Frame.getitem last "token0_price" = Ok p0)
    (Hp1 : Frame.getitem last "token1_price" = Ok p1)
    (Hanchor : Trading._price_anchor self <> 0)
    (Hne1 : Trading._leverage self <> 1)
    (Hlt2 : Trading._leverage self < 2) :
  Trading.RebalanceStrategy_execute self supply debt df input_cash
  = if Rgt_dec (Trading.price_delta_of p1 (Trading._price_anchor self))
         (Trading._threshold self)
    then Raise ValueError
    else Ok (self, (supply, debt, input_cash, 0,
                    price_delta_entry
                      (Trading.price_delta_of p1
                         (Trading._price_anchor self)))).
Proof.
  destruct (Rgt_dec (Trading.price_delta_of p1 (Trading._price_anchor self))
              (Trading._threshold self)) as [Hgt|Hle].
  - rewrite (rebalance_execute_trigger self df last p0 p1 Hlast Hp0 Hp1)
      by exact Hgt.
    now rewrite add_liquidity_unsupported.
  - now rewrite (rebalance_execute_hold self df last p0 p1 Hlast Hp0 Hp1).
Qed.

Lemma doubled_day_reads :
  Frame.iloc_last Scenarios.doubled_day
  = Ok (Frame.series_of Scenarios.doubled_day
          (0%Z, Scenarios.cell Scenarios.price_columns [1; 2]))
  /\ Frame.getitem
       (Frame.series_of Scenarios.doubled_day
          (0%Z, Scenarios.cell Scenarios.price_columns [1; 2]))
       "token0_price" = Ok 1
  /\ Frame.getitem
       (Frame.series_of Scenarios.doubled_day
          (0%Z, Scenarios.cell Scenarios.price_columns [1; 2]))
       "token1_price" = Ok 2.
Proof. repeat split. Qed.

Lemma doubled_price_exceeds_a_tenth : Trading.price_delta_of 2 1 > 1 / 10.
Proof.
  unfold Trading.price_delta_of. replace (2 - 1) with 1 by lra.
  rewrite Rabs_R1. lra.
Qed.

Lemma full_rebalance_restores_leverage_witness :
  exists s0' s1' d0' d1',
    Trading.RebalanceStrategy_execute
      (Trading.RebalanceStrategy_init 1 (1 / 10) 3 1 0 5) (100, 50) (0, 0)
      Scenarios.doubled_day 7
    = Ok (Trading.set_price_anchor
            (Trading.RebalanceStrategy_init 1 (1 / 10) 3 1 0 5) 2,
          ((s0', s1'), (d0', d1'), 7, 5 * (2 + open_transactions 3),
           price_delta_entry (Trading.price_delta_of 2 1)))
    /\ 1 * s0' = 2 * s1'
    /\ 1 * s0' + 2 * s1'
       = 3 * (((100 - 0) * 1 + (50 - 0) * 2) * (1 - 0) * (1 - 0))
    /\ (1 * s0' + 2 * s1') - (d0' * 1 + d1' * 2)
       = ((100 - 0) * 1 + (50 - 0) * 2) * (1 - 0) * (1 - 0).
Proof.
  destruct doubled_day_reads as (Hlast & Hp0 & Hp1).
  apply (full_rebalance_restores_leverage
           (Trading.RebalanceStrategy_init 1 (1 / 10) 3 1 0 5)
           Scenarios.doubled_day _ 1 2 100 50 0 0 7 Hlast Hp0 Hp1);
    try lra; try reflexivity.
  - change (1 <> 0). lra.
  - exact doubled_price_exceeds_a_tenth.
  - right. change (2 <= 3). lra.
Defined.

Lemma no_second_rebalance_at_the_same_price_witness :
  Trading.RebalanceStrategy_execute
    (Trading.set_price_anchor
       (Trading.RebalanceStrategy_init 1 (1 / 10) 3 1 0 5) 2)
    (100, 50) (0, 0) Scenarios.doubled_day 7
  = Ok (Trading.set_price_anchor
          (Trading.RebalanceStrategy_init 1 (1 / 10) 3 1 0 5) 2,
        ((100, 50), (0, 0), 7, 0, price_delta_entry 0)).
Proof.
  destruct doubled_day_reads as (Hlast & Hp0 & Hp1).
  apply (no_second_rebalance_at_the_same_price
           (Trading.RebalanceStrategy_init 1 (1 / 10) 3 1 0 5)
           Scenarios.doubled_day _ 1 2 7 (100, 50) (0, 0) Hlast Hp0 Hp1).
  - lra.
  - change (0 <= 1 / 10). lra.
Defined.

Lemma unsupported_target_leverage_surfaces_on_trigger_witness :
  Trading.RebalanceStrategy_execute
    (Trading.RebalanceStrategy_init 1 (1 / 10) (3 / 2) 1 0 5)
    (100, 50) (0, 0) Scenarios.doubled_day 7
  = if Rgt_dec (Trading.price_delta_of 2 1) (1 / 10)
    then Raise ValueError
    else Ok (Trading.RebalanceStrategy_init 1 (1 / 10) (3 / 2) 1 0 5,
             ((100, 50), (0, 0), 7, 0,
              price_delta_entry (Trading.price_delta_of 2 1))).
Proof.
  destruct doubled_day_reads as (Hlast & Hp0 & Hp1).
  apply (unsupported_target_leverage_surfaces_on_trigger
           (Trading.RebalanceStrategy_init 1 (1 / 10) (3 / 2) 1 0 5)
           Scenarios.doubled_day _ 1 2 7 (100, 50) (0, 0) Hlast Hp0 Hp1).
  - change (1 <> 0). lra.
  - change (3 / 2 <> 1). lra.
  - change (3 / 2 < 2). lra.
Defined.

(** * Further properties of the repricing *)

(** X10: repricing forgets the path: repricing the pool that [iloss_amt]
    returned for ratio [r] to a ratio [r'] gives what repricing the
    original pool to [r'] gives; so a pool of [s0] and [s1] tokens
    repriced away to any ratio and back to its own ratio [s0 / s1] is the
    same pool again. *)
Theorem repricing_round_trip (s0 s1 r r' : R)
    (Hs0 : 0 < s0) (Hs1 : 0 < s1) (Hr : 0 < r) (Hr' : 0 < r') :
  let away := Util.iloss_amt (s0 * s1) r in
  Util.iloss_amt (fst away * snd away) r' = Util.iloss_amt (s0 * s1) r'
  /\ Util.iloss_amt (fst away * snd away) (s0 / s1) = (s0, s1).
Proof.
  intros away. subst away.
  assert (Hk : 0 < s0 * s1) by now apply Rmult_lt_0_compat.
  assert (Hprod : fst (Util.iloss_amt (s0 * s1) r)
                  * snd (Util.iloss_amt (s0 * s1) r) = s0 * s1).
  { unfold Util.iloss_amt; cbn [fst snd].
    assert (0 < s0 * s1 * r) by now apply Rmult_lt_0_compat.
    assert (0 < s0 * s1 / r) by now apply Rdiv_lt_0_compat.
    rewrite <- sqrt_mult by lra.
    apply sqrt_of_square; [lra|]. field. lra. }
  rewrite Hprod. split; [reflexivity|].
  unfold Util.iloss_amt. apply pair_eq.
  - apply sqrt_of_square; [lra|]. field. lra.
  - apply sqrt_of_square; [lra|]. field. lra.
Qed.

Lemma repricing_round_trip_witness :
  Util.iloss_amt
    (fst (Util.iloss_amt (50 * 500) 4) * snd (Util.iloss_amt (50 * 500) 4))
    (50 / 500)
  = (50, 500).
Proof.
  apply (repricing_round_trip 50 500 4 4); lra.
Defined.

(** X11: at prices [p0] and [p1] the pool that [iloss_amt] returns for
    the ratio [p1 / p0] holds the same dollar value on both sides,
    [sqrt (k * p0 * p1)] each. *)
Theorem repriced_pool_is_balanced (k p0 p1 : R)
    (Hk : 0 <= k) (Hp0 : 0 < p0) (Hp1 : 0 < p1) :
  p0 * fst (Util.iloss_amt k (p1 / p0)) = sqrt (k * p0 * p1)
  /\ p1 * snd (Util.iloss_amt k (p1 / p0)) = sqrt (k * p0 * p1).
Proof.
  unfold Util.iloss_amt; cbn [fst snd].
  assert (Hr : 0 < p1 / p0) by (apply Rdiv_lt_0_compat; lra).
  assert (Hkr : 0 <= k * (p1 / p0)).
  { apply Rmult_le_pos; lra. }
  assert (Hk_r : 0 <= k / (p1 / p0)).
  { apply Rmult_le_pos; [lra|]. left. now apply Rinv_0_lt_compat. }
  split.
  - rewrite <- (sqrt_square p0) at 1 by lra.
    rewrite <- sqrt_mult by nra. f_equal. field. lra.
  - rewrite <- (sqrt_square p1) at 1 by lra.
    rewrite <- sqrt_mult by nra. f_equal. field. split; lra.
Qed.

Lemma repriced_pool_is_balanced_witness :
  1 * fst (Util.iloss_amt 2500 (4 / 1)) = sqrt (2500 * 1 * 4)
  /\ 4 * snd (Util.iloss_amt 2500 (4 / 1)) = sqrt (2500 * 1 * 4).
Proof.
  apply (repriced_pool_is_balanced 2500 1 4); lra.
Defined.

(** * Further properties of the driver *)

Section EpochFields.

Import Frame Simulation.

Ltac invert_all H :=
  repeat
    (first
       [ let x := fresh "x" in
         let Hx := fresh "Hx" in
         apply bind_ok in H; destruct H as (x & Hx & H)
       | match type of H with
         | match ?p with pair _ _ => _ end = Ok _ => destruct p
         end ]).

(** The fields of the record of a completed epoch, in terms of the row
    and of one another. *)
Lemma epoch_ok_fields (df : DataFrame) (rewards_cls : Rewards.RewardsStrategy)
    (initial_cap leverage fee_swap : R) (ov : Overrides) (init : Initial)
    (st st' : LoopState) (row : Series) (rec : EpochRecord) :
  epoch df rewards_cls initial_cap leverage fee_swap ov init st row
  = Ok (st', rec) ->
  exists p0 p1,
    getitem row "token0_price" = Ok p0
    /\ getitem row "token1_price" = Ok p1
    /\ (name row - first_date init + 1 <> 0)%Z
    /\ iloss rec
       = 2 * (sqrt (ratio_initial init / (p1 / p0))
              / (1 + ratio_initial init / (p1 / p0))) - 1
    /\ pool_value rec
       = p0 * token0_supply_close rec + p1 * token1_supply_close rec
    /\ debt_value rec
       = token0_debt_close rec * p0 + token1_debt_close rec * p1
    /\ pool_equity rec = pool_value rec - debt_value rec
    /\ position_value rec
       = pool_value rec + rewards_value rec + cash_value rec - fees_value rec
    /\ equity_value rec = position_value rec - debt_value rec
    /\ profit_value rec = equity_value rec - initial_cap
    /\ roi rec = profit_value rec / initial_cap
    /\ debt_ratio rec
       = np_divide (debt_value rec) (debt_value rec + pool_equity rec)
    /\ effective_leverage rec
       = np_divide (pool_value rec) (pool_equity rec)
    /\ position_hodl_dollars rec
       = (p0 * token0_supply_initial init + p1 * token1_supply_initial init)
         / leverage
    /\ cash_value rec = cash_accum st'
    /\ fees_value rec = fees_accum st'.
Proof.
  intros H. unfold epoch in H.
  apply bind_ok in H; destruct H as (p0 & Hp0 & H).
  apply bind_ok in H; destruct H as (p1 & Hp1 & H).
  apply bind_ok in H; destruct H as (rp & Hrp & H).
  rewrite Hp1, Hp0 in H; cbn [bind] in H.
  apply bind_ok in H; destruct H as (tf & Htf & H).
  apply bind_ok in H; destruct H as (ar & Har & H).
  apply bind_ok in H; destruct H as (fg & Hfg & H).
  unfold Util.iloss_amt in H; cbn zeta beta iota in H.
  invert_all H.
  injection H as <- <-.
  exists p0, p1. split; [exact Hp0|]. split; [exact Hp1|].
  split.
  { match goal with
    | Hy : per_year _ = Ok _ |- _ =>
        unfold per_year in Hy;
        destruct (Z.eqb_spec (name row - first_date init + 1) 0) as [E|E];
        [discriminate Hy|exact E]
    end. }
  cbn [iloss pool_value debt_value pool_equity position_value equity_value
       profit_value roi debt_ratio effective_leverage position_hodl_dollars
       cash_value fees_value rewards_value token0_supply_close
       token1_supply_close token0_debt_close token1_debt_close cash_accum
       fees_accum].
  repeat split.
Qed.

(** Every record of a completed loop is the record of a completed epoch
    on the row at the same position. *)
Lemma loop_records (df : DataFrame) (rewards_cls : Rewards.RewardsStrategy)
    (initial_cap leverage fee_swap : R) (ov : Overrides) (init : Initial)
    (todo : list Series) :
  forall (st : LoopState) (recs : list EpochRecord),
    loop df rewards_cls initial_cap leverage fee_swap ov init st todo
    = Ok recs ->
    Forall2
      (fun row rec =>
         exists st0 st1,
           epoch df rewards_cls initial_cap leverage fee_swap ov init st0 row
           = Ok (st1, rec))
      todo recs.
Proof.
  induction todo as [|row todo IH]; intros st recs Hloop.
  - injection Hloop as <-. constructor.
  - cbn [loop] in Hloop.
    apply bind_ok in Hloop. destruct Hloop as ([st' rec] & Hepoch & Hloop).
    apply bind_ok in Hloop. destruct Hloop as (recs' & Hloop & Hrecs).
    injection Hrecs as <-. constructor; [eauto|]. now apply (IH st').
Qed.

End EpochFields.

(** What [simulate] went through when it returned. *)
Lemma simulate_ok_inv (df : Frame.DataFrame)
    (strategy : Trading.TradingStrategy)
    (rewards_cls : Rewards.RewardsStrategy)
    (initial_cap leverage fee_gas fee_swap : R) (ov : Simulation.Overrides)
    (open_on_start : bool) (recs : list Simulation.EpochRecord) :
  Simulation.simulate df strategy rewards_cls initial_cap leverage fee_gas
    fee_swap ov open_on_start = Ok recs ->
  exists dr rest supply debt fees_open,
    Frame.rows df = dr :: rest
    /\ open_on_start = true
    /\ Frame.has_column df "token0_price" = true
    /\ Frame.has_column df "token1_price" = true
    /\ Core.add_liquidity initial_cap leverage
         (snd dr "token0_price"%string, snd dr "token1_price"%string)
         fee_swap fee_gas
       = Ok (supply, debt, fees_open)
    /\ Simulation.loop (Simulation.prepare df ov fee_gas) rewards_cls
         initial_cap leverage fee_swap ov
         (Simulation.mkInitial
            (snd dr "token1_price"%string / snd dr "token0_price"%string)
            (fst supply) (snd supply) (fst dr))
         (Simulation.mkLoopState strategy (fst supply) (snd supply)
            (fst debt) (snd debt) 0 fees_open 0)
         (Frame.iterrows (Simulation.prepare df ov fee_gas))
       = Ok recs.
Proof.
  unfold Simulation.simulate, Simulation.simulate_init. intros H.
  apply bind_ok in H. destruct H as ([init st] & Hinit & Hloop).
  unfold Frame.column_first in Hinit.
  rewrite !has_column_prepare in Hinit.
  cbn [String.eqb Ascii.eqb Bool.eqb andb] in Hinit.
  rewrite ?orb_false_r in Hinit.
  destruct (Frame.has_column df "token0_price") eqn:Hc0; [|discriminate].
  rewrite rows_prepare in Hinit.
  destruct (Frame.rows df) as [|dr rest] eqn:Hrows; [discriminate|].
  cbn [map bind snd] in Hinit.
  destruct (Frame.has_column df "token1_price") eqn:Hc1; [|discriminate].
  cbn [bind] in Hinit.
  rewrite prepared_token0_price, prepared_token1_price in Hinit.
  destruct open_on_start; [|discriminate].
  apply bind_ok in Hinit.
  destruct Hinit as ([[[s0 s1] [d0 d1]] fo] & Hopen & Hinit).
  rewrite (iloc_first_prepare df ov fee_gas dr rest Hrows) in Hinit.
  cbn [bind Frame.name] in Hinit. injection Hinit as <- <-.
  exists dr, rest, (s0, s1), (d0, d1), fo.
  repeat split; assumption.
Qed.

Section RunStructure.

Import Frame Simulation.

Lemma Forall2_nth_error {A B : Type} (P : A -> B -> Prop) (l : list A)
    (l' : list B) :
  Forall2 P l l' ->
  forall (i : nat) (a : A) (b : B),
    nth_error l i = Some a -> nth_error l' i = Some b -> P a b.
Proof.
  induction 1 as [|x y l l' Hxy _ IH]; intros [|i] a b Ha Hb;
    cbn [nth_error] in *; try discriminate.
  - now injection Ha as <-; injection Hb as <-.
  - now apply (IH i).
Qed.

Lemma nth_error_iterrows_prepare (df : DataFrame) (ov : Overrides)
    (fee_gas : R) (i : nat) (dr : Z * (string -> R)) :
  nth_error (rows df) i = Some dr ->
  nth_error (iterrows (prepare df ov fee_gas)) i
  = Some (mkSeries (fst dr) (columns (prepare df ov fee_gas))
            (prepared_cells df ov fee_gas (snd dr))).
Proof.
  intros H. rewrite iterrows_prepare.
  now apply (map_nth_error
               (fun dr0 => mkSeries (fst dr0)
                             (columns (prepare df ov fee_gas))
                             (prepared_cells df ov fee_gas (snd dr0)))).
Qed.

Variables (df : DataFrame) (rewards_cls : Rewards.RewardsStrategy).
Variables (initial_cap leverage fee_swap : R) (ov : Overrides).
Variable init : Initial.

Lemma loop_chain (todo : list Series) :
  forall (st : LoopState) (recs : list EpochRecord),
    loop df rewards_cls initial_cap leverage fee_swap ov init st todo
    = Ok recs ->
    forall (i : nat) (rec : EpochRecord) (row : Series),
      nth_error recs i = Some rec -> nth_error todo i = Some row ->
      (token0_supply_open rec, token1_supply_open rec)
      = Util.iloss_amt (product_before st recs i)
          (cells row "token1_price" / cells row "token0_price").
Proof.
  induction todo as [|row0 todo IH]; intros st recs Hloop i rec row Hrec Hrow.
  - destruct i; discriminate Hrow.
  - cbn [loop] in Hloop.
    apply bind_ok in Hloop. destruct Hloop as ([st' rec0] & Hepoch & Hloop).
    apply bind_ok in Hloop. destruct Hloop as (recs' & Hloop & Hrecs).
    injection Hrecs as <-.
    apply epoch_ok_inv in Hepoch.
    destruct Hepoch as (p0 & p1 & sin & din & cin & sout & dout & cout & ft
                        & Hp0 & Hp1 & Ho0 & Ho1 & _ & _ & Hclose & _ & Hlast
                        & _).
    destruct i as [|i]; cbn [nth_error] in Hrec, Hrow.
    + injection Hrec as <-. injection Hrow as <-.
      apply getitem_ok in Hp0, Hp1. destruct Hp0 as [_ ->], Hp1 as [_ ->].
      cbn [product_before]. unfold Util.iloss_amt. now rewrite Ho0, Ho1.
    + rewrite (IH st' recs' Hloop i rec row Hrec Hrow). f_equal.
      destruct i as [|i]; cbn [product_before nth_error]; [|reflexivity].
      rewrite <- Hclose in Hlast. now injection Hlast as -> ->.
Qed.

End RunStructure.

(** X12: a run that returns over positive prices and increasing dates has
    one record per row of the table, and its records chain: every record
    after the first opens on the pool that [iloss_amt] gives for the
    product of the closing supplies of the record before it and the price
    ratio of its own row. *)
Theorem records_chain_through_closing_supplies
    (df : Frame.DataFrame) (strategy : Trading.TradingStrategy)
    (rewards_cls : Rewards.RewardsStrategy)
    (initial_cap leverage fee_gas fee_swap : R) (ov : Simulation.Overrides)
    (open_on_start : bool) (recs : list Simulation.EpochRecord)
    (Hprices : positive_prices df) (Hdates : dates_increasing df)
    (Hrun : Simulation.simulate df strategy rewards_cls initial_cap leverage
              fee_gas fee_swap ov open_on_start = Ok recs) :
  List.length recs = List.length (Frame.rows df)
  /\ forall (i : nat) (rec rec' : Simulation.EpochRecord)
            (dr' : Z * (string -> R)),
       nth_error recs i = Some rec ->
       nth_error recs (S i) = Some rec' ->
       nth_error (Frame.rows df) (S i) = Some dr' ->
       (Simulation.token0_supply_open rec', Simulation.token1_supply_open rec')
       = Util.iloss_amt
           (Simulation.token0_supply_close rec
            * Simulation.token1_supply_close rec)
           (snd dr' "token1_price"%string / snd dr' "token0_price"%string).
Proof.
  apply simulate_ok_inv in Hrun.
  destruct Hrun as (dr & rest & supply & debt & fo & Hrows & _ & _ & _ & _
                    & Hloop).
  split.
  - apply loop_records in Hloop. apply Forall2_length in Hloop.
    rewrite <- Hloop, iterrows_prepare, length_map. reflexivity.
  - intros i rec rec' dr' Hrec Hrec' Hdr'.
    pose proof (nth_error_iterrows_prepare df ov fee_gas (S i) dr' Hdr')
      as Hrow.
    rewrite (loop_chain _ _ _ _ _ _ _ _ _ _ Hloop (S i) rec' _ Hrec' Hrow).
    cbn [product_before Frame.cells]. rewrite Hrec.
    now rewrite prepared_token0_price, prepared_token1_price.
Qed.

Lemma records_chain_through_closing_supplies_witness :
  exists recs,
    Simulation.simulate Scenarios.flat_two_days Trading.HODLStrategy
      Scenarios.sell_all 100 1 0 0 Scenarios.zero_borrow true = Ok recs
    /\ List.length recs = List.length (Frame.rows Scenarios.flat_two_days)
    /\ forall (i : nat) (rec rec' : Simulation.EpochRecord)
              (dr' : Z * (string -> R)),
         nth_error recs i = Some rec ->
         nth_error recs (S i) = Some rec' ->
         nth_error (Frame.rows Scenarios.flat_two_days) (S i) = Some dr' ->
         (Simulation.token0_supply_open rec',
          Simulation.token1_supply_open rec')
         = Util.iloss_amt
             (Simulation.token0_supply_close rec
              * Simulation.token1_supply_close rec)
             (snd dr' "token1_price"%string / snd dr' "token0_price"%string).
Proof.
  destruct flat_two_days_is_flat as (Hflat & _ & Hdates).
  destruct (simulate_flat Scenarios.flat_two_days Scenarios.sell_all
              100 1 0 0 Scenarios.zero_borrow 1 1 1)
    as (s0 & s1 & d0 & d1 & recs & _ & _ & Hsim & _);
    try lra; try reflexivity; try assumption.
  { discriminate. }
  exists recs. split; [exact Hsim|].
  apply (records_chain_through_closing_supplies Scenarios.flat_two_days
           Trading.HODLStrategy Scenarios.sell_all 100 1 0 0
           Scenarios.zero_borrow true recs).
  - repeat constructor; cbn; lra.
  - exact Hdates.
  - exact Hsim.
Defined.

Section PassiveRun.

Import Frame Simulation.

Ltac invert_some H :=
  repeat
    (first
       [ let x := fresh "x" in
         let Hx := fresh "Hx" in
         apply bind_ok in H; destruct H as (x & Hx & H)
       | match type of H with
         | match ?p with pair _ _ => _ end = Ok _ => destruct p
         end ]).

Lemma sell_execute_passes_pool_tokens (self : Rewards.RewardsStrategy)
    (reward_tokens reward_price fee_swap fee_gas : R)
    (pool_tokens pool_prices pool_tokens' : option pair2)
    (remaining cash fees : R) :
  Rewards.rewards_class_of self = Rewards.SellRewardsStrategy ->
  Rewards.execute self reward_tokens reward_price pool_tokens pool_prices
    fee_swap fee_gas
  = Ok (remaining, pool_tokens', cash, fees) ->
  pool_tokens' = pool_tokens.
Proof.
  unfold Rewards.execute, Rewards.SellRewardsStrategy_execute,
    Rewards.sell_rewards.
  intros -> H. apply bind_ok in H. destruct H as (a & _ & H).
  destruct (Rle_dec a 0); now injection H.
Qed.

(** A completed epoch of the passive strategy with a selling reward
    strategy. *)
Lemma epoch_hodl_inv (df : DataFrame) (rewards_cls : Rewards.RewardsStrategy)
    (initial_cap leverage fee_swap : R) (ov : Overrides) (init : Initial)
    (st st' : LoopState) (row : Series) (rec : EpochRecord) :
  strategy_cls st = Trading.HODLStrategy ->
  Rewards.rewards_class_of rewards_cls = Rewards.SellRewardsStrategy ->
  epoch df rewards_cls initial_cap leverage fee_swap ov init st row
  = Ok (st', rec) ->
  exists b0 b1,
    apy_borrow_token0 ov = Some b0 /\ apy_borrow_token1 ov = Some b1
    /\ strategy_cls st' = Trading.HODLStrategy
    /\ trade_event rec = false
    /\ strategy_metadata rec = []
    /\ token0_supply_close rec = token0_supply_open rec + token0_earnings rec
    /\ token1_supply_close rec = token1_supply_open rec + token1_earnings rec
    /\ token0_debt_close rec
       = last_token0_debt st * exp (b0 * 1 / (36525 / 100))
    /\ token1_debt_close rec
       = last_token1_debt st * exp (b1 * 1 / (36525 / 100))
    /\ last_token0_debt st' = token0_debt_close rec
    /\ last_token1_debt st' = token1_debt_close rec
    /\ cash_value rec = cash_accum st + cash_from_rewards rec.
Proof.
  intros Hst Hclass H. unfold epoch in H.
  apply bind_ok in H; destruct H as (p0 & Hp0 & H).
  apply bind_ok in H; destruct H as (p1 & Hp1 & H).
  apply bind_ok in H; destruct H as (rp & Hrp & H).
  rewrite Hp1, Hp0 in H; cbn [bind] in H.
  apply bind_ok in H; destruct H as (tf & Htf & H).
  apply bind_ok in H; destruct H as (ar & Har & H).
  apply bind_ok in H; destruct H as (fg & Hfg & H).
  unfold Util.iloss_amt in H; cbn zeta beta iota in H.
  destruct (apy_borrow_token0 ov) as [b0|]; [|discriminate H].
  destruct (apy_borrow_token1 ov) as [b1|]; [|discriminate H].
  cbn [daily_rate bind] in H.
  apply bind_ok in H; destruct H as ([[[rem pool] cash] fees] & Hexec & H).
  apply (sell_execute_passes_pool_tokens _ _ _ _ _ _ _ _ _ _ _ Hclass)
    in Hexec.
  subst pool. cbn [bind Rewards.subscriptable fst snd] in H.
  rewrite Hst in H.
  cbn [Trading.execute Trading.HODLStrategy_execute bind] in H.
  rewrite !pair2_eqb_refl in H.
  apply bind_ok in H; destruct H as (y & Hy & H).
  injection H as <- <-.
  exists b0, b1.
  cbn [strategy_cls trade_event strategy_metadata token0_supply_close
       token1_supply_close token0_supply_open token1_supply_open
       token0_earnings token1_earnings token0_debt_close token1_debt_close
       last_token0_debt last_token1_debt cash_value cash_from_rewards].
  repeat split; ring.
Qed.

Variables (df : DataFrame) (rewards_cls : Rewards.RewardsStrategy).
Variables (initial_cap leverage fee_swap : R) (ov : Overrides).
Variable init : Initial.
Variables (b0 b1 : R).
Hypothesis Hb0 : apy_borrow_token0 ov = Some b0.
Hypothesis Hb1 : apy_borrow_token1 ov = Some b1.
Hypothesis Hclass :
  Rewards.rewards_class_of rewards_cls = Rewards.SellRewardsStrategy.

Lemma loop_hodl (todo : list Series) :
  forall (st : LoopState) (recs : list EpochRecord),
    strategy_cls st = Trading.HODLStrategy ->
    loop df rewards_cls initial_cap leverage fee_swap ov init st todo
    = Ok recs ->
    forall (i : nat) (rec : EpochRecord),
      nth_error recs i = Some rec ->
      trade_event rec = false
      /\ strategy_metadata rec = []
      /\ token0_supply_close rec
         = token0_supply_open rec + token0_earnings rec
      /\ token1_supply_close rec
         = token1_supply_open rec + token1_earnings rec
      /\ token0_debt_close rec
         = last_token0_debt st * exp (b0 * 1 / (36525 / 100)) ^ S i
      /\ token1_debt_close rec
         = last_token1_debt st * exp (b1 * 1 / (36525 / 100)) ^ S i.
Proof.
  induction todo as [|row todo IH]; intros st recs Hst Hloop i rec Hrec.
  - injection Hloop as <-. destruct i; discriminate Hrec.
  - cbn [loop] in Hloop.
    apply bind_ok in Hloop. destruct Hloop as ([st' rec0] & Hepoch & Hloop).
    apply bind_ok in Hloop. destruct Hloop as (recs' & Hloop & Hrecs).
    injection Hrecs as <-.
    apply (epoch_hodl_inv _ _ _ _ _ _ _ _ _ _ _ Hst Hclass) in Hepoch.
    destruct Hepoch as (c0 & c1 & Hc0 & Hc1 & Hst' & Htr & Hmeta & Hs0 & Hs1
                        & Hd0 & Hd1 & Hl0 & Hl1 & _).
    rewrite Hb0 in Hc0. rewrite Hb1 in Hc1.
    injection Hc0 as <-. injection Hc1 as <-.
    destruct i as [|i]; cbn [nth_error] in Hrec.
    + injection Hrec as <-. rewrite Hd0, Hd1.
      repeat split; try assumption; cbn [pow]; ring.
    + destruct (IH st' recs' Hst' Hloop i rec Hrec)
        as (Ht & Hm & Hr0 & Hr1 & He0 & He1).
      repeat split; try assumption.
      * rewrite He0, Hl0, Hd0. cbn [pow]. ring.
      * rewrite He1, Hl1, Hd1. cbn [pow]. ring.
Qed.

End PassiveRun.

(** * Properties of the scenario tables *)

Section ScenarioTables.

Import Frame Generators.

Lemma date_range_from_sorted (n start : nat) :
  StronglySorted Z.lt
    (map (fun i => (date_2021_01_01 + Z.of_nat i)%Z) (seq start n)).
Proof.
  revert start. induction n as [|n IH]; intros start; cbn [seq map].
  - constructor.
  - constructor; [apply IH|].
    apply Forall_map, Forall_forall. intros i Hi.
    apply in_seq in Hi. lia.
Qed.

Lemma rows_frame_of_map_fst (cols : list string) (data : list (Z * list R)) :
  map fst (rows (Scenarios.frame_of cols data)) = map fst data.
Proof.
  unfold Scenarios.frame_of; cbn [rows]. rewrite map_map. reflexivity.
Qed.

Lemma initialize_price_dataframe_rows
    (n_days : nat) (token0_price_initial token1_price_initial : R)
    (start_date : string) :
  let df :=
    initialize_price_dataframe n_days token0_price_initial
      token1_price_initial start_date in
  List.length (rows df) = n_days
  /\ map fst (rows df) = date_range n_days
  /\ dates_increasing df
  /\ Forall (fun dr : Z * (string -> R) =>
               snd dr "token0_price"%string = 1
               /\ snd dr "token1_price"%string = token1_price_initial)
       (rows df).
Proof.
  intros df. subst df. unfold initialize_price_dataframe.
  split.
  { unfold Scenarios.frame_of; cbn [rows].
    unfold date_range. now rewrite !length_map, length_seq. }
  split.
  { rewrite rows_frame_of_map_fst, map_map; cbn [fst]. now rewrite map_id. }
  split.
  { unfold dates_increasing.
    rewrite rows_frame_of_map_fst, map_map; cbn [fst]. rewrite map_id.
    apply date_range_from_sorted. }
  unfold Scenarios.frame_of; cbn [rows].
  apply Forall_map, Forall_map, Forall_forall. intros d _.
  split; reflexivity.
Qed.

(** X13: [initialize_price_dataframe] returns a table of [n_days] rows
    dated by consecutive days from 2021-01-01, whatever [start_date] is,
    with the columns token0_price and token1_price; token0_price is 1 on
    every row, whatever [token0_price_initial] is, and token1_price is
    [token1_price_initial]. *)
Theorem initialized_frame_ignores_token0_and_start
    (n_days : nat) (token0_price_initial token1_price_initial : R)
    (start_date : string) :
  let df :=
    initialize_price_dataframe n_days token0_price_initial
      token1_price_initial start_date in
  columns df = ["token0_price"; "token1_price"]%string
  /\ List.length (rows df) = n_days
  /\ map fst (rows df) = date_range n_days
  /\ dates_increasing df
  /\ Forall (fun dr : Z * (string -> R) =>
               snd dr "token0_price"%string = 1
               /\ snd dr "token1_price"%string = token1_price_initial)
       (rows df)
  /\ df = initialize_price_dataframe n_days 1 token1_price_initial
            "2021-01-01".
Proof.
  intros df. subst df.
  destruct (initialize_price_dataframe_rows n_days token0_price_initial
              token1_price_initial start_date) as (H1 & H2 & H3 & H4).
  repeat split; assumption.
Qed.

End ScenarioTables.

Section FlatScenario.

Import Frame Simulation Generators.

Lemma no_price_change_example_is_flat (n_days : nat)
    (token0_price token1_price reward_price : R) :
  reward_price <> 0 ->
  flat_table (create_no_price_change_example n_days token0_price token1_price)
    (zero_apy_keywords reward_price) 1 token1_price
  /\ dates_increasing
       (create_no_price_change_example n_days token0_price token1_price).
Proof.
  intros Hrp.
  destruct (initialize_price_dataframe_rows n_days token0_price
              token1_price "2021-01-01")
    as (_ & _ & Hdates & Hall).
  split; [|exact Hdates].
  split; [reflexivity|]. split; [reflexivity|].
  eapply Forall_impl; [|exact Hall].
  intros dr [H0 H1]. repeat split; try assumption.
Qed.

End FlatScenario.

(** X14: over the table of [create_no_price_change_example] for at least
    one day, a passive run with the reward price and zero APYs passed as
    keyword arguments returns one record per day, each with the closing
    supplies and debts of the position opened at the prices 1 and
    [token1_price] (not at the [token0_price] asked for), [iloss = 0] and
    no trade event. *)
Theorem no_price_change_example_run
    (n : nat) (token0_price token1_price reward_price : R)
    (rewards_cls : Rewards.RewardsStrategy)
    (initial_cap leverage fee_gas fee_swap a : R)
    (Ht1 : 0 < token1_price) (Hrp : reward_price <> 0)
    (Hcap : 0 < initial_cap) (Hfs : fee_swap < 1)
    (HL : leverage = 1 \/ 2 <= leverage)
    (Hsell : Rewards._rewards_sell_amount rewards_cls = Rewards.VFloat a) :
  exists s0 s1 d0 d1 recs,
    Core.add_liquidity initial_cap leverage (1, token1_price) fee_swap fee_gas
    = Ok ((s0, s1), (d0, d1), fee_gas * open_transactions leverage)
    /\ Simulation.simulate
         (Generators.create_no_price_change_example (S n) token0_price
            token1_price)
         Trading.HODLStrategy rewards_cls initial_cap leverage fee_gas
         fee_swap (zero_apy_keywords reward_price) true
       = Ok recs
    /\ List.length recs = S n
    /\ forall (i : nat) (rec : Simulation.EpochRecord),
         nth_error recs i = Some rec ->
         Simulation.token0_supply_close rec = s0
         /\ Simulation.token1_supply_close rec = s1
         /\ Simulation.token0_debt_close rec = d0
         /\ Simulation.token1_debt_close rec = d1
         /\ Simulation.iloss rec = 0
         /\ Simulation.trade_event rec = false.
Proof.
  destruct (no_price_change_example_is_flat (S n) token0_price token1_price
              reward_price Hrp) as [Hflat Hdates].
  assert (Hc : 0 <= initial_cap * (1 - fee_swap)).
  { apply Rmult_le_pos; lra. }
  destruct (simulate_flat
              (Generators.create_no_price_change_example (S n) token0_price
                 token1_price)
              rewards_cls initial_cap leverage fee_gas fee_swap
              (zero_apy_keywords reward_price) 1 token1_price a)
    as (s0 & s1 & d0 & d1 & recs & Hopen & _ & Hsim & Hlen & Hrecs);
    try assumption; try reflexivity; try lra.
  { discriminate. }
  exists s0, s1, d0, d1, recs.
  split; [exact Hopen|]. split; [exact Hsim|]. split.
  - rewrite Hlen. unfold Generators.create_no_price_change_example.
    now destruct (initialize_price_dataframe_rows (S n) token0_price
                    token1_price "2021-01-01")
      as (-> & _).
  - intros i rec Hnth.
    destruct (Hrecs i rec Hnth)
      as (_ & _ & H0 & H1 & H2 & H3 & H4 & H5 & _).
    now repeat split.
Qed.

Lemma no_price_change_example_run_witness :
  exists s0 s1 d0 d1 recs,
    Core.add_liquidity 100 3 (1, 1 / 10) (3 / 1000) 0
    = Ok ((s0, s1), (d0, d1), 0 * open_transactions 3)
    /\ Simulation.simulate
         (Generators.create_no_price_change_example 3 2 (1 / 10))
         Trading.HODLStrategy Scenarios.sell_all 100 3 0 (3 / 1000)
         (zero_apy_keywords 1) true
       = Ok recs
    /\ List.length recs = 3%nat
    /\ forall (i : nat) (rec : Simulation.EpochRecord),
         nth_error recs i = Some rec ->
         Simulation.token0_supply_close rec = s0
         /\ Simulation.token1_supply_close rec = s1
         /\ Simulation.token0_debt_close rec = d0
         /\ Simulation.token1_debt_close rec = d1
         /\ Simulation.iloss rec = 0
         /\ Simulation.trade_event rec = false.
Proof.
  apply (no_price_change_example_run 2 2 (1 / 10) 1 Scenarios.sell_all
           100 3 0 (3 / 1000) 1); try lra; reflexivity.
Defined.

(** * Further properties of whole runs *)

(** X15: in a returning passive run over increasing dates with a selling
    reward strategy and borrow APYs [b0], [b1] given as keyword arguments
    only, no record has a trade event or strategy metadata, every record
    closes on the supplies it opened with plus the trading-fee earnings,
    and the debt of the opened position compounds daily: record [i] (from
    0) closes with [d * exp (b / 365.25) ^ (i + 1)] of each token. *)
Theorem passive_run_compounds_debt
    (df : Frame.DataFrame) (rewards_cls : Rewards.RewardsStrategy)
    (initial_cap leverage fee_gas fee_swap b0 b1 : R)
    (ov : Simulation.Overrides) (recs : list Simulation.EpochRecord)
    (Hclass : Rewards.rewards_class_of rewards_cls
              = Rewards.SellRewardsStrategy)
    (Hb0 : Simulation.apy_borrow_token0 ov = Some b0)
    (Hb1 : Simulation.apy_borrow_token1 ov = Some b1)
    (Hcol0 : Frame.has_column df "apy_borrow_token0" = false)
    (Hcol1 : Frame.has_column df "apy_borrow_token1" = false)
    (Hprices : positive_prices df) (Hreward : usable_reward_price df ov)
    (Hdates : dates_increasing df)
    (Hrun : Simulation.simulate df Trading.HODLStrategy rewards_cls
              initial_cap leverage fee_gas fee_swap ov true = Ok recs) :
  exists dr rest supply d0 d1 fees_open,
    Frame.rows df = dr :: rest
    /\ Core.add_liquidity initial_cap leverage
         (snd dr "token0_price"%string, snd dr "token1_price"%string)
         fee_swap fee_gas
       = Ok (supply, (d0, d1), fees_open)
    /\ forall (i : nat) (rec : Simulation.EpochRecord),
         nth_error recs i = Some rec ->
         Simulation.trade_event rec = false
         /\ Simulation.strategy_metadata rec = []
         /\ Simulation.token0_supply_close rec
            = Simulation.token0_supply_open rec
              + Simulation.token0_earnings rec
         /\ Simulation.token1_supply_close rec
            = Simulation.token1_supply_open rec
              + Simulation.token1_earnings rec
         /\ Simulation.token0_debt_close rec
            = d0 * exp (b0 * 1 / (36525 / 100)) ^ S i
         /\ Simulation.token1_debt_close rec
            = d1 * exp (b1 * 1 / (36525 / 100)) ^ S i.
Proof.
  apply simulate_ok_inv in Hrun.
  destruct Hrun as (dr & rest & supply & [d0 d1] & fo & Hrows & _ & _ & _
                    & Hopen & Hloop).
  exists dr, rest, supply, d0, d1, fo.
  split; [exact Hrows|]. split; [exact Hopen|].
  intros i rec Hrec.
  eapply (loop_hodl _ rewards_cls initial_cap leverage fee_swap ov _ b0 b1
            Hb0 Hb1 Hclass) in Hloop; [|reflexivity|exact Hrec].
  exact Hloop.
Qed.

Lemma passive_run_compounds_debt_witness :
  exists recs dr rest supply d0 d1 fees_open,
    Simulation.simulate
      (Generators.create_no_price_change_example 3 1 (1 / 10))
      Trading.HODLStrategy Scenarios.sell_all 100 3 0 (3 / 1000)
      (Simulation.mkOverrides (Some 1) (Some 0) (Some 0) (Some (1 / 10))
         (Some (1 / 20)))
      true = Ok recs
    /\ Frame.rows (Generators.create_no_price_change_example 3 1 (1 / 10))
       = dr :: rest
    /\ Core.add_liquidity 100 3
         (snd dr "token0_price"%string, snd dr "token1_price"%string)
         (3 / 1000) 0
       = Ok (supply, (d0, d1), fees_open)
    /\ forall (i : nat) (rec : Simulation.EpochRecord),
         nth_error recs i = Some rec ->
         Simulation.trade_event rec = false
         /\ Simulation.strategy_metadata rec = []
         /\ Simulation.token0_supply_close rec
            = Simulation.token0_supply_open rec
              + Simulation.token0_earnings rec
         /\ Simulation.token1_supply_close rec
            = Simulation.token1_supply_open rec
              + Simulation.token1_earnings rec
         /\ Simulation.token0_debt_close rec
            = d0 * exp (1 / 10 * 1 / (36525 / 100)) ^ S i
         /\ Simulation.token1_debt_close rec
            = d1 * exp (1 / 20 * 1 / (36525 / 100)) ^ S i.
Proof.
  set (ov := Simulation.mkOverrides (Some 1) (Some 0) (Some 0)
               (Some (1 / 10)) (Some (1 / 20))).
  assert (Hdates : dates_increasing
                     (Generators.create_no_price_change_example 3 1 (1 / 10)))
    by (repeat constructor).
  assert (Hquiet : quiet_table
                     (Generators.create_no_price_change_example 3 1 (1 / 10))
                     ov).
  { split; [reflexivity|]. split; [reflexivity|].
    repeat constructor; cbn; lra. }
  destruct (simulate_hodl_quiet
              (Generators.create_no_price_change_example 3 1 (1 / 10))
              Scenarios.sell_all 100 3 0 (3 / 1000) ov 1 (1 / 10) (1 / 20)
              eq_refl eq_refl eq_refl Hquiet Hdates)
    as (recs & Hsim & _); [discriminate|right; lra|].
  exists recs.
  destruct (passive_run_compounds_debt
              (Generators.create_no_price_change_example 3 1 (1 / 10))
              Scenarios.sell_all 100 3 0 (3 / 1000) (1 / 10) (1 / 20)
              ov recs eq_refl eq_refl eq_refl eq_refl eq_refl)
    as (dr & rest & supply & e0 & e1 & fo & Hr & Ho & Hall).
  - repeat constructor; cbn; lra.
  - split; [intros H; injection H; lra|].
    repeat constructor; intros H; discriminate H.
  - exact Hdates.
  - exact Hsim.
  - exists dr, rest, supply, e0, e1, fo.
    split; [exact Hsim|]. split; [exact Hr|]. split; [exact Ho|exact Hall].
Defined.

Section ImpermanentLoss.

Import Frame Simulation.

Lemma iloss_not_positive (x : R) :
  0 < x ->
  2 * (sqrt x / (1 + x)) - 1 <= 0
  /\ (2 * (sqrt x / (1 + x)) - 1 = 0 <-> x = 1).
Proof.
  intros Hx.
  assert (Hs : 0 < sqrt x) by now apply sqrt_lt_R0.
  assert (Hsq : sqrt x * sqrt x = x) by (apply sqrt_sqrt; lra).
  set (s := sqrt x) in *. clearbody s. subst x.
  assert (Heq : 2 * (s / (1 + s * s)) - 1
                = - ((1 - s) * (1 - s) * / (1 + s * s))).
  { field. nra. }
  assert (Hinv : 0 < / (1 + s * s)) by (apply Rinv_0_lt_compat; nra).
  assert (Hq : 0 <= (1 - s) * (1 - s) * / (1 + s * s)).
  { apply Rmult_le_pos; [apply (Rle_0_sqr (1 - s))|lra]. }
  rewrite Heq. set (i := / (1 + s * s)) in *. clearbody i.
  set (q := (1 - s) * (1 - s) * i) in *.
  split; [lra|]. split.
  - intros H0.
    assert (H1 : (1 - s) * (1 - s) = 0).
    { apply Rmult_eq_reg_r with i; [|lra]. subst q. lra. }
    assert (H2 : s = 1) by nra.
    rewrite H2. ring.
  - intros H1. assert (H2 : s = 1) by nra. subst q. rewrite H2. ring.
Qed.

End ImpermanentLoss.

(** X16: in a returning run over positive prices and increasing dates
    the [iloss] of every record is at most zero, and it is zero exactly
    on the rows whose price ratio token1 / token0 is the ratio of the
    first row. *)
Theorem iloss_is_never_positive
    (df : Frame.DataFrame) (strategy : Trading.TradingStrategy)
    (rewards_cls : Rewards.RewardsStrategy)
    (initial_cap leverage fee_gas fee_swap : R) (ov : Simulation.Overrides)
    (open_on_start : bool) (recs : list Simulation.EpochRecord)
    (Hprices : positive_prices df) (Hdates : dates_increasing df)
    (Hrun : Simulation.simulate df strategy rewards_cls initial_cap leverage
              fee_gas fee_swap ov open_on_start = Ok recs) :
  exists dr0 rest,
    Frame.rows df = dr0 :: rest
    /\ forall (i : nat) (rec : Simulation.EpochRecord)
              (dr : Z * (string -> R)),
         nth_error recs i = Some rec ->
         nth_error (Frame.rows df) i = Some dr ->
         Simulation.iloss rec <= 0
         /\ (Simulation.iloss rec = 0
             <-> snd dr "token1_price"%string / snd dr "token0_price"%string
                 = snd dr0 "token1_price"%string
                   / snd dr0 "token0_price"%string).
Proof.
  apply simulate_ok_inv in Hrun.
  destruct Hrun as (dr0 & rest & supply & debt & fo & Hrows & _ & _ & _ & _
                    & Hloop).
  exists dr0, rest. split; [exact Hrows|].
  intros i rec dr Hrec Hdr.
  apply loop_records in Hloop.
  pose proof (nth_error_iterrows_prepare df ov fee_gas i dr Hdr) as Hrow.
  destruct (Forall2_nth_error _ _ _ Hloop i _ rec Hrow Hrec)
    as (st0 & st1 & Hepoch).
  apply epoch_ok_fields in Hepoch.
  destruct Hepoch as (p0 & p1 & Hp0 & Hp1 & _ & Hiloss & _).
  apply getitem_ok in Hp0, Hp1. cbn [Frame.cells] in Hp0, Hp1.
  destruct Hp0 as [_ ->], Hp1 as [_ ->].
  rewrite prepared_token0_price, prepared_token1_price in Hiloss.
  cbn [Simulation.ratio_initial] in Hiloss.
  assert (Hpos0 : 0 < snd dr0 "token0_price"%string
                  /\ 0 < snd dr0 "token1_price"%string).
  { unfold positive_prices in Hprices. rewrite Hrows in Hprices.
    now apply Forall_inv in Hprices. }
  assert (Hpos : 0 < snd dr "token0_price"%string
                 /\ 0 < snd dr "token1_price"%string).
  { unfold positive_prices in Hprices.
    rewrite Forall_forall in Hprices. apply Hprices.
    eapply nth_error_In. exact Hdr. }
  set (r0 := snd dr0 "token1_price"%string / snd dr0 "token0_price"%string)
    in *.
  set (r := snd dr "token1_price"%string / snd dr "token0_price"%string) in *.
  assert (Hr0 : 0 < r0) by (apply Rdiv_lt_0_compat; lra).
  assert (Hr : 0 < r) by (apply Rdiv_lt_0_compat; lra).
  assert (Hx : 0 < r0 / r) by (apply Rdiv_lt_0_compat; lra).
  destruct (iloss_not_positive (r0 / r) Hx) as [Hle Hiff].
  rewrite Hiloss. split; [exact Hle|].
  rewrite Hiff. split; intros H.
  - apply Rmult_eq_reg_r with (/ r); [|apply Rinv_neq_0_compat; lra].
    unfold Rdiv in H. rewrite H. field. lra.
  - rewrite H. field. lra.
Qed.

Lemma iloss_is_never_positive_witness :
  exists recs dr0 rest,
    Simulation.simulate Scenarios.jump_three_days
      (Trading.Rebalancing Scenarios.unlevered_rebalancer) Scenarios.sell_all
      100 1 0 0 Scenarios.zero_borrow true = Ok recs
    /\ Frame.rows Scenarios.jump_three_days = dr0 :: rest
    /\ forall (i : nat) (rec : Simulation.EpochRecord)
              (dr : Z * (string -> R)),
         nth_error recs i = Some rec ->
         nth_error (Frame.rows Scenarios.jump_three_days) i = Some dr ->
         Simulation.iloss rec <= 0
         /\ (Simulation.iloss rec = 0
             <-> snd dr "token1_price"%string / snd dr "token0_price"%string
                 = snd dr0 "token1_price"%string
                   / snd dr0 "token0_price"%string).
Proof.
  destruct jump_three_days_is_quiet as (Hquiet & Hdates & Hself).
  destruct (simulate_quiet Scenarios.sell_all 100 0 0 Scenarios.zero_borrow
              1 0 0 eq_refl eq_refl eq_refl Scenarios.jump_three_days
              Scenarios.unlevered_rebalancer Hquiet Hdates)
    as (recs & Hsim & _); try assumption; try lra.
  { discriminate. }
  exists recs.
  destruct (iloss_is_never_positive Scenarios.jump_three_days
              (Trading.Rebalancing Scenarios.unlevered_rebalancer)
              Scenarios.sell_all 100 1 0 0 Scenarios.zero_borrow true recs)
    as (dr0 & rest & Hrows & Hall).
  - repeat constructor; cbn; lra.
  - exact Hdates.
  - exact Hsim.
  - exists dr0, rest. split; [exact Hsim|]. split; [exact Hrows|exact Hall].
Defined.

(** * What stops a run before or inside the loop *)

Section Stops.

Import Frame Simulation.

Lemma Forall2_In_l {A B : Type} (P : A -> B -> Prop) (l : list A)
    (l' : list B) (a : A) :
  Forall2 P l l' -> In a l -> exists b, In b l' /\ P a b.
Proof.
  induction 1 as [|x y l l' Hxy _ IH]; intros Hin; [contradiction|].
  destruct Hin as [<-|Hin].
  - exists y. split; [now left|exact Hxy].
  - destruct (IH Hin) as (b & Hb & Hab). exists b. split; [now right|exact Hab].
Qed.

Lemma column_first_prepare_missing (df : DataFrame) (ov : Overrides)
    (fee_gas : R) (c : string) :
  (c = "token0_price" \/ c = "token1_price")%string ->
  has_column df c = false ->
  column_first (prepare df ov fee_gas) c = Raise KeyError.
Proof.
  intros Hc Hmiss. unfold column_first.
  rewrite has_column_prepare, Hmiss.
  now destruct Hc as [-> | ->].
Qed.

End Stops.

(** X17: a run asked not to open its position on start
    ([open_on_start = False]) over a table with both price columns and
    at least one row raises [UnboundLocalError] before the loop, whatever
    the strategies and the other arguments are. *)
Theorem run_without_opening_is_unbound
    (df : Frame.DataFrame) (strategy : Trading.TradingStrategy)
    (rewards_cls : Rewards.RewardsStrategy)
    (initial_cap leverage fee_gas fee_swap : R) (ov : Simulation.Overrides)
    (dr : Z * (string -> R)) (rest : list (Z * (string -> R)))
    (Hc0 : Frame.has_column df "token0_price" = true)
    (Hc1 : Frame.has_column df "token1_price" = true)
    (Hrows : Frame.rows df = dr :: rest)
    (Hp0 : snd dr "token0_price"%string <> 0) :
  Simulation.simulate df strategy rewards_cls initial_cap leverage fee_gas
    fee_swap ov false = Raise UnboundLocalError.
Proof.
  unfold Simulation.simulate, Simulation.simulate_init.
  rewrite (column_first_prepare df ov fee_gas _ dr rest Hc0 Hrows).
  rewrite (column_first_prepare df ov fee_gas _ dr rest Hc1 Hrows).
  reflexivity.
Qed.

Lemma run_without_opening_is_unbound_witness :
  Simulation.simulate Scenarios.flat_two_days Trading.HODLStrategy
    Scenarios.sell_all 100 1 0 0 Scenarios.zero_borrow false
  = Raise UnboundLocalError.
Proof.
  apply (run_without_opening_is_unbound Scenarios.flat_two_days
           Trading.HODLStrategy Scenarios.sell_all 100 1 0 0
           Scenarios.zero_borrow (0%Z, Scenarios.cell Scenarios.all_columns
                                         [1; 1; 1; 0; 0; 0; 0])
           [(1%Z, Scenarios.cell Scenarios.all_columns
                    [1; 1; 1; 0; 0; 0; 0])]).
  - reflexivity.
  - reflexivity.
  - reflexivity.
  - cbn. lra.
Defined.

(** X18: over a table with at least one row, a missing token0_price
    column, or a missing token1_price column beside a token0_price
    column, makes the run raise [KeyError] before the loop, whatever
    [open_on_start] is. *)
Theorem missing_price_column_is_a_key_error
    (df : Frame.DataFrame) (strategy : Trading.TradingStrategy)
    (rewards_cls : Rewards.RewardsStrategy)
    (initial_cap leverage fee_gas fee_swap : R) (ov : Simulation.Overrides)
    (open_on_start : bool)
    (dr : Z * (string -> R)) (rest : list (Z * (string -> R)))
    (Hrows : Frame.rows df = dr :: rest)
    (Hmiss : Frame.has_column df "token0_price" = false
             \/ Frame.has_column df "token1_price" = false) :
  Simulation.simulate df strategy rewards_cls initial_cap leverage fee_gas
    fee_swap ov open_on_start = Raise KeyError.
Proof.
  unfold Simulation.simulate, Simulation.simulate_init.
  destruct (Frame.has_column df "token0_price") eqn:Hc0.
  - destruct Hmiss as [Hmiss|Hmiss]; [discriminate|].
    rewrite (column_first_prepare df ov fee_gas _ dr rest Hc0 Hrows).
    rewrite (column_first_prepare_missing df ov fee_gas "token1_price");
      [reflexivity|now right|exact Hmiss].
  - rewrite (column_first_prepare_missing df ov fee_gas "token0_price");
      [reflexivity|now left|exact Hc0].
Qed.

Lemma missing_price_column_is_a_key_error_witness :
  Simulation.simulate
    (Scenarios.frame_of ["token0_price"; "reward_token_price"]%string
       [(0%Z, [1; 1])])
    Trading.HODLStrategy Scenarios.sell_all 100 1 0 0 Scenarios.zero_borrow
    true
  = Raise KeyError.
Proof.
  apply (missing_price_column_is_a_key_error
           (Scenarios.frame_of ["token0_price"; "reward_token_price"]%string
              [(0%Z, [1; 1])])
           Trading.HODLStrategy Scenarios.sell_all 100 1 0 0
           Scenarios.zero_borrow true
           (0%Z, Scenarios.cell ["token0_price"; "reward_token_price"]%string
                   [1; 1])
           []).
  - reflexivity.
  - right. reflexivity.
Defined.

(** X19: a table with a row dated one day before its first row cannot be
    run to the end: [days_elapsed] is zero on that row, so whatever the
    arguments are the run raises and returns no record. *)
Theorem row_a_day_before_the_first_stops_the_run
    (df : Frame.DataFrame) (strategy : Trading.TradingStrategy)
    (rewards_cls : Rewards.RewardsStrategy)
    (initial_cap leverage fee_gas fee_swap : R) (ov : Simulation.Overrides)
    (open_on_start : bool)
    (dr0 dr : Z * (string -> R)) (rest : list (Z * (string -> R)))
    (Hrows : Frame.rows df = dr0 :: rest)
    (Hin : In dr rest)
    (Hdate : (fst dr = fst dr0 - 1)%Z) :
  exists e,
    Simulation.simulate df strategy rewards_cls initial_cap leverage fee_gas
      fee_swap ov open_on_start = Raise e.
Proof.
  destruct (Simulation.simulate df strategy rewards_cls initial_cap leverage
              fee_gas fee_swap ov open_on_start) as [recs|e] eqn:Hrun;
    [exfalso|now exists e].
  apply simulate_ok_inv in Hrun.
  destruct Hrun as (dr0' & rest' & supply & debt & fo & Hrows' & _ & _ & _
                    & _ & Hloop).
  rewrite Hrows in Hrows'. injection Hrows' as <- <-.
  apply loop_records in Hloop.
  rewrite iterrows_prepare, Hrows in Hloop.
  apply (Forall2_In_l _ _ _
           (Frame.mkSeries (fst dr)
              (Frame.columns (Simulation.prepare df ov fee_gas))
              (prepared_cells df ov fee_gas (snd dr)))) in Hloop.
  - destruct Hloop as (rec & _ & st0 & st1 & Hepoch).
    apply epoch_ok_fields in Hepoch.
    destruct Hepoch as (p0 & p1 & _ & _ & Hdays & _).
    cbn [Frame.name Simulation.first_date] in Hdays. lia.
  - right.
    apply (in_map (fun dr1 : Z * (string -> R) =>
                     Frame.mkSeries (fst dr1)
                       (Frame.columns (Simulation.prepare df ov fee_gas))
                       (prepared_cells df ov fee_gas (snd dr1)))).
    exact Hin.
Qed.

Lemma row_a_day_before_the_first_stops_the_run_witness :
  exists e,
    Simulation.simulate
      (Scenarios.frame_of Scenarios.all_columns
         [(1%Z, [1; 1; 1; 0; 0; 0; 0]); (0%Z, [1; 1; 1; 0; 0; 0; 0])])
      Trading.HODLStrategy Scenarios.sell_all 100 1 0 0
      Scenarios.zero_borrow true
    = Raise e.
Proof.
  apply (row_a_day_before_the_first_stops_the_run
           (Scenarios.frame_of Scenarios.all_columns
              [(1%Z, [1; 1; 1; 0; 0; 0; 0]); (0%Z, [1; 1; 1; 0; 0; 0; 0])])
           Trading.HODLStrategy Scenarios.sell_all 100 1 0 0
           Scenarios.zero_borrow true
           (1%Z, Scenarios.cell Scenarios.all_columns [1; 1; 1; 0; 0; 0; 0])
           (0%Z, Scenarios.cell Scenarios.all_columns [1; 1; 1; 0; 0; 0; 0])
           [(0%Z, Scenarios.cell Scenarios.all_columns
                    [1; 1; 1; 0; 0; 0; 0])]).
  - reflexivity.
  - left. reflexivity.
  - reflexivity.
Defined.

(** * The books of a record *)

(** X20: the books of every record of a returning run over increasing
    dates balance, in exact arithmetic: the equity is the pool equity
    plus the unsold rewards and the cash less the fees, and the profit
    is the equity less the initial capital; where the pool has a value
    the debt ratio is the number debt over pool value; and where the
    pool has a value and an equity, the effective leverage and the debt
    ratio are numbers and the effective leverage is
    [1 / (1 - debt_ratio)]. *)
Theorem record_books_balance
    (df : Frame.DataFrame) (strategy : Trading.TradingStrategy)
    (rewards_cls : Rewards.RewardsStrategy)
    (initial_cap leverage fee_gas fee_swap : R) (ov : Simulation.Overrides)
    (open_on_start : bool) (recs : list Simulation.EpochRecord)
    (Hdates : dates_increasing df)
    (Hrun : Simulation.simulate df strategy rewards_cls initial_cap leverage
              fee_gas fee_swap ov open_on_start = Ok recs) :
  forall rec : Simulation.EpochRecord,
    In rec recs ->
    Simulation.equity_value rec
    = Simulation.pool_equity rec + Simulation.rewards_value rec
      + Simulation.cash_value rec - Simulation.fees_value rec
    /\ Simulation.profit_value rec + initial_cap
       = Simulation.equity_value rec
    /\ (Simulation.pool_value rec <> 0 ->
        Simulation.debt_ratio rec
        = Finite (Simulation.debt_value rec / Simulation.pool_value rec))
    /\ (Simulation.pool_value rec <> 0 ->
        Simulation.pool_equity rec <> 0 ->
        exists l d,
          Simulation.effective_leverage rec = Finite l
          /\ Simulation.debt_ratio rec = Finite d
          /\ l * (1 - d) = 1).
Proof.
  intros rec Hin.
  apply simulate_ok_inv in Hrun.
  destruct Hrun as (dr & rest & supply & debt & fo & _ & _ & _ & _ & _
                    & Hloop).
  apply loop_records in Hloop. apply Forall2_flip in Hloop.
  destruct (Forall2_In_l _ _ _ rec Hloop Hin)
    as (row & _ & st0 & st1 & Hepoch).
  apply epoch_ok_fields in Hepoch.
  destruct Hepoch as (p0 & p1 & _ & _ & _ & _ & _ & _ & Hpe & Hpos & Heq
                      & Hprofit & _ & Hdr & Hel & _).
  assert (Hsum : Simulation.debt_value rec + Simulation.pool_equity rec
                 = Simulation.pool_value rec) by (rewrite Hpe; ring).
  split; [rewrite Heq, Hpos, Hpe; ring|].
  split; [rewrite Hprofit; ring|].
  split.
  - intros Hpv. rewrite Hdr, Hsum. now apply np_divide_finite.
  - intros Hpv Hne. rewrite Hel, Hdr, Hsum.
    rewrite !np_divide_finite by assumption.
    eexists _, _. split; [reflexivity|]. split; [reflexivity|].
    replace (Simulation.debt_value rec)
      with (Simulation.pool_value rec - Simulation.pool_equity rec)
      by (rewrite <- Hsum; ring).
    field. split; assumption.
Qed.

Lemma record_books_balance_witness :
  exists recs,
    Simulation.simulate Scenarios.flat_two_days Trading.HODLStrategy
      Scenarios.sell_all 100 1 0 0 Scenarios.zero_borrow true = Ok recs
    /\ forall rec : Simulation.EpochRecord,
         In rec recs ->
         Simulation.equity_value rec
         = Simulation.pool_equity rec + Simulation.rewards_value rec
           + Simulation.cash_value rec - Simulation.fees_value rec
         /\ Simulation.profit_value rec + 100
            = Simulation.equity_value rec
         /\ (Simulation.pool_value rec <> 0 ->
             Simulation.debt_ratio rec
             = Finite (Simulation.debt_value rec / Simulation.pool_value rec))
         /\ (Simulation.pool_value rec <> 0 ->
             Simulation.pool_equity rec <> 0 ->
             exists l d,
               Simulation.effective_leverage rec = Finite l
               /\ Simulation.debt_ratio rec = Finite d
               /\ l * (1 - d) = 1).
Proof.
  destruct flat_two_days_is_flat as (Hflat & _ & Hdates).
  destruct (simulate_flat Scenarios.flat_two_days Scenarios.sell_all
              100 1 0 0 Scenarios.zero_borrow 1 1 1)
    as (s0 & s1 & d0 & d1 & recs & _ & _ & Hsim & _);
    try lra; try reflexivity; try assumption.
  { discriminate. }
  exists recs. split; [exact Hsim|].
  exact (record_books_balance Scenarios.flat_two_days Trading.HODLStrategy
           Scenarios.sell_all 100 1 0 0 Scenarios.zero_borrow true recs
           Hdates Hsim).
Defined.

(** * What a run reads of its table *)

Section SameReads.

Import Frame Simulation.

Lemma bind_ext {A B : Type} (m : result A) (k k' : A -> result B) :
  (forall a, k a = k' a) -> bind m k = bind m k'.
Proof. intros H. destruct m; cbn [bind]; [apply H|reflexivity]. Qed.

Lemma Forall2_rev {A B : Type} (P : A -> B -> Prop) (l : list A)
    (l' : list B) :
  Forall2 P l l' -> Forall2 P (rev l) (rev l').
Proof.
  induction 1 as [|x y l l' Hxy _ IH]; cbn [rev]; [constructor|].
  apply Forall2_app; [exact IH|]. constructor; [exact Hxy|constructor].
Qed.

Lemma Forall2_filter {A B : Type} (P : A -> B -> Prop) (f : A -> bool)
    (g : B -> bool) (l : list A) (l' : list B) :
  (forall a b, P a b -> f a = g b) ->
  Forall2 P l l' -> Forall2 P (filter f l) (filter g l').
Proof.
  intros Hfg. induction 1 as [|x y l l' Hxy _ IH]; cbn [filter];
    [constructor|].
  rewrite (Hfg x y Hxy). destruct (g y); [constructor|]; assumption.
Qed.

Lemma execute_same_last (strategy : Trading.TradingStrategy)
    (token_supply token_debt : pair2) (df df' : DataFrame) (cash : R) :
  same_last df df' ->
  Trading.execute strategy token_supply token_debt df cash
  = Trading.execute strategy token_supply token_debt df' cash.
Proof.
  unfold same_last. intros H.
  destruct strategy as [|self]; [reflexivity|].
  cbn [Trading.execute]. unfold Trading.RebalanceStrategy_execute.
  destruct (iloc_last df) as [s|e], (iloc_last df') as [s'|e'];
    try contradiction; cbn [bind].
  - destruct H as (_ & H0 & H1 & _). now rewrite H0, H1.
  - now subst e'.
Qed.

Variables (pdf pdf' : DataFrame).
Variables (ov ov' : Overrides).
Hypothesis Hb0 : apy_borrow_token0 ov = apy_borrow_token0 ov'.
Hypothesis Hb1 : apy_borrow_token1 ov = apy_borrow_token1 ov'.
Hypothesis Hc0 :
  has_column pdf "token0_price" = has_column pdf' "token0_price".
Hypothesis Hc1 :
  has_column pdf "token1_price" = has_column pdf' "token1_price".
Hypothesis Hrows :
  Forall2 (fun dr dr' => same_reads (series_of pdf dr) (series_of pdf' dr'))
    (rows pdf) (rows pdf').

Lemma same_last_up_to (idx : Z) : same_last (up_to pdf idx) (up_to pdf' idx).
Proof.
  unfold same_last, iloc_last, up_to; cbn [rows].
  assert (H : Forall2
                (fun dr dr' =>
                   same_reads (series_of pdf dr) (series_of pdf' dr'))
                (rev (filter (fun dr : Z * (string -> R) =>
                                (fst dr <=? idx)%Z) (rows pdf)))
                (rev (filter (fun dr : Z * (string -> R) =>
                                (fst dr <=? idx)%Z) (rows pdf')))).
  { apply Forall2_rev, Forall2_filter; [|exact Hrows].
    intros a b (Hname & _). cbn [name series_of] in Hname.
    now rewrite Hname. }
  destruct H as [|x y l l' Hxy _]; [reflexivity|exact Hxy].
Qed.

Variable rewards_cls : Rewards.RewardsStrategy.
Variables (initial_cap leverage fee_swap : R).
Variable init : Initial.

Lemma epoch_same_reads (st : LoopState) (row row' : Series) :
  same_reads row row' ->
  epoch pdf rewards_cls initial_cap leverage fee_swap ov init st row
  = epoch pdf' rewards_cls initial_cap leverage fee_swap ov' init st row'.
Proof.
  intros (Hname & H0 & H1 & Hrp & Htf & Har & Hfg).
  unfold epoch. rewrite Hname, H0, H1, Hrp, Htf, Har, Hfg, Hb0, Hb1.
  apply bind_ext; intros p0.
  apply bind_ext; intros p1.
  apply bind_ext; intros rp.
  apply bind_ext; intros n1.
  apply bind_ext; intros n0.
  apply bind_ext; intros tf.
  apply bind_ext; intros ar.
  apply bind_ext; intros fg.
  unfold Util.iloss_amt; cbn zeta beta iota.
  apply bind_ext; intros rate0.
  apply bind_ext; intros rate1.
  apply bind_ext; intros [[[rem pool] cash] fees].
  apply bind_ext; intros pool'.
  now rewrite (execute_same_last _ _ _ _ _ _ (same_last_up_to (name row'))).
Qed.

Lemma loop_same_reads (todo todo' : list Series) :
  Forall2 same_reads todo todo' ->
  forall st : LoopState,
    loop pdf rewards_cls initial_cap leverage fee_swap ov init st todo
    = loop pdf' rewards_cls initial_cap leverage fee_swap ov' init st todo'.
Proof.
  induction 1 as [|row row' todo todo' Hrow _ IH]; intros st; [reflexivity|].
  cbn [loop]. rewrite (epoch_same_reads st row row' Hrow).
  apply bind_ext; intros [st' rec]. now rewrite IH.
Qed.

Lemma iterrows_same_reads : Forall2 same_reads (iterrows pdf) (iterrows pdf').
Proof.
  unfold iterrows. generalize Hrows. generalize (rows pdf) (rows pdf').
  induction 1 as [|dr dr' l l' Hdr _ IH]; cbn [map]; constructor;
    assumption.
Qed.

Lemma simulate_init_same_reads (strategy : Trading.TradingStrategy)
    (fee_gas : R) (open_on_start : bool) :
  simulate_init pdf strategy initial_cap leverage fee_gas fee_swap
    open_on_start
  = simulate_init pdf' strategy initial_cap leverage fee_gas fee_swap
      open_on_start.
Proof.
  unfold simulate_init, column_first, iloc_first.
  rewrite <- Hc0, <- Hc1.
  destruct Hrows as [|dr dr' l l' Hdr _].
  - reflexivity.
  - destruct Hdr as (Hname & H0 & H1 & _).
    unfold getitem in H0, H1.
    cbn [series_of labels cells name] in Hname, H0, H1.
    change (existsb (String.eqb "token0_price") (columns pdf))
      with (has_column pdf "token0_price") in H0.
    change (existsb (String.eqb "token0_price") (columns pdf'))
      with (has_column pdf' "token0_price") in H0.
    change (existsb (String.eqb "token1_price") (columns pdf))
      with (has_column pdf "token1_price") in H1.
    change (existsb (String.eqb "token1_price") (columns pdf'))
      with (has_column pdf' "token1_price") in H1.
    rewrite <- Hc0 in H0. rewrite <- Hc1 in H1.
    destruct (has_column pdf "token0_price"); [|reflexivity].
    injection H0 as ->. cbn [bind].
    destruct (has_column pdf "token1_price"); [|reflexivity].
    injection H1 as ->. cbn [bind series_of name].
    now rewrite Hname.
Qed.

End SameReads.

Section PreparedReads.

Import Frame Simulation.

Lemma Forall2_map_both {A B C D : Type} (P : C -> D -> Prop) (f : A -> C)
    (g : B -> D) (l : list A) (l' : list B) :
  Forall2 (fun a b => P (f a) (g b)) l l' -> Forall2 P (map f l) (map g l').
Proof. induction 1; cbn [map]; constructor; assumption. Qed.

Lemma getitem_prepared_seen_reward_token_price (df : DataFrame)
    (ov : Overrides) (fee_gas : R) (d : Z) (cells : string -> R) :
  getitem
    (mkSeries d (columns (prepare df ov fee_gas))
       (prepared_cells df ov fee_gas cells))
    "reward_token_price"
  = match seen df "reward_token_price" (reward_token_price ov) cells with
    | Some v => Ok v
    | None => Raise KeyError
    end.
Proof.
  rewrite getitem_prepared, has_column_prepare, prepared_reward_token_price.
  cbn [String.eqb Ascii.eqb Bool.eqb andb]. rewrite ?orb_false_r.
  unfold seen.
  now destruct (has_column df "reward_token_price"), (reward_token_price ov).
Qed.

Lemma getitem_prepared_seen_apy_trading_fee (df : DataFrame)
    (ov : Overrides) (fee_gas : R) (d : Z) (cells : string -> R) :
  getitem
    (mkSeries d (columns (prepare df ov fee_gas))
       (prepared_cells df ov fee_gas cells))
    "apy_trading_fee"
  = match seen df "apy_trading_fee" (apy_trading_fee ov) cells with
    | Some v => Ok v
    | None => Raise KeyError
    end.
Proof.
  rewrite getitem_prepared, has_column_prepare, prepared_apy_trading_fee.
  cbn [String.eqb Ascii.eqb Bool.eqb andb]. rewrite ?orb_false_r.
  unfold seen.
  now destruct (has_column df "apy_trading_fee"), (apy_trading_fee ov).
Qed.

Lemma getitem_prepared_seen_apy_reward (df : DataFrame)
    (ov : Overrides) (fee_gas : R) (d : Z) (cells : string -> R) :
  getitem
    (mkSeries d (columns (prepare df ov fee_gas))
       (prepared_cells df ov fee_gas cells))
    "apy_reward"
  = match seen df "apy_reward" (apy_reward ov) cells with
    | Some v => Ok v
    | None => Raise KeyError
    end.
Proof.
  rewrite getitem_prepared, has_column_prepare, prepared_apy_reward.
  cbn [String.eqb Ascii.eqb Bool.eqb andb]. rewrite ?orb_false_r.
  unfold seen.
  now destruct (has_column df "apy_reward"), (apy_reward ov).
Qed.

Lemma has_price_column_prepare (df : DataFrame) (ov : Overrides)
    (fee_gas : R) (c : string) :
  (c = "token0_price" \/ c = "token1_price")%string ->
  has_column (prepare df ov fee_gas) c = has_column df c.
Proof.
  intros Hc. rewrite has_column_prepare.
  destruct Hc as [-> | ->]; cbn [String.eqb Ascii.eqb Bool.eqb andb];
    now rewrite ?orb_false_r.
Qed.

Lemma prepared_same_reads (df : DataFrame) (ov : Overrides)
    (df' : DataFrame) (ov' : Overrides) (fee_gas : R) :
  same_inputs df ov df' ov' ->
  Forall2
    (fun dr dr' =>
       same_reads (series_of (prepare df ov fee_gas) dr)
         (series_of (prepare df' ov' fee_gas) dr'))
    (rows (prepare df ov fee_gas)) (rows (prepare df' ov' fee_gas)).
Proof.
  intros (_ & _ & Hc0 & Hc1 & Hrows).
  rewrite !rows_prepare. apply Forall2_map_both.
  eapply Forall2_impl; [|exact Hrows].
  intros [d cells] [d' cells']; cbn [fst snd].
  intros (<- & H0 & H1 & Hrp & Htf & Har).
  unfold same_reads, series_of; cbn [fst snd name].
  split; [reflexivity|].
  rewrite !getitem_prepared_fee_gas.
  rewrite !getitem_prepared_seen_reward_token_price, Hrp.
  rewrite !getitem_prepared_seen_apy_trading_fee, Htf.
  rewrite !getitem_prepared_seen_apy_reward, Har.
  rewrite !getitem_prepared.
  rewrite !(has_price_column_prepare _ _ _ "token0_price") by now left.
  rewrite !(has_price_column_prepare _ _ _ "token1_price") by now right.
  rewrite !prepared_token0_price, !prepared_token1_price.
  rewrite Hc0, Hc1, H0, H1.
  repeat split.
Qed.

End PreparedReads.

(** X21: of a table with increasing dates a run reads the dates, the two
    price columns and, for the reward price, the trading-fee APY and the
    reward APY, the column when the table has it and the keyword argument
    otherwise; of the borrow APYs it reads the keyword arguments.  Two
    tables that agree on these give the same result with the same other
    arguments: the records when the run returns, the exception when it
    raises.  So borrow-APY, fee_gas, fee_swap and any further columns of
    the table are without effect, and so is a keyword argument whose
    column the table has. *)
Theorem run_reads_only_its_inputs
    (df df' : Frame.DataFrame) (ov ov' : Simulation.Overrides)
    (strategy : Trading.TradingStrategy)
    (rewards_cls : Rewards.RewardsStrategy)
    (initial_cap leverage fee_gas fee_swap : R) (open_on_start : bool)
    (Hdates : dates_increasing df) (Hsame : same_inputs df ov df' ov') :
  Simulation.simulate df strategy rewards_cls initial_cap leverage fee_gas
    fee_swap ov open_on_start
  = Simulation.simulate df' strategy rewards_cls initial_cap leverage fee_gas
      fee_swap ov' open_on_start.
Proof.
  pose proof (prepared_same_reads df ov df' ov' fee_gas Hsame) as Hrows.
  destruct Hsame as (Hb0 & Hb1 & Hc0 & Hc1 & _).
  unfold Simulation.simulate.
  rewrite (simulate_init_same_reads (Simulation.prepare df ov fee_gas)
             (Simulation.prepare df' ov' fee_gas)).
  - apply bind_ext; intros [init st].
    apply loop_same_reads; try assumption.
    now apply iterrows_same_reads.
  - now rewrite !has_price_column_prepare by (now left).
  - now rewrite !has_price_column_prepare by (now right).
  - exact Hrows.
Qed.

Lemma run_reads_only_its_inputs_witness :
  Simulation.simulate Scenarios.borrow_day Trading.HODLStrategy
    Scenarios.sell_all 100 3 (1 / 2) (3 / 1000) Scenarios.zero_borrow true
  = Simulation.simulate Scenarios.prices_only Trading.HODLStrategy
      Scenarios.sell_all 100 3 (1 / 2) (3 / 1000) (zero_apy_keywords 1) true.
Proof.
  apply (run_reads_only_its_inputs Scenarios.borrow_day Scenarios.prices_only
           Scenarios.zero_borrow (zero_apy_keywords 1)).
  { repeat constructor. }
  repeat split; try reflexivity.
  constructor; [|constructor].
  repeat split; reflexivity.
Defined.

(** * The benchmark of a run *)

Section Benchmark.

Import Frame Simulation.

Lemma add_liquidity_ok_supported (capital leverage : R) (prices : pair2)
    (fee_swap fee_gas : R) (out : pair2 * pair2 * R) :
  Core.add_liquidity capital leverage prices fee_swap fee_gas = Ok out ->
  leverage = 1 \/ 2 <= leverage.
Proof.
  intros H.
  destruct (Req_dec_T leverage 1) as [H1|H1]; [now left|].
  destruct (Rle_dec 2 leverage) as [H2|H2]; [now right|].
  rewrite add_liquidity_unsupported in H by lra. discriminate H.
Qed.

Lemma opened_supply_is_half_and_half
    (capital leverage p0 p1 fee_swap fee_gas : R) (supply debt : pair2)
    (fees : R) :
  0 < p0 -> 0 < p1 ->
  Core.add_liquidity capital leverage (p0, p1) fee_swap fee_gas
  = Ok (supply, debt, fees) ->
  leverage <> 0
  /\ fst supply = leverage * (capital * (1 - fee_swap)) / 2 / p0
  /\ snd supply = leverage * (capital * (1 - fee_swap)) / 2 / p1.
Proof.
  intros Hp0 Hp1 Hopen.
  pose proof (add_liquidity_ok_supported _ _ _ _ _ _ Hopen) as HL.
  destruct (add_liquidity_values capital leverage p0 p1 fee_swap fee_gas
              Hp0 Hp1 HL)
    as (s0 & s1 & d0 & d1 & Hval & Hbal & Hsum & _).
  rewrite Hval in Hopen. injection Hopen as <- _ _. cbn [fst snd].
  split; [lra|].
  split.
  - apply Rmult_eq_reg_l with p0; [|lra].
    replace (p0 * (leverage * (capital * (1 - fee_swap)) / 2 / p0))
      with (leverage * (capital * (1 - fee_swap)) / 2) by (field; lra).
    lra.
  - apply Rmult_eq_reg_l with p1; [|lra].
    replace (p1 * (leverage * (capital * (1 - fee_swap)) / 2 / p1))
      with (leverage * (capital * (1 - fee_swap)) / 2) by (field; lra).
    lra.
Qed.

End Benchmark.

(** X22: in a returning run over positive prices and increasing dates,
    the benchmark [position_hodl_dollars] of every record is the value,
    at the prices of its row, of the capital left after the swap fee held
    half in each token since the first row, whatever the leverage is:
    [initial_cap * (1 - fee_swap) / 2 * (p0 / p0_first + p1 / p1_first)]. *)
Theorem hodl_benchmark_is_half_and_half
    (df : Frame.DataFrame) (strategy : Trading.TradingStrategy)
    (rewards_cls : Rewards.RewardsStrategy)
    (initial_cap leverage fee_gas fee_swap : R) (ov : Simulation.Overrides)
    (open_on_start : bool) (recs : list Simulation.EpochRecord)
    (Hprices : positive_prices df) (Hdates : dates_increasing df)
    (Hrun : Simulation.simulate df strategy rewards_cls initial_cap leverage
              fee_gas fee_swap ov open_on_start = Ok recs) :
  exists dr0 rest,
    Frame.rows df = dr0 :: rest
    /\ forall (i : nat) (rec : Simulation.EpochRecord)
              (dr : Z * (string -> R)),
         nth_error recs i = Some rec ->
         nth_error (Frame.rows df) i = Some dr ->
         Simulation.position_hodl_dollars rec
         = initial_cap * (1 - fee_swap) / 2
           * (snd dr "token0_price"%string / snd dr0 "token0_price"%string
              + snd dr "token1_price"%string
                / snd dr0 "token1_price"%string).
Proof.
  apply simulate_ok_inv in Hrun.
  destruct Hrun as (dr0 & rest & supply & debt & fo & Hrows & _ & _ & _
                    & Hopen & Hloop).
  exists dr0, rest. split; [exact Hrows|].
  intros i rec dr Hrec Hdr.
  assert (Hpos0 : 0 < snd dr0 "token0_price"%string
                  /\ 0 < snd dr0 "token1_price"%string).
  { unfold positive_prices in Hprices. rewrite Hrows in Hprices.
    now apply Forall_inv in Hprices. }
  destruct Hpos0 as [Hq0 Hq1].
  destruct (opened_supply_is_half_and_half _ _ _ _ _ _ _ _ _ Hq0 Hq1 Hopen)
    as (HL & Hs0 & Hs1).
  apply loop_records in Hloop.
  pose proof (nth_error_iterrows_prepare df ov fee_gas i dr Hdr) as Hrow.
  destruct (Forall2_nth_error _ _ _ Hloop i _ rec Hrow Hrec)
    as (st0 & st1 & Hepoch).
  apply epoch_ok_fields in Hepoch.
  destruct Hepoch as (p0 & p1 & Hp0 & Hp1 & _ & _ & _ & _ & _ & _ & _ & _ & _
                      & _ & _ & Hhodl & _).
  apply getitem_ok in Hp0, Hp1. cbn [Frame.cells] in Hp0, Hp1.
  destruct Hp0 as [_ ->], Hp1 as [_ ->].
  rewrite prepared_token0_price, prepared_token1_price in Hhodl.
  cbn [Simulation.token0_supply_initial Simulation.token1_supply_initial]
    in Hhodl.
  rewrite Hhodl, Hs0, Hs1. field. repeat split; lra.
Qed.

Lemma hodl_benchmark_is_half_and_half_witness :
  exists recs dr0 rest,
    Simulation.simulate Scenarios.jump_three_days
      (Trading.Rebalancing Scenarios.unlevered_rebalancer) Scenarios.sell_all
      100 1 0 0 Scenarios.zero_borrow true = Ok recs
    /\ Frame.rows Scenarios.jump_three_days = dr0 :: rest
    /\ forall (i : nat) (rec : Simulation.EpochRecord)
              (dr : Z * (string -> R)),
         nth_error recs i = Some rec ->
         nth_error (Frame.rows Scenarios.jump_three_days) i = Some dr ->
         Simulation.position_hodl_dollars rec
         = 100 * (1 - 0) / 2
           * (snd dr "token0_price"%string / snd dr0 "token0_price"%string
              + snd dr "token1_price"%string
                / snd dr0 "token1_price"%string).
Proof.
  destruct jump_three_days_is_quiet as (Hquiet & Hdates & Hself).
  destruct (simulate_quiet Scenarios.sell_all 100 0 0 Scenarios.zero_borrow
              1 0 0 eq_refl eq_refl eq_refl Scenarios.jump_three_days
              Scenarios.unlevered_rebalancer Hquiet Hdates)
    as (recs & Hsim & _); try assumption; try lra.
  { discriminate. }
  exists recs.
  destruct (hodl_benchmark_is_half_and_half Scenarios.jump_three_days
              (Trading.Rebalancing Scenarios.unlevered_rebalancer)
              Scenarios.sell_all 100 1 0 0 Scenarios.zero_borrow true recs)
    as (dr0 & rest & Hrows & Hall).
  - repeat constructor; cbn; lra.
  - exact Hdates.
  - exact Hsim.
  - exists dr0, rest. split; [exact Hsim|]. split; [exact Hrows|exact Hall].
Defined.

(** * Properties of the linear scenario tables *)

Section Linspace.

Import Generators.

Lemma linspace_length (start stop : R) (num : nat) :
  List.length (linspace start stop num) = num.
Proof.
  unfold linspace.
  destruct num as [|[|m]]; [reflexivity|reflexivity|].
  replace (1 <? S (S m))%nat with true by reflexivity.
  replace (0 <? S (S m) - 1)%nat with true by reflexivity.
  rewrite seq_S, !map_app; cbn [map]. rewrite removelast_last.
  rewrite length_app, !length_map, length_seq. cbn [List.length]. lia.
Qed.

Lemma linspace_nth (start stop : R) (num i : nat) :
  (i < num)%nat ->
  nth_error (linspace start stop num) i
  = Some (start + INR i * ((stop - start) / INR (num - 1))).
Proof.
  intros Hi. unfold linspace.
  destruct num as [|[|m]]; [lia| |].
  - assert (i = 0%nat) as -> by lia. cbn [seq map Nat.sub Nat.ltb Nat.leb
                                          nth_error removelast].
    f_equal. rewrite INR_0. ring.
  - replace (1 <? S (S m))%nat with true by reflexivity.
    replace (0 <? S (S m) - 1)%nat with true by reflexivity.
    replace (S (S m) - 1)%nat with (S m) by lia.
    rewrite seq_S, !map_app; cbn [map]. rewrite removelast_last.
    destruct (Nat.eq_dec i (S m)) as [->|Hne].
    + rewrite nth_error_app2; rewrite !length_map, length_seq; [|lia].
      rewrite Nat.sub_diag. cbn [nth_error]. f_equal.
      field. apply not_0_INR. lia.
    + rewrite nth_error_app1; [|rewrite !length_map, length_seq; lia].
      rewrite !nth_error_map, nth_error_seq.
      replace (i <? S m)%nat with true by (symmetry; apply Nat.ltb_lt; lia).
      cbn [option_map Nat.add]. f_equal. ring.
Qed.

Lemma linspace_between (start stop : R) (num : nat) :
  0 < start -> 0 < stop -> Forall (fun v => 0 < v) (linspace start stop num).
Proof.
  intros Ha Hb. apply Forall_forall. intros v Hv.
  apply In_nth_error in Hv. destruct Hv as [i Hi].
  assert (Hlt : (i < num)%nat).
  { rewrite <- (linspace_length start stop num).
    apply nth_error_Some. now rewrite Hi. }
  rewrite (linspace_nth _ _ _ _ Hlt) in Hi. injection Hi as <-.
  destruct (Nat.eq_dec num 1) as [->|Hne].
  - assert (i = 0%nat) as -> by lia. rewrite INR_0. lra.
  - assert (Hd : 0 < INR (num - 1)) by (apply lt_0_INR; lia).
    assert (Hi' : 0 <= INR i <= INR (num - 1)).
    { split; [apply pos_INR|apply le_INR; lia]. }
    set (d := INR (num - 1)) in *. set (x := INR i) in *.
    clearbody d x.
    replace (start + x * ((stop - start) / d))
      with ((start * (d - x) + stop * x) / d) by (field; lra).
    apply Rdiv_lt_0_compat; [|exact Hd].
    destruct (Rle_lt_or_eq_dec _ _ (proj1 Hi')) as [Hx|<-]; nra.
Qed.

End Linspace.

Section ColumnOfValues.

Import Frame Generators.

Lemma nth_error_assigned (c : string) (l : list (Z * (string -> R))) :
  forall (values : list R) (i : nat) (dr : Z * (string -> R)),
    nth_error
      (map (fun drv : (Z * (string -> R)) * R =>
              (fst (fst drv), assign c (snd drv) (snd (fst drv))))
         (combine l values)) i
    = Some dr ->
    exists dr0 v,
      nth_error l i = Some dr0 /\ nth_error values i = Some v
      /\ dr = (fst dr0, assign c v (snd dr0)).
Proof.
  induction l as [|dr0 l IH]; intros [|v values] [|i] dr H;
    cbn [combine map nth_error] in *; try discriminate.
  - injection H as <-. exists dr0, v. repeat split.
  - now apply IH.
Qed.

Lemma map_fst_assigned (c : string) (l : list (Z * (string -> R))) :
  forall values : list R,
    List.length values = List.length l ->
    map fst
      (map (fun drv : (Z * (string -> R)) * R =>
              (fst (fst drv), assign c (snd drv) (snd (fst drv))))
         (combine l values))
    = map fst l.
Proof.
  induction l as [|dr0 l IH]; intros [|v values] Hlen;
    cbn [combine map List.length fst] in *; try discriminate;
    [reflexivity|].
  f_equal. apply IH. now injection Hlen.
Qed.

Lemma set_column_values_inv (df : DataFrame) (c : string) (values : list R)
    (df' : DataFrame) :
  set_column_values df c values = Ok df' ->
  List.length values = List.length (rows df)
  /\ (forall c', has_column df' c' = has_column df c' || String.eqb c' c)
  /\ map fst (rows df') = map fst (rows df)
  /\ forall (i : nat) (dr : Z * (string -> R)),
       nth_error (rows df') i = Some dr ->
       exists dr0 v,
         nth_error (rows df) i = Some dr0 /\ nth_error values i = Some v
         /\ dr = (fst dr0, assign c v (snd dr0)).
Proof.
  unfold set_column_values.
  destruct (Nat.eqb_spec (List.length values) (List.length (rows df)))
    as [Hlen|Hlen]; [|discriminate].
  intros H. injection H as <-. cbn [rows].
  split; [exact Hlen|]. split.
  { intros c'. exact (has_column_set_column df c c' 0). }
  split; [now apply map_fst_assigned|].
  intros i dr. apply nth_error_assigned.
Qed.

Lemma set_column_values_ok (df : DataFrame) (c : string) (values : list R) :
  List.length values = List.length (rows df) ->
  exists df', set_column_values df c values = Ok df'.
Proof.
  intros Hlen. unfold set_column_values.
  rewrite Hlen, Nat.eqb_refl. eauto.
Qed.

Lemma set_column_values_mismatch (df : DataFrame) (c : string)
    (values : list R) :
  List.length values <> List.length (rows df) ->
  set_column_values df c values = Raise ValueError.
Proof.
  intros Hlen. unfold set_column_values.
  now destruct (Nat.eqb_spec (List.length values) (List.length (rows df))).
Qed.

Lemma nth_error_initialize (n_days : nat) (t0 t1 : R) (start : string)
    (i : nat) (dr : Z * (string -> R)) :
  nth_error (rows (initialize_price_dataframe n_days t0 t1 start)) i
  = Some dr ->
  (i < n_days)%nat
  /\ fst dr = (date_2021_01_01 + Z.of_nat i)%Z
  /\ snd dr "token0_price"%string = 1.
Proof.
  unfold initialize_price_dataframe, Scenarios.frame_of, date_range;
    cbn [rows].
  rewrite !nth_error_map, nth_error_seq.
  destruct (Nat.ltb_spec i n_days) as [Hlt|Hge]; [|discriminate].
  cbn [option_map Nat.add fst snd]. intros H. injection H as <-.
  repeat split. exact Hlt.
Qed.

End ColumnOfValues.

Section LinearTables.

Import Frame Generators.

Lemma map_cell_assigned_same (c : string) (l : list (Z * (string -> R))) :
  forall values : list R,
    List.length values = List.length l ->
    map (fun dr : Z * (string -> R) => snd dr c)
      (map (fun drv : (Z * (string -> R)) * R =>
              (fst (fst drv), assign c (snd drv) (snd (fst drv))))
         (combine l values))
    = values.
Proof.
  induction l as [|dr0 l IH]; intros [|v values] Hlen;
    cbn [combine map List.length fst snd] in *; try discriminate;
    [reflexivity|].
  unfold assign at 1. rewrite String.eqb_refl.
  f_equal. apply IH. now injection Hlen.
Qed.

Lemma map_cell_assigned_other (c c' : string)
    (l : list (Z * (string -> R))) :
  String.eqb c' c = false ->
  forall values : list R,
    List.length values = List.length l ->
    map (fun dr : Z * (string -> R) => snd dr c')
      (map (fun drv : (Z * (string -> R)) * R =>
              (fst (fst drv), assign c (snd drv) (snd (fst drv))))
         (combine l values))
    = map (fun dr : Z * (string -> R) => snd dr c') l.
Proof.
  intros Hne.
  induction l as [|dr0 l IH]; intros [|v values] Hlen;
    cbn [combine map List.length fst snd] in *; try discriminate;
    [reflexivity|].
  unfold assign at 1. rewrite Hne.
  f_equal. apply IH. now injection Hlen.
Qed.

(** What a table keeps and what it gets when a column of values is
    assigned. *)
Lemma set_column_values_cells (df : DataFrame) (c : string)
    (values : list R) (df' : DataFrame) :
  set_column_values df c values = Ok df' ->
  (forall c', has_column df' c' = has_column df c' || String.eqb c' c)
  /\ List.length (rows df') = List.length (rows df)
  /\ map fst (rows df') = map fst (rows df)
  /\ map (fun dr : Z * (string -> R) => snd dr c) (rows df') = values
  /\ forall c',
       String.eqb c' c = false ->
       map (fun dr : Z * (string -> R) => snd dr c') (rows df')
       = map (fun dr : Z * (string -> R) => snd dr c') (rows df).
Proof.
  intros H.
  destruct (set_column_values_inv df c values df' H)
    as (Hlen & Hcols & Hfst & _).
  split; [exact Hcols|].
  split; [rewrite <- (length_map fst), Hfst; apply length_map|].
  split; [exact Hfst|].
  unfold set_column_values in H. rewrite Hlen, Nat.eqb_refl in H.
  injection H as <-. cbn [rows].
  split; [now apply map_cell_assigned_same|].
  intros c' Hne. now apply map_cell_assigned_other.
Qed.

Lemma linspace_explicit (start stop : R) (num : nat) :
  linspace start stop num
  = map (fun i => start + INR i * ((stop - start) / INR (num - 1)))
      (seq 0 num).
Proof.
  apply nth_error_ext. intros i.
  destruct (Nat.ltb_spec i num) as [Hlt|Hge].
  - rewrite (linspace_nth _ _ _ _ Hlt).
    rewrite nth_error_map, nth_error_seq.
    replace (i <? num)%nat with true by (symmetry; now apply Nat.ltb_lt).
    reflexivity.
  - transitivity (@None R); [|symmetry]; apply nth_error_None.
    + now rewrite linspace_length.
    + now rewrite length_map, length_seq.
Qed.

Lemma initialize_price_dataframe_cells (n_days : nat) (t0 t1 : R)
    (start : string) :
  let df := initialize_price_dataframe n_days t0 t1 start in
  List.length (rows df) = n_days
  /\ map fst (rows df) = date_range n_days
  /\ map (fun dr : Z * (string -> R) => snd dr "token0_price"%string)
       (rows df)
     = repeat 1 n_days.
Proof.
  intros df. subst df.
  destruct (initialize_price_dataframe_rows n_days t0 t1 start)
    as (Hlen & Hfst & _ & _).
  split; [exact Hlen|]. split; [exact Hfst|].
  unfold initialize_price_dataframe, Scenarios.frame_of; cbn [rows].
  rewrite !map_map; cbn [snd Scenarios.cell String.eqb Ascii.eqb Bool.eqb].
  rewrite map_const. unfold date_range.
  now rewrite length_map, length_seq.
Qed.

Lemma priced_rows_positive (df : DataFrame) (n : nat) (prices : list R) :
  map (fun dr : Z * (string -> R) => snd dr "token0_price"%string) (rows df)
  = repeat 1 n ->
  map (fun dr : Z * (string -> R) => snd dr "token1_price"%string) (rows df)
  = prices ->
  Forall (fun v => 0 < v) prices ->
  positive_prices df.
Proof.
  intros H0 H1 Hpos. unfold positive_prices.
  apply Forall_and.
  - apply (Forall_map (fun dr : Z * (string -> R) =>
                         snd dr "token0_price"%string) (fun v => 0 < v)).
    rewrite H0. apply Forall_forall. intros v Hv.
    apply repeat_spec in Hv. lra.
  - apply (Forall_map (fun dr : Z * (string -> R) =>
                         snd dr "token1_price"%string) (fun v => 0 < v)).
    now rewrite H1.
Qed.

End LinearTables.

Section LinearExample.

Import Frame Generators.

Lemma linear_table_facts (df : DataFrame) (n_days : nat)
    (p_initial p_final : R) :
  0 < p_initial -> 0 < p_final ->
  map fst (rows df) = date_range n_days ->
  map (fun dr : Z * (string -> R) => snd dr "token0_price"%string) (rows df)
  = repeat 1 n_days ->
  map (fun dr : Z * (string -> R) => snd dr "token1_price"%string) (rows df)
  = linspace p_initial p_final n_days ->
  dates_increasing df /\ positive_prices df.
Proof.
  intros Hi Hf Hfst H0 H1. split.
  - unfold dates_increasing. rewrite Hfst. apply date_range_from_sorted.
  - apply (priced_rows_positive df n_days _ H0 H1).
    now apply linspace_between.
Qed.

End LinearExample.

(** X23: [create_linear_price_change_example] with positive first and
    last token1 prices returns a table of [n_days] rows dated by
    consecutive days from 2021-01-01, with token0_price at 1 on every
    row (whatever [token0_price] is) and token1_price going from the
    first to the last price in equal steps; its dates increase and its
    prices are positive.  It has a reward_token_price column exactly
    when both reward prices are given and neither is zero. *)
Theorem linear_example_interpolates
    (n_days : nat) (token0_price p_initial p_final : R)
    (r_initial r_final : option R)
    (Hi : 0 < p_initial) (Hf : 0 < p_final) :
  exists df,
    Generators.create_linear_price_change_example n_days token0_price
      p_initial p_final r_initial r_final = Ok df
    /\ map fst (Frame.rows df) = Generators.date_range n_days
    /\ map (fun dr : Z * (string -> R) => snd dr "token0_price"%string)
         (Frame.rows df)
       = repeat 1 n_days
    /\ map (fun dr : Z * (string -> R) => snd dr "token1_price"%string)
         (Frame.rows df)
       = map (fun i =>
                p_initial
                + INR i * ((p_final - p_initial) / INR (n_days - 1)))
           (seq 0 n_days)
    /\ Frame.has_column df "token0_price" = true
    /\ Frame.has_column df "token1_price" = true
    /\ Frame.has_column df "reward_token_price"
       = Generators.truthy r_initial && Generators.truthy r_final
    /\ dates_increasing df
    /\ positive_prices df.
Proof.
  set (df0 := Generators.initialize_price_dataframe n_days token0_price
                p_initial "2021-01-01").
  destruct (initialize_price_dataframe_cells n_days token0_price p_initial
              "2021-01-01") as (Hlen0 & Hfst0 & Ht0).
  fold df0 in Hlen0, Hfst0, Ht0.
  destruct (set_column_values_ok df0 "token1_price"
              (Generators.linspace p_initial p_final
                 (List.length (Frame.rows df0))))
    as [df1 H1]; [apply linspace_length|].
  destruct (set_column_values_cells _ _ _ _ H1)
    as (Hcols1 & Hlen1 & Hfst1 & Hsame1 & Hother1).
  rewrite Hlen0 in Hsame1.
  pose proof (Hother1 "token0_price"%string eq_refl) as Hkeep1.
  rewrite Ht0 in Hkeep1. rewrite Hfst0 in Hfst1.
  unfold Generators.create_linear_price_change_example.
  fold df0. rewrite H1. cbn [bind].
  destruct (Generators.truthy r_initial && Generators.truthy r_final)
    eqn:Htruthy.
  - destruct r_initial as [ri|]; [|discriminate Htruthy].
    destruct r_final as [rf|];
      [|cbn in Htruthy; rewrite andb_false_r in Htruthy;
        discriminate Htruthy].
    destruct (set_column_values_ok df1 "reward_token_price"
                (Generators.linspace ri rf (List.length (Frame.rows df1))))
      as [df2 H2]; [apply linspace_length|].
    destruct (set_column_values_cells _ _ _ _ H2)
      as (Hcols2 & Hlen2 & Hfst2 & _ & Hother2).
    rewrite H2. cbn [bind]. exists df2.
    pose proof (Hother2 "token0_price"%string eq_refl) as Hk0.
    pose proof (Hother2 "token1_price"%string eq_refl) as Hk1.
    rewrite Hkeep1 in Hk0. rewrite Hsame1 in Hk1. rewrite Hfst1 in Hfst2.
    destruct (linear_table_facts df2 n_days p_initial p_final Hi Hf Hfst2
                Hk0 Hk1) as [Hdates Hpos].
    split; [reflexivity|]. split; [exact Hfst2|]. split; [exact Hk0|].
    split; [now rewrite Hk1, linspace_explicit|].
    rewrite !Hcols2, !Hcols1.
    repeat split; try reflexivity; assumption.
  - exists df1.
    destruct (linear_table_facts df1 n_days p_initial p_final Hi Hf Hfst1
                Hkeep1 Hsame1) as [Hdates Hpos].
    split; [reflexivity|]. split; [exact Hfst1|]. split; [exact Hkeep1|].
    split; [now rewrite Hsame1, linspace_explicit|].
    rewrite !Hcols1.
    repeat split; try reflexivity; assumption.
Qed.

Lemma linear_example_interpolates_witness :
  exists df,
    Generators.create_linear_price_change_example 5 1 (1 / 10) (1 / 100)
      None None = Ok df
    /\ map fst (Frame.rows df) = Generators.date_range 5
    /\ map (fun dr : Z * (string -> R) => snd dr "token0_price"%string)
         (Frame.rows df)
       = repeat 1 5
    /\ map (fun dr : Z * (string -> R) => snd dr "token1_price"%string)
         (Frame.rows df)
       = map (fun i =>
                1 / 10 + INR i * ((1 / 100 - 1 / 10) / INR (5 - 1)))
           (seq 0 5)
    /\ Frame.has_column df "token0_price" = true
    /\ Frame.has_column df "token1_price" = true
    /\ Frame.has_column df "reward_token_price"
       = Generators.truthy None && Generators.truthy None
    /\ dates_increasing df
    /\ positive_prices df.
Proof.
  apply (linear_example_interpolates 5 1 (1 / 10) (1 / 100) None None); lra.
Defined.

Section LinearAndBack.

Import Frame Generators.

Lemma round_half_bounds (k : nat) :
  (k / 2 <= round_half k <= k / 2 + 1)%nat
  /\ (2 * (k / 2) <= k <= 2 * (k / 2) + 1)%nat.
Proof.
  pose proof (Nat.div_mod_eq k 2) as Hdm.
  pose proof (Nat.mod_upper_bound k 2) as Hub.
  unfold round_half.
  destruct (Nat.even k), (Nat.even (k / 2)); lia.
Qed.

Lemma round_half_short (k : nat) :
  (4 <= k)%nat -> (round_half k + 1 < k)%nat.
Proof.
  intros Hk.
  destruct (Nat.eq_dec k 4) as [->|H4]; [cbv; lia|].
  destruct (Nat.eq_dec k 5) as [->|H5]; [cbv; lia|].
  destruct (round_half_bounds k) as [[_ Hup] [Hlow _]].
  pose proof (Nat.div_mod_eq k 2) as Hdm.
  pose proof (Nat.mod_upper_bound k 2) as Hub.
  lia.
Qed.

(** The prices [create_linear_and_back_example] assigns to a table of [k]
    rows: up to the peak over [round_half k + 1] entries, then back
    towards the base, cut after [k] entries. *)
Lemma and_back_length (base peak : R) (k : nat) :
  List.length
    (firstn k
       (linspace base peak (round_half k + 1)
        ++ linspace peak base (round_half k + 1 + 1)))
  = k.
Proof.
  rewrite length_firstn, length_app, !linspace_length.
  destruct (round_half_bounds k) as [[Hlow _] [_ Hup]]. lia.
Qed.

Lemma and_back_reward_length (base peak : R) (k : nat) :
  List.length
    (firstn (round_half k + 1)
       (linspace base peak (round_half k + 1)
        ++ linspace peak base (round_half k + 1 + 1)))
  = (round_half k + 1)%nat.
Proof. rewrite length_firstn, length_app, !linspace_length. lia. Qed.

End LinearAndBack.

(** X24: with both reward prices given and neither zero,
    [create_linear_and_back_example] for four days or more raises
    [ValueError]: it cuts the reward prices after
    [int(round(n_days / 2)) + 1] entries, which is fewer than the
    [n_days] rows of the table they are assigned to. *)
Theorem linear_and_back_with_reward_prices_fails
    (n_days : nat) (token0_price base peak reward_base reward_peak : R)
    (Hn : (4 <= n_days)%nat)
    (Hrb : reward_base <> 0) (Hrp : reward_peak <> 0) :
  Generators.create_linear_and_back_example n_days token0_price base peak
    (Some reward_base) (Some reward_peak)
  = Raise ValueError.
Proof.
  set (df0 := Generators.initialize_price_dataframe n_days token0_price
                base "2021-01-01").
  destruct (initialize_price_dataframe_cells n_days token0_price base
              "2021-01-01") as (Hlen0 & _ & _).
  fold df0 in Hlen0.
  unfold Generators.create_linear_and_back_example. fold df0.
  rewrite Hlen0.
  destruct (set_column_values_ok df0 "token1_price"
              (firstn n_days
                 (Generators.linspace base peak
                    (Generators.round_half n_days + 1)
                  ++ Generators.linspace peak base
                       (Generators.round_half n_days + 1 + 1))))
    as [df1 H1]; [now rewrite and_back_length|].
  destruct (set_column_values_cells _ _ _ _ H1) as (_ & Hlen1 & _).
  rewrite H1. cbn [bind Generators.truthy].
  destruct (Req_dec_T reward_base 0) as [E|_]; [contradiction|].
  destruct (Req_dec_T reward_peak 0) as [E|_]; [contradiction|].
  cbn [andb].
  rewrite set_column_values_mismatch; [reflexivity|].
  rewrite and_back_reward_length, Hlen1, Hlen0.
  pose proof (round_half_short n_days Hn). lia.
Qed.

Lemma linear_and_back_with_reward_prices_fails_witness :
  Generators.create_linear_and_back_example 10 1 (1 / 10) (1 / 100)
    (Some 1) (Some 2)
  = Raise ValueError.
Proof.
  apply (linear_and_back_with_reward_prices_fails 10 1 (1 / 10) (1 / 100)
           1 2); [lia|lra|lra].
Defined.

Section AndBackPrices.

Import Frame Generators.

Variables (base peak : R) (k : nat).
Hypothesis Hk : (2 <= k)%nat.
Hypothesis Hne : base <> peak.

Lemma and_back_first :
  nth_error
    (firstn k
       (linspace base peak (round_half k + 1)
        ++ linspace peak base (round_half k + 1 + 1))) 0
  = Some base.
Proof.
  rewrite nth_error_firstn.
  replace (0 <? k)%nat with true by (symmetry; apply Nat.ltb_lt; lia).
  rewrite nth_error_app1 by (rewrite linspace_length; lia).
  rewrite linspace_nth by lia. f_equal. rewrite INR_0. ring.
Qed.

Lemma and_back_peak :
  nth_error
    (firstn k
       (linspace base peak (round_half k + 1)
        ++ linspace peak base (round_half k + 1 + 1))) (round_half k)
  = Some peak.
Proof.
  destruct (round_half_bounds k) as [[Hlow Hup] [Hk0 Hk1]].
  assert (Hrh : (1 <= round_half k < k)%nat).
  { pose proof (Nat.div_mod_eq k 2). pose proof (Nat.mod_upper_bound k 2).
    destruct (Nat.eq_dec k 2) as [->|H2]; [cbv; lia|].
    destruct (Nat.eq_dec k 3) as [->|H3]; [cbv; lia|]. lia. }
  rewrite nth_error_firstn.
  replace (round_half k <? k)%nat with true
    by (symmetry; apply Nat.ltb_lt; lia).
  rewrite nth_error_app1 by (rewrite linspace_length; lia).
  rewrite linspace_nth by lia. f_equal.
  replace (round_half k + 1 - 1)%nat with (round_half k) by lia.
  field. apply not_0_INR. lia.
Qed.

Lemma and_back_last :
  exists v,
    nth_error
      (firstn k
         (linspace base peak (round_half k + 1)
          ++ linspace peak base (round_half k + 1 + 1))) (k - 1)
    = Some v
    /\ v <> base.
Proof.
  destruct (round_half_bounds k) as [[Hlow Hup] [Hk0 Hk1]].
  assert (Hrh : (1 <= round_half k)%nat).
  { pose proof (Nat.div_mod_eq k 2). pose proof (Nat.mod_upper_bound k 2).
    lia. }
  set (n := (round_half k + 1)%nat) in *.
  rewrite nth_error_firstn.
  replace (k - 1 <? k)%nat with true by (symmetry; apply Nat.ltb_lt; lia).
  destruct (Nat.ltb_spec (k - 1) n) as [Hlt|Hge].
  - rewrite nth_error_app1 by (rewrite linspace_length; lia).
    rewrite linspace_nth by lia. eexists. split; [reflexivity|].
    assert (Hx : 0 < INR (k - 1)) by (apply lt_0_INR; lia).
    assert (Hd : 0 < INR (n - 1)) by (apply lt_0_INR; lia).
    set (x := INR (k - 1)) in *. set (d := INR (n - 1)) in *.
    clearbody x d. intros Heq.
    assert (H0 : x * ((peak - base) / d) = 0) by lra.
    apply Rmult_integral in H0. destruct H0 as [H0|H0]; [lra|].
    unfold Rdiv in H0. apply Rmult_integral in H0.
    destruct H0 as [H0|H0]; [lra|].
    apply Rinv_neq_0_compat in H0; [exact H0|lra].
  - rewrite nth_error_app2 by (rewrite linspace_length; lia).
    rewrite linspace_length.
    rewrite linspace_nth by lia. eexists. split; [reflexivity|].
    replace (n + 1 - 1)%nat with n by lia.
    assert (Hx : 0 <= INR (k - 1 - n)) by apply pos_INR.
    assert (Hxd : INR (k - 1 - n) < INR n) by (apply lt_INR; lia).
    set (x := INR (k - 1 - n)) in *. set (d := INR n) in *.
    clearbody x d. intros Heq.
    assert (H0 : (base - peak) * (x - d) = 0).
    { assert (H1 : x * ((base - peak) / d) * d = (base - peak) * d)
        by (rewrite <- (Rplus_0_l (x * ((base - peak) / d)));
            replace 0 with (peak - peak) by ring; nra).
      replace (x * ((base - peak) / d) * d) with (x * (base - peak)) in H1
        by (field; lra).
      lra. }
    apply Rmult_integral in H0. destruct H0 as [H0|H0]; lra.
Qed.

End AndBackPrices.

(** X25: without reward prices, [create_linear_and_back_example] for two
    days or more and a peak other than the base returns a table of
    [n_days] rows whose token1_price starts at the base, is at the peak
    on row [int(round(n_days / 2))] (counted from 0), and is not back at
    the base on the last row. *)
Theorem linear_and_back_stops_short_of_base
    (n_days : nat) (token0_price base peak : R)
    (reward_base reward_peak : option R)
    (Hn : (2 <= n_days)%nat) (Hne : base <> peak)
    (Hnone : Generators.truthy reward_base && Generators.truthy reward_peak
             = false) :
  exists df v,
    Generators.create_linear_and_back_example n_days token0_price base peak
      reward_base reward_peak = Ok df
    /\ List.length (Frame.rows df) = n_days
    /\ nth_error
         (map (fun dr : Z * (string -> R) => snd dr "token1_price"%string)
            (Frame.rows df)) 0
       = Some base
    /\ nth_error
         (map (fun dr : Z * (string -> R) => snd dr "token1_price"%string)
            (Frame.rows df)) (Generators.round_half n_days)
       = Some peak
    /\ nth_error
         (map (fun dr : Z * (string -> R) => snd dr "token1_price"%string)
            (Frame.rows df)) (n_days - 1)
       = Some v
    /\ v <> base.
Proof.
  set (df0 := Generators.initialize_price_dataframe n_days token0_price
                base "2021-01-01").
  destruct (initialize_price_dataframe_cells n_days token0_price base
              "2021-01-01") as (Hlen0 & _ & _).
  fold df0 in Hlen0.
  destruct (set_column_values_ok df0 "token1_price"
              (firstn n_days
                 (Generators.linspace base peak
                    (Generators.round_half n_days + 1)
                  ++ Generators.linspace peak base
                       (Generators.round_half n_days + 1 + 1))))
    as [df1 H1]; [now rewrite and_back_length|].
  destruct (set_column_values_cells _ _ _ _ H1)
    as (_ & Hlen1 & _ & Hsame1 & _).
  destruct (and_back_last base peak n_days Hn Hne) as (v & Hv & Hvne).
  exists df1, v.
  unfold Generators.create_linear_and_back_example. fold df0.
  rewrite Hlen0, H1. cbn [bind]. rewrite Hnone.
  split; [reflexivity|]. split; [now rewrite Hlen1|].
  rewrite Hsame1.
  split; [now apply and_back_first|].
  split; [now apply and_back_peak|].
  split; [exact Hv|exact Hvne].
Qed.

Lemma linear_and_back_stops_short_of_base_witness :
  exists df v,
    Generators.create_linear_and_back_example 10 1 (1 / 10) (1 / 100)
      None None = Ok df
    /\ List.length (Frame.rows df) = 10%nat
    /\ nth_error
         (map (fun dr : Z * (string -> R) => snd dr "token1_price"%string)
            (Frame.rows df)) 0
       = Some (1 / 10)
    /\ nth_error
         (map (fun dr : Z * (string -> R) => snd dr "token1_price"%string)
            (Frame.rows df)) (Generators.round_half 10)
       = Some (1 / 100)
    /\ nth_error
         (map (fun dr : Z * (string -> R) => snd dr "token1_price"%string)
            (Frame.rows df)) (10 - 1)
       = Some v
    /\ v <> 1 / 10.
Proof.
  apply (linear_and_back_stops_short_of_base 10 1 (1 / 10) (1 / 100)
           None None); [lia|lra|reflexivity].
Defined.

(** X26: [create_small_example] succeeds, both cells it assigns being
    inside the table, and returns four rows dated by consecutive days
    from 2021-01-01 with token0_price at 1 and token1_price at 0.1, 0.1,
    0.01 and 0.5; the dates increase and the prices are positive. *)
Theorem small_example_table :
  exists df,
    Generators.create_small_example = Ok df
    /\ map fst (Frame.rows df) = Generators.date_range 4
    /\ map (fun dr : Z * (string -> R) => snd dr "token0_price"%string)
         (Frame.rows df)
       = [1; 1; 1; 1]
    /\ map (fun dr : Z * (string -> R) => snd dr "token1_price"%string)
         (Frame.rows df)
       = [1 / 10; 1 / 10; 1 / 100; 1 / 2]
    /\ dates_increasing df
    /\ positive_prices df.
Proof.
  eexists. split; [reflexivity|].
  split; [reflexivity|].
  split; [reflexivity|].
  split.
  { reflexivity. }
  split.
  - repeat constructor.
  - repeat constructor; cbn; lra.
Qed.

(** * Trade events of a rebalancing run *)

Section UnleveredRebalancing.

Import Frame Simulation.

Variables (df : DataFrame) (rewards_cls : Rewards.RewardsStrategy).
Variables (initial_cap leverage fee_swap : R) (ov : Overrides).
Variables (a b0 b1 : R).
Hypothesis Hb0 : apy_borrow_token0 ov = Some b0.
Hypothesis Hb1 : apy_borrow_token1 ov = Some b1.
Hypothesis Hsell : Rewards._rewards_sell_amount rewards_cls = Rewards.VFloat a.



End UnleveredRebalancing.


Section CostlyRebalance.

Import Frame Simulation.


Variables (df : DataFrame) (rewards_cls : Rewards.RewardsStrategy).
Variables (initial_cap leverage fee_swap : R) (ov : Overrides).
Variable init : Initial.



End CostlyRebalance.


